(** * Panora ticketing services: cursor pagination, upserts and reads

    A shallow embedding of the entity services of the ticketing vertical
    (team, account, contact, attachment and ticket services) together with
    the properties stated about them.  Database tables are lists of rows in
    insertion order, Prisma calls are functions over those lists, and every
    service method is a computation in a small state-and-exception monad
    over the database and the outside world (clock, uuid source, webhooks). *)

From Stdlib Require Import List String Ascii Bool Arith Lia.
From Stdlib Require Import Permutation Sorted.
Import ListNotations.
Local Open Scope string_scope.
Local Open Scope list_scope.

Set Implicit Arguments.

(* ===================================================================== *)
(** ** Base64, as produced by [Buffer.from(s).toString('base64')] *)
(* ===================================================================== *)

(** A string stands for the bytes [Buffer.from] makes of it (its UTF-8
    encoding); the ids the services encode are uuids. *)

Module Base64.

(** A group of six bits, most significant first. *)
Definition sextet : Type := (bool * bool * bool * bool * bool * bool)%type.

Definition bit (b : bool) : nat := if b then 1 else 0.

Definition sextet_index (s : sextet) : nat :=
  let '(b5, b4, b3, b2, b1, b0) := s in
  32 * bit b5 + 16 * bit b4 + 8 * bit b3 + 4 * bit b2 + 2 * bit b1 + bit b0.

Definition index_sextet (n : nat) : sextet :=
  (Nat.testbit n 5, Nat.testbit n 4, Nat.testbit n 3,
   Nat.testbit n 2, Nat.testbit n 1, Nat.testbit n 0).

Definition alphabet : string :=
  "ABCDEFGHIJKLMNOPQRSTUVWXYZabcdefghijklmnopqrstuvwxyz0123456789+/".

Definition pad : ascii := "="%char.

Definition sextet_char (s : sextet) : ascii :=
  match String.get (sextet_index s) alphabet with
  | Some c => c
  | None => pad
  end.

Fixpoint index_of (c : ascii) (s : string) : option nat :=
  match s with
  | EmptyString => None
  | String d rest =>
      if Ascii.eqb c d then Some 0
      else match index_of c rest with
           | Some n => Some (S n)
           | None => None
           end
  end.

Definition char_sextet (c : ascii) : option sextet :=
  match index_of c alphabet with
  | Some n => Some (index_sextet n)
  | None => None
  end.

(** The four sextets of a group of three bytes. *)
Definition sextets3 (a b c : ascii) : sextet * sextet * sextet * sextet :=
  let '(Ascii a0 a1 a2 a3 a4 a5 a6 a7) := a in
  let '(Ascii b0 b1 b2 b3 b4 b5 b6 b7) := b in
  let '(Ascii c0 c1 c2 c3 c4 c5 c6 c7) := c in
  ((a7, a6, a5, a4, a3, a2),
   (a1, a0, b7, b6, b5, b4),
   (b3, b2, b1, b0, c7, c6),
   (c5, c4, c3, c2, c1, c0)).

(** The three bytes of a group of four sextets. *)
Definition bytes3 (s1 s2 s3 s4 : sextet) : ascii * ascii * ascii :=
  let '(a7, a6, a5, a4, a3, a2) := s1 in
  let '(a1, a0, b7, b6, b5, b4) := s2 in
  let '(b3, b2, b1, b0, c7, c6) := s3 in
  let '(c5, c4, c3, c2, c1, c0) := s4 in
  (Ascii a0 a1 a2 a3 a4 a5 a6 a7,
   Ascii b0 b1 b2 b3 b4 b5 b6 b7,
   Ascii c0 c1 c2 c3 c4 c5 c6 c7).

(** [encode s]: three bytes become four characters; a last group of one
    or two bytes is completed with zero bits and [=] padding. *)
Fixpoint encode (s : string) : string :=
  match s with
  | EmptyString => EmptyString
  | String a EmptyString =>
      let '(s1, s2, _, _) := sextets3 a zero zero in
      String (sextet_char s1) (String (sextet_char s2)
        (String pad (String pad EmptyString)))
  | String a (String b EmptyString) =>
      let '(s1, s2, s3, _) := sextets3 a b zero in
      String (sextet_char s1) (String (sextet_char s2)
        (String (sextet_char s3) (String pad EmptyString)))
  | String a (String b (String c rest)) =>
      let '(s1, s2, s3, s4) := sextets3 a b c in
      String (sextet_char s1) (String (sextet_char s2)
        (String (sextet_char s3) (String (sextet_char s4) (encode rest))))
  end.

(** [decode t]: the inverse reading, four characters at a time; [None]
    when [t] is not a padded base64 text. *)
Fixpoint decode (t : string) : option string :=
  match t with
  | EmptyString => Some EmptyString
  | String c1 (String c2 (String c3 (String c4 rest))) =>
      match char_sextet c1, char_sextet c2 with
      | Some s1, Some s2 =>
          match char_sextet c3, char_sextet c4 with
          | Some s3, Some s4 =>
              let '(a, b, c) := bytes3 s1 s2 s3 s4 in
              match decode rest with
              | Some r => Some (String a (String b (String c r)))
              | None => None
              end
          | Some s3, None =>
              if Ascii.eqb c4 pad && String.eqb rest EmptyString then
                let '(a, b, _) := bytes3 s1 s2 s3 (index_sextet 0) in
                Some (String a (String b EmptyString))
              else None
          | None, _ =>
              if Ascii.eqb c3 pad && Ascii.eqb c4 pad
                 && String.eqb rest EmptyString then
                let '(a, _, _) :=
                  bytes3 s1 s2 (index_sextet 0) (index_sextet 0) in
                Some (String a EmptyString)
              else None
          end
      | _, _ => None
      end
  | _ => None
  end.

End Base64.

(* ===================================================================== *)
(** ** Values shared by all services *)
(* ===================================================================== *)

(** Instants ([Date] values) are counted in milliseconds. *)
Definition time : Type := nat.

(** What a service method can throw.  [ReferenceError] and [JsError] are
    the two classes the services throw themselves ([throw new
    ReferenceError(..)], [throw new Error(..)]); [TypeError] is what the
    runtime throws when a property of [null] is read; [SyntaxError] is
    thrown by [JSON.parse]; [Rejected] is a failure reported by a
    collaborator that is not part of these services. *)
Inductive error : Type :=
| ReferenceError (message : string)
| JsError (message : string)
| TypeError (message : string)
| SyntaxError (message : string)
| Rejected (message : string).

Inductive result (A : Type) : Type :=
| Ok (value : A)
| Err (e : error).
Arguments Ok {A} value.
Arguments Err {A} e.

(** JavaScript truthiness of an optional string: [undefined], [null] and
    the empty string are falsy. *)
Definition truthy (s : option string) : bool :=
  match s with
  | Some v => negb (String.eqb v "")
  | None => false
  end.

(** A [Map] from slugs to values, in insertion order: [set] on a key that
    is present replaces its value in place, otherwise the entry is added
    at the end. *)
Fixpoint Map_set (k v : string) (m : list (string * string))
  : list (string * string) :=
  match m with
  | [] => [(k, v)]
  | (k', v') :: rest =>
      if String.eqb k k' then (k, v) :: rest
      else (k', v') :: Map_set k v rest
  end.

(* ===================================================================== *)
(** ** Tables *)
(* ===================================================================== *)

(** One module per table, with the column names of the queries.  Nullable
    columns are options. *)

Module tcg_teams.
Record row : Type := {
  id_tcg_team : string;
  name : string;
  description : string;
  remote_id : option string;
  created_at : time;
  modified_at : time;
  id_connection : string }.
End tcg_teams.

Module tcg_accounts.
Record row : Type := {
  id_tcg_account : string;
  name : string;
  domains : list string;
  remote_id : option string;
  created_at : time;
  modified_at : time;
  id_connection : string }.
End tcg_accounts.

Module tcg_contacts.
Record row : Type := {
  id_tcg_contact : string;
  email_address : string;
  name : string;
  details : string;
  phone_number : string;
  remote_id : option string;
  created_at : time;
  modified_at : time;
  id_connection : string }.
End tcg_contacts.

Module tcg_users.
Record row : Type := {
  id_tcg_user : string;
  id_connection : string }.
End tcg_users.

Module tcg_attachments.
Record row : Type := {
  id_tcg_attachment : string;
  file_name : string;
  file_url : option string;
  uploader : string;
  remote_id : option string;
  created_at : time;
  modified_at : time;
  id_connection : string;
  id_tcg_comment : option string;
  id_tcg_ticket : option string }.
End tcg_attachments.

Module tcg_tickets.
(** [created_at] is not written by the ticket service; what a new row
    holds there is the column default, recorded here as unset. *)
Record row : Type := {
  id_tcg_ticket : string;
  name : option string;
  status : option string;
  priority : option string;
  source : option string;
  remote_id : option string;
  id_connection : string;
  created_at : option time;
  modified_at : time }.
End tcg_tickets.

Module linked_users.
Record row : Type := {
  id_linked_user : string;
  id_project : string }.
End linked_users.

Module value.
(** A field-mapping value joined with its entity and its attribute:
    [entity.ressource_owner_id], [attribute.slug] and [data]. *)
Record row : Type := {
  ressource_owner_id : string;
  slug : string;
  data : string }.
End value.

Module remote_data.
Record row : Type := {
  ressource_owner_id : string;
  data : string }.
End remote_data.

Module events.
Record row : Type := {
  id_connection : string;
  id_project : string;
  id_event : string;
  status : string;
  type : string;
  method : string;
  url : string;
  provider : string;
  direction : string;
  timestamp : time;
  id_linked_user : string }.
End events.


Record Database : Type := {
  teams : list tcg_teams.row;
  accounts : list tcg_accounts.row;
  contacts : list tcg_contacts.row;
  users : list tcg_users.row;
  attachments : list tcg_attachments.row;
  tickets : list tcg_tickets.row;
  linkedUsers : list linked_users.row;
  values : list value.row;
  remoteData : list remote_data.row;
  eventLog : list events.row }.

(* ===================================================================== *)
(** ** Unified (canonical) records, [types/model.unified] *)
(* ===================================================================== *)

(** A parsed JSON document.  Numbers keep their literal. *)
#[warnings="-register-all"]
Inductive json : Type :=
| JNull
| JBool (b : bool)
| JNumber (literal : string)
| JString (s : string)
| JArray (items : list json)
| JObject (members : list (string * json)).

(** [JSON.parse] is part of the runtime: [None] stands for the
    [SyntaxError] it throws on a malformed text. *)
Class Runtime : Type := {
  JSON_parse : string -> option json }.

(** An object built by [Object.fromEntries]: its entries in order. *)
Definition object : Type := list (string * string).

Module UnifiedTicketingTeamOutput.
Record t : Type := {
  id : string;
  name : string;
  description : string;
  field_mappings : object;
  remote_id : option string;
  created_at : time;
  modified_at : time;
  remote_data : option json }.
End UnifiedTicketingTeamOutput.

Module UnifiedTicketingAccountOutput.
(** [getAccount] puts an object in [field_mappings], [getAccounts] an
    array of one-entry objects. *)
Inductive mappings : Type :=
| AsObject (entries : object)
| AsArray (singletons : list (string * string)).
Record t : Type := {
  id : string;
  name : string;
  domains : list string;
  field_mappings : mappings;
  remote_id : option string;
  created_at : time;
  modified_at : time;
  remote_data : option json }.
End UnifiedTicketingAccountOutput.

Module UnifiedTicketingContactOutput.
Record t : Type := {
  id : string;
  email_address : string;
  name : string;
  details : string;
  phone_number : string;
  field_mappings : object;
  remote_id : option string;
  created_at : time;
  modified_at : time;
  remote_data : option json }.
End UnifiedTicketingContactOutput.

Module UnifiedTicketingAttachmentOutput.
Record t : Type := {
  id : string;
  file_name : string;
  file_url : option string;
  uploader : string;
  field_mappings : object;
  remote_id : option string;
  created_at : time;
  modified_at : time;
  comment_id : option string;
  ticket_id : option string;
  remote_data : option json }.
End UnifiedTicketingAttachmentOutput.

Module UnifiedTicketingAttachmentInput.
Record t : Type := {
  file_name : string }.
End UnifiedTicketingAttachmentInput.

Module UnifiedTicketingTicketOutput.
(** The fields the ticket service reads from a unified ticket, and those a
    fetched ticket carries; every one of them may be [undefined]. *)
Record t : Type := {
  id : option string;
  name : option string;
  status : option string;
  priority : option string;
  source : option string;
  field_mappings : option object;
  remote_id : option string;
  created_at : option time;
  modified_at : option time;
  remote_data : option json }.
End UnifiedTicketingTicketOutput.

(* ===================================================================== *)
(** ** The world and the monad of service methods *)
(* ===================================================================== *)

(** A webhook handed to [WebhookService.dispatchWebhook]. *)
Inductive HookData : Type :=
| TicketData (ticket : UnifiedTicketingTicketOutput.t)
| AttachmentData (attachment : UnifiedTicketingAttachmentOutput.t).

Record Hook : Type := {
  hookData : HookData;
  hookEventType : string;
  hookProjectId : string;
  hookEventId : string }.

(** The world a service method runs in: the database, the clock read by
    [new Date()], the source of [uuidv4()] values (the [uuidCount]-th call
    returns [uuidSource uuidCount]), and the webhooks dispatched so far. *)
Record World : Type := {
  db : Database;
  now : time;
  uuidSource : nat -> string;
  uuidCount : nat;
  dispatched : list Hook }.

(** A service method: it ends with a value or a thrown error; what it
    wrote before throwing stays written (no query of these services runs
    in a transaction).  The [logger] calls write nothing that is modelled;
    a [catch] block that logs and rethrows is the identity. *)
Definition M (A : Type) : Type := World -> result A * World.

Definition ret {A} (a : A) : M A := fun w => (Ok a, w).

Definition bind {A B} (m : M A) (k : A -> M B) : M B :=
  fun w =>
    match m w with
    | (Ok a, w') => k a w'
    | (Err e, w') => (Err e, w')
    end.

Definition throw {A} (e : error) : M A := fun w => (Err e, w).

Declare Scope service_scope.
Delimit Scope service_scope with service.
Notation "x <- m ;; k" := (bind m (fun x => k))
  (at level 61, m at next level, right associativity) : service_scope.
Notation "m ;; k" := (bind m (fun _ => k))
  (at level 61, right associativity) : service_scope.
Local Open Scope service_scope.

Definition withDb (d : Database) (w : World) : World :=
  {| db := d; now := now w; uuidSource := uuidSource w;
     uuidCount := uuidCount w; dispatched := dispatched w |}.

Definition afterUuid (w : World) : World :=
  {| db := db w; now := now w; uuidSource := uuidSource w;
     uuidCount := S (uuidCount w); dispatched := dispatched w |}.

Definition getDb : M Database := fun w => (Ok (db w), w).

Definition setDb (f : Database -> Database) : M unit :=
  fun w => (Ok tt, withDb (f (db w)) w).

(** [uuidv4()] *)
Definition uuidv4 : M string :=
  fun w => (Ok (uuidSource w (uuidCount w)), afterUuid w).

(** [new Date()] *)
Definition newDate : M time := fun w => (Ok (now w), w).

(** [await Promise.all(xs.map(async (x) => f x))]: every callback is
    started, in the order of the array; the callbacks of these services only
    read, so running them one after the other gives the same results, and
    the first rejection is the one that surfaces. *)
Fixpoint Promise_all_map {A B} (f : A -> M B) (xs : list A) : M (list B) :=
  match xs with
  | [] => ret []
  | x :: rest =>
      y <- f x ;;
      ys <- Promise_all_map f rest ;;
      ret (y :: ys)
  end.

(** Reading a property of a value that may be [null] or [undefined]: the
    runtime throws a [TypeError] when it is. *)
Definition derefOr {A} (absent : string) (o : option A) (property : string)
  : M A :=
  match o with
  | Some a => ret a
  | None =>
      throw (TypeError
               ("Cannot read properties of " ++ absent ++ " (reading '"
                ++ property ++ "')"))
  end.

(** A query that found no row returns [null]. *)
Definition deref {A} (o : option A) (property : string) : M A :=
  derefOr "null" o property.

(** [WebhookService.dispatchWebhook]: the service is a collaborator; the
    world decides, webhook by webhook, whether the dispatch rejects. *)
Class WebhookService : Type := {
  dispatchOutcome : Hook -> option error }.

Definition dispatchWebhook `{WebhookService} (data : HookData)
    (eventType projectId eventId : string) : M unit :=
  fun w =>
    let h := {| hookData := data; hookEventType := eventType;
                hookProjectId := projectId; hookEventId := eventId |} in
    match dispatchOutcome h with
    | Some e => (Err e, w)
    | None =>
        (Ok tt, {| db := db w; now := now w; uuidSource := uuidSource w;
                   uuidCount := uuidCount w;
                   dispatched := dispatched w ++ [h] |})
    end.

(* ===================================================================== *)
(** ** Prisma queries *)
(* ===================================================================== *)

(** The columns the paginated queries use, per table. *)
Class Table (R : Type) : Type := {
  primaryKey : R -> string;
  connectionOf : R -> string;
  createdAt : R -> time }.

#[export] Instance Table_teams : Table tcg_teams.row := {
  primaryKey := tcg_teams.id_tcg_team;
  connectionOf := tcg_teams.id_connection;
  createdAt := tcg_teams.created_at }.

#[export] Instance Table_accounts : Table tcg_accounts.row := {
  primaryKey := tcg_accounts.id_tcg_account;
  connectionOf := tcg_accounts.id_connection;
  createdAt := tcg_accounts.created_at }.

#[export] Instance Table_contacts : Table tcg_contacts.row := {
  primaryKey := tcg_contacts.id_tcg_contact;
  connectionOf := tcg_contacts.id_connection;
  createdAt := tcg_contacts.created_at }.

#[export] Instance Table_attachments : Table tcg_attachments.row := {
  primaryKey := tcg_attachments.id_tcg_attachment;
  connectionOf := tcg_attachments.id_connection;
  createdAt := tcg_attachments.created_at }.

(** [findUnique] and [findFirst]: the first row that satisfies [where]. *)
Definition findFirst {R} (where_ : R -> bool) (table : list R) : option R :=
  find where_ table.

Definition findUnique {R} (where_ : R -> bool) (table : list R) : option R :=
  find where_ table.

(** A [where] clause on a column: an [undefined] value puts no condition
    on the column. *)
Definition whereEq (wanted : option string) (column : option string) : bool :=
  match wanted with
  | None => true
  | Some v =>
      match column with
      | Some c => String.eqb c v
      | None => false
      end
  end.

(** [orderBy: { created_at: 'asc' }]: rows with the same instant keep the
    order in which they were inserted. *)
Fixpoint insertByCreatedAt {R} `{Table R} (r : R) (sorted : list R) : list R :=
  match sorted with
  | [] => [r]
  | x :: rest =>
      if Nat.leb (createdAt r) (createdAt x) then r :: x :: rest
      else x :: insertByCreatedAt r rest
  end.

Fixpoint orderByCreatedAt {R} `{Table R} (rows : list R) : list R :=
  match rows with
  | [] => []
  | r :: rest => insertByCreatedAt r (orderByCreatedAt rest)
  end.

(** [cursor: { id: c }] under [orderBy: { created_at: 'asc' }]: the store
    places the cursor by the column of the order.  The result holds the rows
    created at the instant of the row whose id is [c] or later, that row
    included, whether they come before or after it among the rows of that
    instant; it holds no row when no row has the id. *)
Definition fromCursor {R} `{Table R} (c : string) (rows : list R) : list R :=
  match find (fun r => String.eqb (primaryKey r) c) rows with
  | Some cursorRow =>
      filter (fun r => Nat.leb (createdAt cursorRow) (createdAt r)) rows
  | None => []
  end.

(** The rows of a connection in creation order. *)
Definition rowsOf {R} `{Table R} (connection_id : string) (table : list R)
  : list R :=
  orderByCreatedAt
    (filter (fun r => String.eqb (connectionOf r) connection_id) table).

(** [findMany({ take, cursor, orderBy: { created_at: 'asc' },
                where: { id_connection } })] *)
Definition findMany {R} `{Table R} (take : nat) (cursor : option string)
    (connection_id : string) (table : list R) : list R :=
  let rows := rowsOf connection_id table in
  firstn take
    match cursor with
    | Some c => fromCursor c rows
    | None => rows
    end.

(** The result of a list method. *)
Record Page (U : Type) : Type := {
  data : list U;
  prev_cursor : option string;
  next_cursor : option string }.

(** The cursor check every list method starts with:
    [if (cursor) { isCursorPresent = findFirst({ where: { id_connection,
    id: cursor } }); if (!isCursorPresent) throw new ReferenceError(..) }] *)
Definition checkCursor {R} `{Table R} (table : Database -> list R)
    (connection_id : string) (cursor : option string) : M unit :=
  match cursor with
  | Some c =>
      if truthy cursor then
        d <- getDb ;;
        match findFirst (fun r => String.eqb (connectionOf r) connection_id
                                  && String.eqb (primaryKey r) c) (table d) with
        | Some _ => ret tt
        | None => throw (ReferenceError "The provided cursor does not exist!")
        end
      else ret tt
  | None => ret tt
  end.

(** [cursor ? { id: cursor } : undefined] *)
Definition cursorArg (cursor : option string) : option string :=
  if truthy cursor then cursor else None.

(** [if (rows.length === limit + 1) { next_cursor =
    Buffer.from(rows[rows.length - 1].id).toString('base64'); rows.pop() }]:
    the rows kept and [next_cursor]. *)
Definition popNext {R} `{Table R} (limit : nat) (rows : list R)
  : list R * option string :=
  if Nat.eqb (List.length rows) (limit + 1) then
    (removelast rows,
     option_map (fun r => Base64.encode (primaryKey r))
                (nth_error rows (List.length rows - 1)))
  else (rows, None).

(** [if (cursor) { prev_cursor = Buffer.from(cursor).toString('base64') }] *)
Definition prevCursor (cursor : option string) : option string :=
  if truthy cursor then option_map Base64.encode cursor else None.

(** [prisma.value.findMany({ where: { entity: { ressource_owner_id } },
    include: { attribute: true } })] followed by the [Map] of slug to data
    and [Object.fromEntries]. *)
Definition fieldMappingsMap (owner : string) (d : Database) : object :=
  fold_left (fun m v => Map_set (value.slug v) (value.data v) m)
    (filter (fun v => String.eqb (value.ressource_owner_id v) owner) (values d))
    [].

Definition fieldMappingsOf (owner : string) : M object :=
  d <- getDb ;; ret (fieldMappingsMap owner d).

(** [resp = prisma.remote_data.findFirst({ where: { ressource_owner_id } });
    JSON.parse(resp.data)] *)
Definition remoteDataOf `{Runtime} (owner : string) : M json :=
  d <- getDb ;;
  resp <- deref (findFirst (fun r => String.eqb (remote_data.ressource_owner_id r)
                                                owner) (remoteData d)) "data" ;;
  match JSON_parse (remote_data.data resp) with
  | Some parsed => ret parsed
  | None => throw (SyntaxError "Unexpected token in JSON")
  end.

Definition addEvent (e : events.row) (d : Database) : Database :=
  {| teams := teams d; accounts := accounts d; contacts := contacts d;
     users := users d; attachments := attachments d; tickets := tickets d;
     linkedUsers := linkedUsers d; values := values d;
     remoteData := remoteData d; eventLog := eventLog d ++ [e] |}.

(** [prisma.events.create({ data: { .., id_event: uuidv4(), ..,
    direction: '0', timestamp: new Date(), .. } })] *)
Definition events_create (connection_id project_id status type method url
    provider linkedUserId : string) : M events.row :=
  id_event <- uuidv4 ;;
  timestamp <- newDate ;;
  let e := {| events.id_connection := connection_id;
              events.id_project := project_id;
              events.id_event := id_event;
              events.status := status;
              events.type := type;
              events.method := method;
              events.url := url;
              events.provider := provider;
              events.direction := "0";
              events.timestamp := timestamp;
              events.id_linked_user := linkedUserId |} in
  setDb (addEvent e) ;;
  ret e.

(* ===================================================================== *)
(** ** TeamService *)
(* ===================================================================== *)

Module TeamService.
Import UnifiedTicketingTeamOutput.

Definition unified (team : tcg_teams.row) (field_mappings : object) : t :=
  {| id := tcg_teams.id_tcg_team team;
     name := tcg_teams.name team;
     description := tcg_teams.description team;
     field_mappings := field_mappings;
     remote_id := tcg_teams.remote_id team;
     created_at := tcg_teams.created_at team;
     modified_at := tcg_teams.modified_at team;
     remote_data := None |}.

(** [{ ...team, remote_data }] *)
Definition withRemoteData (team : t) (parsed : json) : t :=
  {| id := id team; name := name team; description := description team;
     field_mappings := field_mappings team; remote_id := remote_id team;
     created_at := created_at team; modified_at := modified_at team;
     remote_data := Some parsed |}.

Definition getTeam `{Runtime} (id_ticketing_team linkedUserId integrationId
    connection_id project_id : string) (remote_data : bool) : M t :=
  d <- getDb ;;
  match findUnique (fun r => String.eqb (tcg_teams.id_tcg_team r)
                                        id_ticketing_team) (teams d) with
  | None =>
      throw (JsError ("Team with id " ++ id_ticketing_team ++ " not found"))
  | Some team =>
      field_mappings <- fieldMappingsOf (tcg_teams.id_tcg_team team) ;;
      let unifiedTeam := unified team field_mappings in
      unifiedTeam <-
        (if remote_data then
           parsed <- remoteDataOf (tcg_teams.id_tcg_team team) ;;
           ret (withRemoteData unifiedTeam parsed)
         else ret unifiedTeam) ;;
      events_create connection_id project_id "success" "ticketing.team.pull"
        "GET" "/ticketing/team" integrationId linkedUserId ;;
      ret unifiedTeam
  end.

Definition getTeams `{Runtime} (connection_id project_id integrationId
    linkedUserId : string) (limit : nat) (remote_data : bool)
    (cursor : option string) : M (Page t) :=
  checkCursor teams connection_id cursor ;;
  d <- getDb ;;
  let teams := findMany (limit + 1) (cursorArg cursor) connection_id (teams d) in
  let '(teams, next_cursor) := popNext limit teams in
  let prev_cursor := prevCursor cursor in
  unifiedTeams <-
    Promise_all_map
      (fun team =>
         field_mappings <- fieldMappingsOf (tcg_teams.id_tcg_team team) ;;
         ret (unified team field_mappings))
      teams ;;
  res <-
    (if remote_data then
       Promise_all_map
         (fun team =>
            parsed <- remoteDataOf (id team) ;;
            ret (withRemoteData team parsed))
         unifiedTeams
     else ret unifiedTeams) ;;
  events_create connection_id project_id "success" "ticketing.team.pull"
    "GET" "/ticketing/teams" integrationId linkedUserId ;;
  ret {| data := res; prev_cursor := prev_cursor; next_cursor := next_cursor |}.

End TeamService.

(* ===================================================================== *)
(** ** AccountService *)
(* ===================================================================== *)

Module AccountService.
Import UnifiedTicketingAccountOutput.

Definition unified (account : tcg_accounts.row) (field_mappings : mappings)
  : t :=
  {| id := tcg_accounts.id_tcg_account account;
     name := tcg_accounts.name account;
     domains := tcg_accounts.domains account;
     field_mappings := field_mappings;
     remote_id := tcg_accounts.remote_id account;
     created_at := tcg_accounts.created_at account;
     modified_at := tcg_accounts.modified_at account;
     remote_data := None |}.

Definition withRemoteData (account : t) (parsed : json) : t :=
  {| id := id account; name := name account; domains := domains account;
     field_mappings := field_mappings account; remote_id := remote_id account;
     created_at := created_at account; modified_at := modified_at account;
     remote_data := Some parsed |}.

(** When no row has the id, the method logs a warning and goes on: the
    next statement reads [account.id_tcg_account]. *)
Definition getAccount `{Runtime} (id_ticketing_account integrationId
    linkedUserId connection_id project_id : string) (remote_data : bool)
  : M t :=
  d <- getDb ;;
  let account :=
    findUnique (fun r => String.eqb (tcg_accounts.id_tcg_account r)
                                    id_ticketing_account) (accounts d) in
  account <- deref account "id_tcg_account" ;;
  field_mappings <- fieldMappingsOf (tcg_accounts.id_tcg_account account) ;;
  let unifiedAccount := unified account (AsObject field_mappings) in
  res <-
    (if remote_data then
       parsed <- remoteDataOf (tcg_accounts.id_tcg_account account) ;;
       ret (withRemoteData unifiedAccount parsed)
     else ret unifiedAccount) ;;
  events_create connection_id project_id "success" "ticketing.account.pull"
    "GET" "/ticketing/account" integrationId linkedUserId ;;
  ret res.

Definition getAccounts `{Runtime} (connection_id project_id integrationId
    linkedUserId : string) (limit : nat) (remote_data : bool)
    (cursor : option string) : M (Page t) :=
  checkCursor accounts connection_id cursor ;;
  d <- getDb ;;
  let accounts :=
    findMany (limit + 1) (cursorArg cursor) connection_id (accounts d) in
  let '(accounts, next_cursor) := popNext limit accounts in
  let prev_cursor := prevCursor cursor in
  unifiedAccounts <-
    Promise_all_map
      (fun account =>
         field_mappings <-
           fieldMappingsOf (tcg_accounts.id_tcg_account account) ;;
         ret (unified account (AsArray field_mappings)))
      accounts ;;
  res <-
    (if remote_data then
       Promise_all_map
         (fun account =>
            parsed <- remoteDataOf (id account) ;;
            ret (withRemoteData account parsed))
         unifiedAccounts
     else ret unifiedAccounts) ;;
  events_create connection_id project_id "success" "ticketing.account.pull"
    "GET" "/ticketing/accounts" integrationId linkedUserId ;;
  ret {| data := res; prev_cursor := prev_cursor; next_cursor := next_cursor |}.

End AccountService.

(* ===================================================================== *)
(** ** ContactService *)
(* ===================================================================== *)

Module ContactService.
Import UnifiedTicketingContactOutput.

Definition unified (contact : tcg_contacts.row) (field_mappings : object) : t :=
  {| id := tcg_contacts.id_tcg_contact contact;
     email_address := tcg_contacts.email_address contact;
     name := tcg_contacts.name contact;
     details := tcg_contacts.details contact;
     phone_number := tcg_contacts.phone_number contact;
     field_mappings := field_mappings;
     remote_id := tcg_contacts.remote_id contact;
     created_at := tcg_contacts.created_at contact;
     modified_at := tcg_contacts.modified_at contact;
     remote_data := None |}.

Definition withRemoteData (contact : t) (parsed : json) : t :=
  {| id := id contact; email_address := email_address contact;
     name := name contact; details := details contact;
     phone_number := phone_number contact;
     field_mappings := field_mappings contact; remote_id := remote_id contact;
     created_at := created_at contact; modified_at := modified_at contact;
     remote_data := Some parsed |}.

(** As in [AccountService.getAccount], a missing row is only logged. *)
Definition getContact `{Runtime} (id_ticketing_contact linkedUserId
    integrationId connection_id project_id : string) (remote_data : bool)
  : M t :=
  d <- getDb ;;
  let contact :=
    findUnique (fun r => String.eqb (tcg_contacts.id_tcg_contact r)
                                    id_ticketing_contact) (contacts d) in
  contact <- deref contact "id_tcg_contact" ;;
  field_mappings <- fieldMappingsOf (tcg_contacts.id_tcg_contact contact) ;;
  let unifiedContact := unified contact field_mappings in
  unifiedContact <-
    (if remote_data then
       parsed <- remoteDataOf (tcg_contacts.id_tcg_contact contact) ;;
       ret (withRemoteData unifiedContact parsed)
     else ret unifiedContact) ;;
  events_create connection_id project_id "success" "ticketing.contact.pull"
    "GET" "/ticketing/contact" integrationId linkedUserId ;;
  ret unifiedContact.

Definition getContacts `{Runtime} (connection_id project_id integrationId
    linkedUserId : string) (limit : nat) (remote_data : bool)
    (cursor : option string) : M (Page t) :=
  checkCursor contacts connection_id cursor ;;
  d <- getDb ;;
  let contacts :=
    findMany (limit + 1) (cursorArg cursor) connection_id (contacts d) in
  let '(contacts, next_cursor) := popNext limit contacts in
  let prev_cursor := prevCursor cursor in
  unifiedContacts <-
    Promise_all_map
      (fun contact =>
         field_mappings <-
           fieldMappingsOf (tcg_contacts.id_tcg_contact contact) ;;
         ret (unified contact field_mappings))
      contacts ;;
  res <-
    (if remote_data then
       Promise_all_map
         (fun contact =>
            parsed <- remoteDataOf (id contact) ;;
            ret (withRemoteData contact parsed))
         unifiedContacts
     else ret unifiedContacts) ;;
  events_create connection_id project_id "success" "ticketing.contact.pull"
    "GET" "/ticketing/contacts" integrationId linkedUserId ;;
  ret {| data := res; prev_cursor := prev_cursor; next_cursor := next_cursor |}.

End ContactService.

(* ===================================================================== *)
(** ** Writes: [create] and [update] *)
(* ===================================================================== *)

Fixpoint replaceFirst {R} (p : R -> bool) (new : R) (table : list R) : list R :=
  match table with
  | [] => []
  | r :: rest => if p r then new :: rest else r :: replaceFirst p new rest
  end.

(** [update({ where: { id }, data })]: the row with that id is replaced by
    its changed version.  The store rejects the write when no row has the
    id, and when the change gives the row the id of another row. *)
Definition prismaUpdate {R} (key : R -> string) (id : string) (change : R -> R)
    (table : list R) : result (R * list R) :=
  match find (fun r => String.eqb (key r) id) table with
  | None => Err (Rejected "Record to update not found")
  | Some old =>
      let new := change old in
      if negb (String.eqb (key new) (key old))
         && existsb (fun r => String.eqb (key r) (key new)) table
      then Err (Rejected "Unique constraint failed")
      else Ok (new, replaceFirst (fun r => String.eqb (key r) id) new table)
  end.

(** [create({ data })]: the row is added; the store rejects an id that a
    row already has. *)
Definition prismaCreate {R} (key : R -> string) (new : R) (table : list R)
  : result (R * list R) :=
  if existsb (fun r => String.eqb (key r) (key new)) table
  then Err (Rejected "Unique constraint failed")
  else Ok (new, table ++ [new]).

Definition setAttachments (rows : list tcg_attachments.row) (d : Database)
  : Database :=
  {| teams := teams d; accounts := accounts d; contacts := contacts d;
     users := users d; attachments := rows; tickets := tickets d;
     linkedUsers := linkedUsers d; values := values d;
     remoteData := remoteData d; eventLog := eventLog d |}.

Definition setTickets (rows : list tcg_tickets.row) (d : Database) : Database :=
  {| teams := teams d; accounts := accounts d; contacts := contacts d;
     users := users d; attachments := attachments d; tickets := rows;
     linkedUsers := linkedUsers d; values := values d;
     remoteData := remoteData d; eventLog := eventLog d |}.

(** A write on one table, as a service step. *)
Definition writeTable {R} (table : Database -> list R)
    (store : list R -> Database -> Database)
    (write : list R -> result (R * list R)) : M R :=
  d <- getDb ;;
  match write (table d) with
  | Err e => throw e
  | Ok (r, rows) => setDb (store rows) ;; ret r
  end.

(* ===================================================================== *)
(** ** AttachmentService *)
(* ===================================================================== *)

Module AttachmentService.
Import UnifiedTicketingAttachmentOutput.

Definition unified (attachment : tcg_attachments.row) (field_mappings : object)
  : t :=
  {| id := tcg_attachments.id_tcg_attachment attachment;
     file_name := tcg_attachments.file_name attachment;
     file_url := tcg_attachments.file_url attachment;
     uploader := tcg_attachments.uploader attachment;
     field_mappings := field_mappings;
     remote_id := tcg_attachments.remote_id attachment;
     created_at := tcg_attachments.created_at attachment;
     modified_at := tcg_attachments.modified_at attachment;
     comment_id :=
       if truthy (tcg_attachments.id_tcg_comment attachment)
       then tcg_attachments.id_tcg_comment attachment else None;
     ticket_id :=
       if truthy (tcg_attachments.id_tcg_ticket attachment)
       then tcg_attachments.id_tcg_ticket attachment else None;
     remote_data := None |}.

Definition withRemoteData (attachment : t) (parsed : json) : t :=
  {| id := id attachment; file_name := file_name attachment;
     file_url := file_url attachment; uploader := uploader attachment;
     field_mappings := field_mappings attachment;
     remote_id := remote_id attachment; created_at := created_at attachment;
     modified_at := modified_at attachment;
     comment_id := comment_id attachment; ticket_id := ticket_id attachment;
     remote_data := Some parsed |}.

Definition getAttachment `{Runtime} (id_ticketing_attachment : string)
    (linkedUserId integrationId : option string)
    (connection_id project_id : string) (remote_data : bool) : M t :=
  d <- getDb ;;
  match findUnique (fun r => String.eqb (tcg_attachments.id_tcg_attachment r)
                                        id_ticketing_attachment)
                   (attachments d) with
  | None => throw (ReferenceError "Attachment not found")
  | Some attachment =>
      field_mappings <-
        fieldMappingsOf (tcg_attachments.id_tcg_attachment attachment) ;;
      let unifiedAttachment := unified attachment field_mappings in
      res <-
        (if remote_data then
           parsed <-
             remoteDataOf (tcg_attachments.id_tcg_attachment attachment) ;;
           ret (withRemoteData unifiedAttachment parsed)
         else ret unifiedAttachment) ;;
      match linkedUserId, integrationId with
      | Some user, Some provider =>
          if truthy linkedUserId && truthy integrationId then
            events_create connection_id project_id "success"
              "ticketing.attachment.pull" "GET" "/ticketing/attachment"
              provider user ;;
            ret tt
          else ret tt
      | _, _ => ret tt
      end ;;
      ret res
  end.

(** The page that is returned holds [unifiedAttachments]; the list with
    the snapshots attached is computed when [remote_data] is set, and
    dropped. *)
Definition getAttachments `{Runtime} (connection_id project_id integrationId
    linkedUserId : string) (limit : nat) (remote_data : bool)
    (cursor : option string) : M (Page t) :=
  checkCursor attachments connection_id cursor ;;
  d <- getDb ;;
  let attachments :=
    findMany (limit + 1) (cursorArg cursor) connection_id (attachments d) in
  let '(attachments, next_cursor) := popNext limit attachments in
  let prev_cursor := prevCursor cursor in
  unifiedAttachments <-
    Promise_all_map
      (fun attachment =>
         field_mappings <-
           fieldMappingsOf (tcg_attachments.id_tcg_attachment attachment) ;;
         ret (unified attachment field_mappings))
      attachments ;;
  res <-
    (if remote_data then
       Promise_all_map
         (fun attachment =>
            parsed <- remoteDataOf (id attachment) ;;
            ret (withRemoteData attachment parsed))
         unifiedAttachments
     else ret unifiedAttachments) ;;
  events_create connection_id project_id "success" "ticketing.attachment.pull"
    "GET" "/ticketing/attachments" integrationId linkedUserId ;;
  ret {| data := unifiedAttachments; prev_cursor := prev_cursor;
         next_cursor := next_cursor |}.

(** [findFirst({ where: { file_name, id_connection } })] *)
Definition existingAttachment (file_name connection_id : string)
    (d : Database) : option tcg_attachments.row :=
  findFirst (fun r => String.eqb (tcg_attachments.file_name r) file_name
                      && String.eqb (tcg_attachments.id_connection r)
                                    connection_id)
            (attachments d).

(** The [data] of the update: [file_name], [uploader], [modified_at]. *)
Definition updated (file_name uploader : string) (modified_at : time)
    (r : tcg_attachments.row) : tcg_attachments.row :=
  {| tcg_attachments.id_tcg_attachment := tcg_attachments.id_tcg_attachment r;
     tcg_attachments.file_name := file_name;
     tcg_attachments.file_url := tcg_attachments.file_url r;
     tcg_attachments.uploader := uploader;
     tcg_attachments.remote_id := tcg_attachments.remote_id r;
     tcg_attachments.created_at := tcg_attachments.created_at r;
     tcg_attachments.modified_at := modified_at;
     tcg_attachments.id_connection := tcg_attachments.id_connection r;
     tcg_attachments.id_tcg_comment := tcg_attachments.id_tcg_comment r;
     tcg_attachments.id_tcg_ticket := tcg_attachments.id_tcg_ticket r |}.

(** The [data] of the create; the columns it does not name are null. *)
Definition created (id file_name uploader : string)
    (created_at modified_at : time) (connection_id : string)
  : tcg_attachments.row :=
  {| tcg_attachments.id_tcg_attachment := id;
     tcg_attachments.file_name := file_name;
     tcg_attachments.file_url := None;
     tcg_attachments.uploader := uploader;
     tcg_attachments.remote_id := None;
     tcg_attachments.created_at := created_at;
     tcg_attachments.modified_at := modified_at;
     tcg_attachments.id_connection := connection_id;
     tcg_attachments.id_tcg_comment := None;
     tcg_attachments.id_tcg_ticket := None |}.

(** The upsert of [addAttachment]: the id of the row written. *)
Definition saveOrUpdateAttachment
    (unifiedAttachmentData : UnifiedTicketingAttachmentInput.t)
    (connection_id linkedUserId : string) : M string :=
  d <- getDb ;;
  match existingAttachment
          (UnifiedTicketingAttachmentInput.file_name unifiedAttachmentData)
          connection_id d with
  | Some existing =>
      modified_at <- newDate ;;
      res <-
        writeTable attachments setAttachments
          (prismaUpdate tcg_attachments.id_tcg_attachment
             (tcg_attachments.id_tcg_attachment existing)
             (updated
                (UnifiedTicketingAttachmentInput.file_name
                   unifiedAttachmentData)
                linkedUserId modified_at)) ;;
      ret (tcg_attachments.id_tcg_attachment res)
  | None =>
      id <- uuidv4 ;;
      created_at <- newDate ;;
      modified_at <- newDate ;;
      res <-
        writeTable attachments setAttachments
          (prismaCreate tcg_attachments.id_tcg_attachment
             (created id
                (UnifiedTicketingAttachmentInput.file_name
                   unifiedAttachmentData)
                linkedUserId created_at modified_at connection_id)) ;;
      ret (tcg_attachments.id_tcg_attachment res)
  end.

Definition addAttachment `{Runtime} `{WebhookService}
    (unifiedAttachmentData : UnifiedTicketingAttachmentInput.t)
    (connection_id integrationId linkedUserId project_id : string)
    (remote_data : bool) : M t :=
  d <- getDb ;;
  match findUnique (fun r => String.eqb (linked_users.id_linked_user r)
                                        linkedUserId) (linkedUsers d) with
  | None => throw (ReferenceError "Linked User Not Found")
  | Some linkedUser =>
      unique_ticketing_attachment_id <-
        saveOrUpdateAttachment unifiedAttachmentData connection_id
          linkedUserId ;;
      result_attachment <-
        getAttachment unique_ticketing_attachment_id None None connection_id
          project_id remote_data ;;
      event <-
        events_create connection_id project_id "success"
          "ticketing.attachment.push" "POST" "/ticketing/attachments"
          integrationId linkedUserId ;;
      dispatchWebhook (AttachmentData result_attachment)
        "ticketing.attachment.created" (linked_users.id_project linkedUser)
        (events.id_event event) ;;
      ret result_attachment
  end.

End AttachmentService.

(* ===================================================================== *)
(** ** TicketService *)
(* ===================================================================== *)

Module UnifiedTicketingTicketInput.
(** [attachments] is an array of anything: ids of stored attachments
    (strings) or raw attachment payloads. *)
Record t : Type := {
  name : option string;
  status : option string;
  priority : option string;
  account_id : option string;
  contact_id : option string;
  assigned_to : option (list string);
  attachments : option (list json);
  field_mappings : option object }.
End UnifiedTicketingTicketInput.

(** [ApiResponse<OriginalTicketOutput>], the answer of a provider. *)
Record ApiResponse : Type := {
  responseData : json;
  statusCode : nat }.

(** What the ticket service is constructed with, besides [prisma], the
    logger and the webhook service: the field-mapping service, the registry
    of provider services, the registry of sync services (for attachments),
    the unification engine and the ingestion service; and [getTicket], the
    single-ticket read the ticket service calls on itself. *)
Class TicketCollaborators : Type := {
  CustomFieldMapping : Type;
  getCustomFieldMappings :
    string -> string -> string -> M (list CustomFieldMapping);
  desunify :
    UnifiedTicketingTicketInput.t -> string -> string ->
    list CustomFieldMapping -> M json;
  getService : string -> option (json -> string -> M ApiResponse);
  unify :
    list json -> string -> string -> list CustomFieldMapping ->
    M (list UnifiedTicketingTicketOutput.t);
  processFieldMappings :
    option object -> string -> string -> string -> M unit;
  processRemoteData : string -> json -> M unit;
  saveToDb :
    string -> string -> list json -> string ->
    M (list tcg_attachments.row);
  getTicket :
    string -> option string -> option string -> string -> string -> bool ->
    M UnifiedTicketingTicketOutput.t }.

Module TicketService.

Definition validateLinkedUser (linkedUserId : string) : M linked_users.row :=
  d <- getDb ;;
  match findUnique (fun r => String.eqb (linked_users.id_linked_user r)
                                        linkedUserId) (linkedUsers d) with
  | None => throw (ReferenceError "Linked User Not Found")
  | Some linkedUser => ret linkedUser
  end.

Definition validateAccountId (accountId : option string) : M unit :=
  match accountId with
  | Some id =>
      if truthy accountId then
        d <- getDb ;;
        match findUnique (fun r => String.eqb (tcg_accounts.id_tcg_account r) id)
                         (accounts d) with
        | None =>
            throw (ReferenceError
                     "You inserted an account_id which does not exist")
        | Some _ => ret tt
        end
      else ret tt
  | None => ret tt
  end.

Definition validateContactId (contactId : option string) : M unit :=
  match contactId with
  | Some id =>
      if truthy contactId then
        d <- getDb ;;
        match findUnique (fun r => String.eqb (tcg_contacts.id_tcg_contact r) id)
                         (contacts d) with
        | None =>
            throw (ReferenceError
                     "You inserted a contact_id which does not exist")
        | Some _ => ret tt
        end
      else ret tt
  | None => ret tt
  end.

Definition validateAssignee (assignee : string) : M unit :=
  d <- getDb ;;
  match findUnique (fun r => String.eqb (tcg_users.id_tcg_user r) assignee)
                   (users d) with
  | None =>
      throw (ReferenceError "You inserted an assignee which does not exist")
  | Some _ => ret tt
  end.

Definition validateAssignees (assignees : option (list string)) : M unit :=
  match assignees with
  | Some ((_ :: _) as assignees) =>
      Promise_all_map validateAssignee assignees ;; ret tt
  | _ => ret tt
  end.

Definition validateAttachment (uuid : json) : M unit :=
  match uuid with
  | JString uuid =>
      d <- getDb ;;
      match findUnique (fun r => String.eqb (tcg_attachments.id_tcg_attachment r)
                                            uuid) (attachments d) with
      | None =>
          throw (ReferenceError
                   "You inserted an attachment_id which does not exist")
      | Some _ => ret tt
      end
  | _ => throw (Rejected "Invalid value for argument id_tcg_attachment")
  end.

Definition processAttachments `{TicketCollaborators}
    (attachments : option (list json))
    (connection_id linkedUserId integrationId : string) : M (list json) :=
  match attachments with
  | Some ((JString _ :: _) as attachments) =>
      Promise_all_map validateAttachment attachments ;;
      ret attachments
  | Some ((_ :: _) as attachments) =>
      attchms_res <-
        saveToDb connection_id linkedUserId attachments integrationId ;;
      ret (map (fun att => JString (tcg_attachments.id_tcg_attachment att))
               attchms_res)
  | _ => ret []
  end.

(** [findFirst({ where: { remote_id: ticket.remote_id, id_connection } })] *)
Definition existingTicket (remote_id : option string) (connection_id : string)
    (d : Database) : option tcg_tickets.row :=
  findFirst (fun r => whereEq remote_id (tcg_tickets.remote_id r)
                      && String.eqb (tcg_tickets.id_connection r) connection_id)
            (tickets d).

(** A column written from a value that may be [undefined]: on an update
    the column keeps what it has. *)
Definition orKeep {A} (new old : option A) : option A :=
  match new with
  | Some _ => new
  | None => old
  end.

(** The update [{ ...data, modified_at: new Date() }] applied to a row:
    [data] carries [id_tcg_ticket: uuidv4()] along with the other fields. *)
Definition updated (id : string) (modified_at : time)
    (ticket : UnifiedTicketingTicketOutput.t) (connection_id : string)
    (r : tcg_tickets.row) : tcg_tickets.row :=
  {| tcg_tickets.id_tcg_ticket := id;
     tcg_tickets.name :=
       orKeep (UnifiedTicketingTicketOutput.name ticket) (tcg_tickets.name r);
     tcg_tickets.status :=
       orKeep (UnifiedTicketingTicketOutput.status ticket)
              (tcg_tickets.status r);
     tcg_tickets.priority :=
       orKeep (UnifiedTicketingTicketOutput.priority ticket)
              (tcg_tickets.priority r);
     tcg_tickets.source :=
       orKeep (UnifiedTicketingTicketOutput.source ticket)
              (tcg_tickets.source r);
     tcg_tickets.remote_id :=
       orKeep (UnifiedTicketingTicketOutput.remote_id ticket)
              (tcg_tickets.remote_id r);
     tcg_tickets.id_connection := connection_id;
     tcg_tickets.created_at := tcg_tickets.created_at r;
     tcg_tickets.modified_at := modified_at |}.

(** The row [create({ data })] adds. *)
Definition created (id : string) (modified_at : time)
    (ticket : UnifiedTicketingTicketOutput.t) (connection_id : string)
  : tcg_tickets.row :=
  {| tcg_tickets.id_tcg_ticket := id;
     tcg_tickets.name := UnifiedTicketingTicketOutput.name ticket;
     tcg_tickets.status := UnifiedTicketingTicketOutput.status ticket;
     tcg_tickets.priority := UnifiedTicketingTicketOutput.priority ticket;
     tcg_tickets.source := UnifiedTicketingTicketOutput.source ticket;
     tcg_tickets.remote_id := UnifiedTicketingTicketOutput.remote_id ticket;
     tcg_tickets.id_connection := connection_id;
     tcg_tickets.created_at := None;
     tcg_tickets.modified_at := modified_at |}.

Definition saveOrUpdateTicket (ticket : UnifiedTicketingTicketOutput.t)
    (connection_id : string) : M string :=
  d <- getDb ;;
  let existingTicket :=
    existingTicket (UnifiedTicketingTicketOutput.remote_id ticket)
      connection_id d in
  id_tcg_ticket <- uuidv4 ;;
  modified_at <- newDate ;;
  match existingTicket with
  | Some existingTicket =>
      modified_at' <- newDate ;;
      writeTable tickets setTickets
        (prismaUpdate tcg_tickets.id_tcg_ticket
           (tcg_tickets.id_tcg_ticket existingTicket)
           (updated id_tcg_ticket modified_at' ticket connection_id)) ;;
      ret (tcg_tickets.id_tcg_ticket existingTicket)
  | None =>
      createdTicket <-
        writeTable tickets setTickets
          (prismaCreate tcg_tickets.id_tcg_ticket
             (created id_tcg_ticket modified_at ticket connection_id)) ;;
      ret (tcg_tickets.id_tcg_ticket createdTicket)
  end.

(** [unifiedTicketData.attachments = ..] *)
Definition withAttachments (unifiedTicketData : UnifiedTicketingTicketInput.t)
    (attachments : list json) : UnifiedTicketingTicketInput.t :=
  {| UnifiedTicketingTicketInput.name :=
       UnifiedTicketingTicketInput.name unifiedTicketData;
     UnifiedTicketingTicketInput.status :=
       UnifiedTicketingTicketInput.status unifiedTicketData;
     UnifiedTicketingTicketInput.priority :=
       UnifiedTicketingTicketInput.priority unifiedTicketData;
     UnifiedTicketingTicketInput.account_id :=
       UnifiedTicketingTicketInput.account_id unifiedTicketData;
     UnifiedTicketingTicketInput.contact_id :=
       UnifiedTicketingTicketInput.contact_id unifiedTicketData;
     UnifiedTicketingTicketInput.assigned_to :=
       UnifiedTicketingTicketInput.assigned_to unifiedTicketData;
     UnifiedTicketingTicketInput.attachments := Some attachments;
     UnifiedTicketingTicketInput.field_mappings :=
       UnifiedTicketingTicketInput.field_mappings unifiedTicketData |}.

Definition addTicket `{WebhookService} `{TicketCollaborators}
    (unifiedTicketData : UnifiedTicketingTicketInput.t)
    (connection_id integrationId linkedUserId project_id : string)
    (remote_data : bool) : M UnifiedTicketingTicketOutput.t :=
  linkedUser <- validateLinkedUser linkedUserId ;;
  validateAccountId (UnifiedTicketingTicketInput.account_id unifiedTicketData) ;;
  validateContactId (UnifiedTicketingTicketInput.contact_id unifiedTicketData) ;;
  validateAssignees (UnifiedTicketingTicketInput.assigned_to unifiedTicketData) ;;
  attachments <-
    processAttachments
      (UnifiedTicketingTicketInput.attachments unifiedTicketData)
      connection_id linkedUserId integrationId ;;
  let unifiedTicketData := withAttachments unifiedTicketData attachments in
  customFieldMappings <-
    getCustomFieldMappings integrationId linkedUserId "ticketing.ticket" ;;
  desunifiedObject <-
    desunify unifiedTicketData integrationId connection_id
      match UnifiedTicketingTicketInput.field_mappings unifiedTicketData with
      | Some _ => customFieldMappings
      | None => []
      end ;;
  service <- derefOr "undefined" (getService integrationId) "addTicket" ;;
  resp <- service desunifiedObject linkedUserId ;;
  unifiedObject <-
    unify [responseData resp] integrationId connection_id
      customFieldMappings ;;
  let source_ticket := responseData resp in
  target_ticket <- derefOr "undefined" (hd_error unifiedObject) "remote_id" ;;
  unique_ticketing_ticket_id <- saveOrUpdateTicket target_ticket connection_id ;;
  processFieldMappings
    (UnifiedTicketingTicketOutput.field_mappings target_ticket)
    unique_ticketing_ticket_id integrationId linkedUserId ;;
  processRemoteData unique_ticketing_ticket_id source_ticket ;;
  result_ticket <-
    getTicket unique_ticketing_ticket_id None None connection_id project_id
      remote_data ;;
  let status_resp := if Nat.eqb (statusCode resp) 201 then "success" else "fail" in
  event <-
    events_create connection_id project_id status_resp "ticketing.ticket.push"
      "PUSH" "/ticketing/tickets" integrationId linkedUserId ;;
  dispatchWebhook (TicketData result_ticket) "ticketing.ticket.created"
    (linked_users.id_project linkedUser) (events.id_event event) ;;
  ret result_ticket.

End TicketService.

(* ===================================================================== *)
(** ** The list methods, once *)
(* ===================================================================== *)

(** [getTeams], [getAccounts], [getContacts] and [getAttachments] are the
    same method up to the table read, the record built, and the event
    written; [getAttachments] differs in returning the list built before
    the snapshots are attached ([returnsRes] is [false] for it).  The
    limit is a natural number, here and in the four methods: they take a
    [number] and do not validate it, and what they do with a negative one
    is not part of this embedding. *)
Definition listMethod {R U} `{Table R} `{Runtime}
    (table : Database -> list R) (unified : R -> object -> U)
    (idOf : U -> string) (withRemoteData : U -> json -> U)
    (returnsRes : bool) (type url : string)
    (connection_id project_id integrationId linkedUserId : string)
    (limit : nat) (remote_data : bool) (cursor : option string)
  : M (Page U) :=
  checkCursor table connection_id cursor ;;
  d <- getDb ;;
  let rows := findMany (limit + 1) (cursorArg cursor) connection_id (table d) in
  let '(rows, next_cursor) := popNext limit rows in
  let prev_cursor := prevCursor cursor in
  unifiedRows <-
    Promise_all_map
      (fun r =>
         field_mappings <- fieldMappingsOf (primaryKey r) ;;
         ret (unified r field_mappings))
      rows ;;
  res <-
    (if remote_data then
       Promise_all_map
         (fun u =>
            parsed <- remoteDataOf (idOf u) ;;
            ret (withRemoteData u parsed))
         unifiedRows
     else ret unifiedRows) ;;
  events_create connection_id project_id "success" type "GET" url
    integrationId linkedUserId ;;
  ret {| data := if returnsRes then res else unifiedRows;
         prev_cursor := prev_cursor; next_cursor := next_cursor |}.

(** *** What one call of a list method computes from the database *)

Definition onOk {A B} (r : result A) (k : A -> result B) : result B :=
  match r with
  | Ok a => k a
  | Err e => Err e
  end.

Fixpoint traverse {A B} (f : A -> result B) (xs : list A) : result (list B) :=
  match xs with
  | [] => Ok []
  | x :: rest =>
      onOk (f x) (fun y => onOk (traverse f rest) (fun ys => Ok (y :: ys)))
  end.

(** The snapshot of a record, as [remoteDataOf] reads it. *)
Definition snapshot `{Runtime} (owner : string) (d : Database) : result json :=
  match findFirst (fun r => String.eqb (remote_data.ressource_owner_id r) owner)
                  (remoteData d) with
  | None => Err (TypeError "Cannot read properties of null (reading 'data')")
  | Some resp =>
      match JSON_parse (remote_data.data resp) with
      | Some parsed => Ok parsed
      | None => Err (SyntaxError "Unexpected token in JSON")
      end
  end.

(** The cursor check, as a test on the table. *)
Definition cursorResolves {R} `{Table R} (rows : list R)
    (connection_id : string) (cursor : option string) : bool :=
  match cursor with
  | Some c =>
      if truthy cursor then
        existsb (fun r => String.eqb (connectionOf r) connection_id
                          && String.eqb (primaryKey r) c) rows
      else true
  | None => true
  end.

(** The record a call returns for a row it keeps: the unified row, with
    its snapshot when [remote_data] is set and the method returns the list
    with the snapshots attached. *)
Definition recordOf {R U} `{Table R} `{Runtime} (unified : R -> object -> U)
    (idOf : U -> string) (withRemoteData : U -> json -> U)
    (returnsRes remote_data : bool) (d : Database) (r : R) : result U :=
  let u := unified r (fieldMappingsMap (primaryKey r) d) in
  if remote_data then
    onOk (snapshot (idOf u) d)
         (fun parsed => Ok (if returnsRes then withRemoteData u parsed else u))
  else Ok u.

Definition pageOf {R U} `{Table R} `{Runtime}
    (table : Database -> list R) (unified : R -> object -> U)
    (idOf : U -> string) (withRemoteData : U -> json -> U)
    (returnsRes : bool) (connection_id : string)
    (limit : nat) (remote_data : bool) (cursor : option string)
    (d : Database) : result (Page U) :=
  if cursorResolves (table d) connection_id cursor then
    let fetched :=
      findMany (limit + 1) (cursorArg cursor) connection_id (table d) in
    onOk (traverse
            (recordOf unified idOf withRemoteData returnsRes remote_data d)
            (fst (popNext limit fetched)))
      (fun records =>
         Ok {| data := records;
               prev_cursor := prevCursor cursor;
               next_cursor := snd (popNext limit fetched) |})
  else Err (ReferenceError "The provided cursor does not exist!").

(** The world after a successful read: one event more, one uuid drawn. *)
Definition afterEvent (e : events.row) (w : World) : World :=
  withDb (addEvent e (db w)) (afterUuid w).

Definition pullEvent (connection_id project_id type url integrationId
    linkedUserId : string) (w : World) : events.row :=
  {| events.id_connection := connection_id;
     events.id_project := project_id;
     events.id_event := uuidSource w (uuidCount w);
     events.status := "success";
     events.type := type;
     events.method := "GET";
     events.url := url;
     events.provider := integrationId;
     events.direction := "0";
     events.timestamp := now w;
     events.id_linked_user := linkedUserId |}.

(* ===================================================================== *)
(** ** A client that reads every page *)
(* ===================================================================== *)

(** The client calls a list method without a cursor, and as long as the
    page has a [next_cursor] calls again with [pass next_cursor], collecting
    the records.  [pass] is what the client does with the token it was
    given: [Some] hands it back as it is, [Base64.decode] hands back the
    id it encodes.  The result is [None] when [fuel] calls were not
    enough. *)
Fixpoint readAll {U} (call : option string -> M (Page U))
    (pass : string -> option string) (fuel : nat) (cursor : option string)
    (w : World) : option (result (list U) * World) :=
  match fuel with
  | 0 => None
  | S fuel =>
      match call cursor w with
      | (Err e, w') => Some (Err e, w')
      | (Ok page, w') =>
          match next_cursor page with
          | None => Some (Ok (data page), w')
          | Some token =>
              match readAll call pass fuel (pass token) w' with
              | Some (Ok rest, w'') => Some (Ok (data page ++ rest), w'')
              | other => other
              end
          end
      end
  end.

(* ===================================================================== *)
(** ** The statements about pages, in the words of the specification *)
(* ===================================================================== *)

Fixpoint distinct (keys : list string) : bool :=
  match keys with
  | [] => true
  | k :: rest => negb (existsb (String.eqb k) rest) && distinct rest
  end.

(** A table whose ids are ids: none is empty, no two rows share one. *)
Definition wellKeyed {R} `{Table R} (table : list R) : bool :=
  distinct (map primaryKey table)
  && forallb (fun r => negb (String.eqb (primaryKey r) "")) table.

(** Creation-time ascending. *)
Definition ascending {R} `{Table R} (rows : list R) : Prop :=
  Sorted (fun a b => createdAt a <= createdAt b) rows.

(** The rows a list call fetches: [limit + 1] rows of the connection in
    creation order, from where the store places the cursor, or from the
    start. *)
Definition fetchedRows {R} `{Table R} (table : list R)
    (connection_id : string) (limit : nat) (cursor : option string)
  : list R :=
  firstn (limit + 1)
    match cursor with
    | Some c => if String.eqb c "" then rowsOf connection_id table
                else fromCursor c (rowsOf connection_id table)
    | None => rowsOf connection_id table
    end.

(** The rows of the page: the fetched rows, without the last one when
    [limit + 1] were fetched. *)
Definition keptRows {R} `{Table R} (table : list R)
    (connection_id : string) (limit : nat) (cursor : option string)
  : list R :=
  fst (popNext limit (fetchedRows table connection_id limit cursor)).

(** No two rows were created at the same instant. *)
Definition untied {R} `{Table R} (rows : list R) : Prop :=
  NoDup (map createdAt rows).

(** "Starting at the supplied cursor": the rows from the row whose id is
    [c] on, that row included. *)
Fixpoint startingAt {R} `{Table R} (c : string) (rows : list R) : list R :=
  match rows with
  | [] => []
  | r :: rest =>
      if String.eqb (primaryKey r) c then r :: rest else startingAt c rest
  end.


(** Section 4.3: "if exactly limit+1 returned, the last row's id becomes
    nextCursor and is dropped from the page, else nextCursor is null.
    prevCursor echoes the caller's cursor encoding, or null."  The ids of
    the page are those of the rows, in order; cursors are base64 texts of
    ids. *)
Definition pageAsSpecified {R U} `{Table R} (idOf : U -> string)
    (fetched : list R) (limit : nat) (cursor : option string)
    (page : Page U) : Prop :=
  (List.length fetched = limit + 1 ->
   exists kept last,
     fetched = kept ++ [last] /\
     map idOf (data page) = map primaryKey kept /\
     next_cursor page = Some (Base64.encode (primaryKey last)))
  /\ (List.length fetched <> limit + 1 ->
      map idOf (data page) = map primaryKey fetched /\
      next_cursor page = None)
  /\ prev_cursor page =
     match cursor with
     | Some c => if String.eqb c "" then None else Some (Base64.encode c)
     | None => None
     end.

(** The records of a connection, as the list methods return them: in
    creation order, unified, with their snapshots when [remote_data] is
    set ([getAttachments] returns them without). *)
Definition teamRecords `{Runtime} (connection_id : string)
    (remote_data : bool) (d : Database)
  : result (list UnifiedTicketingTeamOutput.t) :=
  traverse
    (recordOf TeamService.unified UnifiedTicketingTeamOutput.id
       TeamService.withRemoteData true remote_data d)
    (rowsOf connection_id (teams d)).

Definition attachmentRecords `{Runtime} (connection_id : string)
    (remote_data : bool) (d : Database)
  : result (list UnifiedTicketingAttachmentOutput.t) :=
  traverse
    (recordOf AttachmentService.unified UnifiedTicketingAttachmentOutput.id
       AttachmentService.withRemoteData false remote_data d)
    (rowsOf connection_id (attachments d)).

(** The errors by which a service reports that a row is absent: the ones
    it throws itself.  A [TypeError] is not one of them: it is the runtime
    failing on a [null]. *)
Definition reportsNotFound (e : error) : Prop :=
  match e with
  | ReferenceError _ | JsError _ => True
  | _ => False
  end.

(* ===================================================================== *)
(** ** A small installation, for examples *)
(* ===================================================================== *)

Module Example.

(** A runtime whose [JSON.parse] knows the texts stored below. *)
Definition literals : Runtime := {|
  JSON_parse := fun text =>
    if String.eqb text "null" then Some JNull
    else if String.eqb text "true" then Some (JBool true)
    else if String.eqb text "false" then Some (JBool false)
    else if String.eqb text "{}" then Some (JObject [])
    else None |}.

Definition team (id name : string) (created_at : time) (connection : string)
  : tcg_teams.row :=
  {| tcg_teams.id_tcg_team := id; tcg_teams.name := name;
     tcg_teams.description := ""; tcg_teams.remote_id := None;
     tcg_teams.created_at := created_at; tcg_teams.modified_at := created_at;
     tcg_teams.id_connection := connection |}.

Definition account (id name : string) (created_at : time)
    (connection : string) : tcg_accounts.row :=
  {| tcg_accounts.id_tcg_account := id; tcg_accounts.name := name;
     tcg_accounts.domains := []; tcg_accounts.remote_id := None;
     tcg_accounts.created_at := created_at;
     tcg_accounts.modified_at := created_at;
     tcg_accounts.id_connection := connection |}.

Definition contact (id name : string) (created_at : time)
    (connection : string) : tcg_contacts.row :=
  {| tcg_contacts.id_tcg_contact := id; tcg_contacts.email_address := "";
     tcg_contacts.name := name; tcg_contacts.details := "";
     tcg_contacts.phone_number := ""; tcg_contacts.remote_id := None;
     tcg_contacts.created_at := created_at;
     tcg_contacts.modified_at := created_at;
     tcg_contacts.id_connection := connection |}.

Definition attachment (id file_name : string) (remote_id : option string)
    (created_at : time) (connection : string) : tcg_attachments.row :=
  {| tcg_attachments.id_tcg_attachment := id;
     tcg_attachments.file_name := file_name;
     tcg_attachments.file_url := None;
     tcg_attachments.uploader := "lu1";
     tcg_attachments.remote_id := remote_id;
     tcg_attachments.created_at := created_at;
     tcg_attachments.modified_at := created_at;
     tcg_attachments.id_connection := connection;
     tcg_attachments.id_tcg_comment := None;
     tcg_attachments.id_tcg_ticket := None |}.

Definition ticket (id : string) (remote_id : string) (name : string)
    (created_at : time) (connection : string) : tcg_tickets.row :=
  {| tcg_tickets.id_tcg_ticket := id; tcg_tickets.name := Some name;
     tcg_tickets.status := None; tcg_tickets.priority := Some "high";
     tcg_tickets.source := None; tcg_tickets.remote_id := Some remote_id;
     tcg_tickets.id_connection := connection;
     tcg_tickets.created_at := Some created_at;
     tcg_tickets.modified_at := created_at |}.

(** Connection [c1] holds three teams, two contacts, one account, two
    attachments and one ticket; only team [t1] and attachment [f1] have a
    snapshot. *)
Definition records : Database := {|
  teams := [team "t1" "Support" 10 "c1"; team "t9" "Elsewhere" 15 "c2";
            team "t2" "Sales" 20 "c1"; team "t3" "Field" 30 "c1"];
  accounts := [account "a1" "Acme" 11 "c1"];
  contacts := [contact "k1" "Ada" 12 "c1"; contact "k2" "Bob" 13 "c1"];
  users := [{| tcg_users.id_tcg_user := "u1";
               tcg_users.id_connection := "c1" |}];
  attachments := [attachment "f1" "a.png" (Some "r1") 5 "c1";
                  attachment "f2" "b.png" None 6 "c1"];
  tickets := [ticket "k-1" "rt-1" "Bug" 40 "c1"];
  linkedUsers := [{| linked_users.id_linked_user := "lu1";
                     linked_users.id_project := "p1" |}];
  values := [{| value.ressource_owner_id := "t1"; value.slug := "tier";
                value.data := "gold" |}];
  remoteData := [{| remote_data.ressource_owner_id := "t1";
                    remote_data.data := "{}" |};
                 {| remote_data.ressource_owner_id := "f1";
                    remote_data.data := "{}" |}];
  eventLog := [] |}.

Definition uuids (n : nat) : string :=
  nth n ["1b4e28ba-2fa1-41d2-883f-0016d3cca427";
         "6fa459ea-ee8a-4ca4-894e-db77e160355e";
         "16fd2706-8baf-433b-82eb-8c7fada847da";
         "886313e1-3b8a-4372-9b90-0c9aee199e5d"]
        "c9bf9e57-1685-4c89-bafb-ff5af830be8a".

Definition world : World := {|
  db := records; now := 1000; uuidSource := uuids; uuidCount := 0;
  dispatched := [] |}.

(** The same installation before any ticket was pushed. *)
Definition fresh : World := {|
  db := setTickets [] records; now := 1000; uuidSource := uuids;
  uuidCount := 0; dispatched := [] |}.

(** The clock moving on between two calls. *)
Definition atTime (t : time) (w : World) : World := {|
  db := db w; now := t; uuidSource := uuidSource w; uuidCount := uuidCount w;
  dispatched := dispatched w |}.

(** The unified form of the provider's answer
    [{ id: "rt-1", name: "Bug", priority: "high" }]. *)
Definition pushed : UnifiedTicketingTicketOutput.t := {|
  UnifiedTicketingTicketOutput.id := None;
  UnifiedTicketingTicketOutput.name := Some "Bug";
  UnifiedTicketingTicketOutput.status := None;
  UnifiedTicketingTicketOutput.priority := Some "high";
  UnifiedTicketingTicketOutput.source := None;
  UnifiedTicketingTicketOutput.field_mappings := None;
  UnifiedTicketingTicketOutput.remote_id := Some "rt-1";
  UnifiedTicketingTicketOutput.created_at := None;
  UnifiedTicketingTicketOutput.modified_at := None;
  UnifiedTicketingTicketOutput.remote_data := None |}.

(** The input [{ name: "Bug", priority: "high" }], with assignees. *)
Definition bug (assigned_to : option (list string))
  : UnifiedTicketingTicketInput.t := {|
  UnifiedTicketingTicketInput.name := Some "Bug";
  UnifiedTicketingTicketInput.status := None;
  UnifiedTicketingTicketInput.priority := Some "high";
  UnifiedTicketingTicketInput.account_id := None;
  UnifiedTicketingTicketInput.contact_id := None;
  UnifiedTicketingTicketInput.assigned_to := assigned_to;
  UnifiedTicketingTicketInput.attachments := None;
  UnifiedTicketingTicketInput.field_mappings := None |}.

Definition addRemoteData (r : remote_data.row) (d : Database) : Database :=
  {| teams := teams d; accounts := accounts d; contacts := contacts d;
     users := users d; attachments := attachments d; tickets := tickets d;
     linkedUsers := linkedUsers d; values := values d;
     remoteData := remoteData d ++ [r]; eventLog := eventLog d |}.

(** Modelled from the spec: [TicketService.getTicket] is called by
    [addTicket] and is not among the sources.  Section 4.3: "get(id,
    tenant, wantRawSnapshot) -> CanonicalRecord: fails NotFound if absent;
    always merges overlay fields; if wantRawSnapshot requested, attaches
    the latest snapshot". *)
Definition getTicketAsSpecified `{Runtime} (id_ticketing_ticket : string)
    (linkedUserId integrationId : option string)
    (connection_id project_id : string) (remote_data : bool)
  : M UnifiedTicketingTicketOutput.t :=
  d <- getDb ;;
  match findUnique (fun r => String.eqb (tcg_tickets.id_tcg_ticket r)
                                        id_ticketing_ticket) (tickets d) with
  | None => throw (ReferenceError "Ticket not found")
  | Some ticket =>
      field_mappings <- fieldMappingsOf (tcg_tickets.id_tcg_ticket ticket) ;;
      parsed <-
        (if remote_data then
           parsed <- remoteDataOf (tcg_tickets.id_tcg_ticket ticket) ;;
           ret (Some parsed)
         else ret None) ;;
      ret {| UnifiedTicketingTicketOutput.id :=
               Some (tcg_tickets.id_tcg_ticket ticket);
             UnifiedTicketingTicketOutput.name := tcg_tickets.name ticket;
             UnifiedTicketingTicketOutput.status := tcg_tickets.status ticket;
             UnifiedTicketingTicketOutput.priority :=
               tcg_tickets.priority ticket;
             UnifiedTicketingTicketOutput.source := tcg_tickets.source ticket;
             UnifiedTicketingTicketOutput.field_mappings :=
               Some field_mappings;
             UnifiedTicketingTicketOutput.remote_id :=
               tcg_tickets.remote_id ticket;
             UnifiedTicketingTicketOutput.created_at :=
               tcg_tickets.created_at ticket;
             UnifiedTicketingTicketOutput.modified_at :=
               Some (tcg_tickets.modified_at ticket);
             UnifiedTicketingTicketOutput.remote_data := parsed |}
  end.

(** Collaborators of the ticket service for the examples: no custom field
    mapping; a provider [zendesk] that answers every write with status 201
    and the ticket [rt-1]; a unification engine that turns that answer
    into [pushed]; an ingestion service that stores the snapshot. *)
Definition collaborators : TicketCollaborators := {|
  CustomFieldMapping := string * string;
  getCustomFieldMappings := fun _ _ _ => ret [];
  desunify := fun _ _ _ _ =>
    ret (JObject [("subject", JString "Bug"); ("priority", JString "high")]);
  getService := fun provider =>
    if String.eqb provider "zendesk" then
      Some (fun _ _ =>
              ret {| responseData :=
                       JObject [("id", JString "rt-1"); ("name", JString "Bug");
                                ("priority", JString "high")];
                     statusCode := 201 |})
    else None;
  unify := fun sources _ _ _ => ret (map (fun _ => pushed) sources);
  processFieldMappings := fun _ _ _ _ => ret tt;
  processRemoteData := fun id _ =>
    setDb (addRemoteData {| remote_data.ressource_owner_id := id;
                            remote_data.data := "{}" |});
  saveToDb := fun _ _ _ _ => ret [];
  getTicket := @getTicketAsSpecified literals |}.

(** A webhook service that delivers, and one that is down. *)
Definition delivering : WebhookService := {|
  dispatchOutcome := fun _ => None |}.

Definition down : WebhookService := {|
  dispatchOutcome := fun _ => Some (Rejected "webhook queue unavailable") |}.

End Example.

(* ===================================================================== *)
(** ** Statements about all four list methods *)
(* ===================================================================== *)

(** A list method, by its arguments: [connection_id], [project_id],
    [integrationId], [linkedUserId], [limit], [remote_data], [cursor]. *)
Definition ListMethod (U : Type) : Type :=
  string -> string -> string -> string -> nat -> bool -> option string ->
  M (Page U).

(** [P] holds of [getTeams], [getAccounts], [getContacts] and
    [getAttachments], each with the table it reads, the id of its records
    and the type and url of the event it writes. *)
Definition forEveryListMethod `{Runtime}
    (P : forall (R U : Type) (T : Table R),
           (Database -> list R) -> (U -> string) -> string -> string ->
           ListMethod U -> Prop) : Prop :=
  P _ _ _ teams UnifiedTicketingTeamOutput.id
    "ticketing.team.pull" "/ticketing/teams" TeamService.getTeams
  /\ P _ _ _ accounts UnifiedTicketingAccountOutput.id
       "ticketing.account.pull" "/ticketing/accounts"
       AccountService.getAccounts
  /\ P _ _ _ contacts UnifiedTicketingContactOutput.id
       "ticketing.contact.pull" "/ticketing/contacts"
       ContactService.getContacts
  /\ P _ _ _ attachments UnifiedTicketingAttachmentOutput.id
       "ticketing.attachment.pull" "/ticketing/attachments"
       AttachmentService.getAttachments.

(** Reading a property of an object. *)
Definition Object_get (key : string) (o : object) : option string :=
  match find (fun entry => String.eqb (fst entry) key) o with
  | Some entry => Some (snd entry)
  | None => None
  end.

(** An optional argument where a string is written. *)
Definition orEmpty (s : option string) : string :=
  match s with
  | Some v => v
  | None => ""
  end.

(** The event [events_create] writes in world [w]. *)
Definition eventOf (connection_id project_id status type method url
    provider linkedUserId : string) (w : World) : events.row :=
  {| events.id_connection := connection_id;
     events.id_project := project_id;
     events.id_event := uuidSource w (uuidCount w);
     events.status := status;
     events.type := type;
     events.method := method;
     events.url := url;
     events.provider := provider;
     events.direction := "0";
     events.timestamp := now w;
     events.id_linked_user := linkedUserId |}.

(** The world after a webhook was dispatched. *)
Definition afterHook (h : Hook) (w : World) : World :=
  {| db := db w; now := now w; uuidSource := uuidSource w;
     uuidCount := uuidCount w; dispatched := dispatched w ++ [h] |}.

(** The webhook [addAttachment] dispatches for a record and an event. *)
Definition attachmentCreated (a : UnifiedTicketingAttachmentOutput.t)
    (linkedUser : linked_users.row) (event : events.row) : Hook :=
  {| hookData := AttachmentData a;
     hookEventType := "ticketing.attachment.created";
     hookProjectId := linked_users.id_project linkedUser;
     hookEventId := events.id_event event |}.

(** The event [addAttachment] writes in world [w]. *)
Definition attachmentPushed (connection_id project_id integrationId
    linkedUserId : string) (w : World) : events.row :=
  eventOf connection_id project_id "success" "ticketing.attachment.push"
    "POST" "/ticketing/attachments" integrationId linkedUserId w.

(* ===================================================================== *)
(** ** More examples *)
(* ===================================================================== *)

Module Cases.

(** The installation of [Example], where team [t1] was given a tier, a
    region, and then another tier. *)
Definition remapped : World := {|
  db := {| teams := teams Example.records;
           accounts := accounts Example.records;
           contacts := contacts Example.records;
           users := users Example.records;
           attachments := attachments Example.records;
           tickets := tickets Example.records;
           linkedUsers := linkedUsers Example.records;
           values :=
             [{| value.ressource_owner_id := "t1"; value.slug := "tier";
                 value.data := "gold" |};
              {| value.ressource_owner_id := "t1"; value.slug := "region";
                 value.data := "emea" |};
              {| value.ressource_owner_id := "t2"; value.slug := "tier";
                 value.data := "bronze" |};
              {| value.ressource_owner_id := "t1"; value.slug := "tier";
                 value.data := "silver" |}];
           remoteData := remoteData Example.records;
           eventLog := [] |};
  now := 1000; uuidSource := Example.uuids; uuidCount := 0;
  dispatched := [] |}.

Definition png (file_name : string) : UnifiedTicketingAttachmentInput.t :=
  {| UnifiedTicketingAttachmentInput.file_name := file_name |}.

End Cases.

(* ===================================================================== *)
(** ** What [addAttachment] writes *)
(* ===================================================================== *)

(** The clock moving on between two calls. *)
Definition atTime (t : time) (w : World) : World :=
  {| db := db w; now := t; uuidSource := uuidSource w;
     uuidCount := uuidCount w; dispatched := dispatched w |}.

(** The row the upsert of [addAttachment] writes in world [w]: the row
    found under the file name, changed, or a new row. *)
Definition upsertedAttachment (input : UnifiedTicketingAttachmentInput.t)
    (connection_id linkedUserId : string) (w : World) : tcg_attachments.row :=
  let file_name := UnifiedTicketingAttachmentInput.file_name input in
  match AttachmentService.existingAttachment file_name connection_id (db w)
  with
  | Some existing =>
      AttachmentService.updated file_name linkedUserId (now w) existing
  | None =>
      AttachmentService.created (uuidSource w (uuidCount w)) file_name
        linkedUserId (now w) (now w) connection_id
  end.

(** The world after that upsert. *)
Definition afterUpsert (input : UnifiedTicketingAttachmentInput.t)
    (connection_id linkedUserId : string) (w : World) : World :=
  let file_name := UnifiedTicketingAttachmentInput.file_name input in
  let row := upsertedAttachment input connection_id linkedUserId w in
  match AttachmentService.existingAttachment file_name connection_id (db w)
  with
  | Some existing =>
      withDb (setAttachments
                (replaceFirst
                   (fun r => String.eqb (tcg_attachments.id_tcg_attachment r)
                               (tcg_attachments.id_tcg_attachment existing))
                   row (attachments (db w)))
                (db w)) w
  | None =>
      withDb (setAttachments (attachments (db w) ++ [row]) (db w))
             (afterUuid w)
  end.

(** The uuid the upsert draws is the id of no stored attachment. *)
Definition freshAttachmentId (w : World) : bool :=
  negb (existsb (fun r => String.eqb (tcg_attachments.id_tcg_attachment r)
                                     (uuidSource w (uuidCount w)))
                (attachments (db w))).

(** The store accepts the upsert of [addAttachment]: the ids of the
    attachments are distinct, and when a row is to be created the uuid
    drawn for it is new. *)
Definition upsertAccepted (input : UnifiedTicketingAttachmentInput.t)
    (connection_id : string) (w : World) : bool :=
  distinct (map tcg_attachments.id_tcg_attachment (attachments (db w)))
  && match AttachmentService.existingAttachment
             (UnifiedTicketingAttachmentInput.file_name input) connection_id
             (db w) with
     | Some _ => true
     | None => freshAttachmentId w
     end.

(* ===================================================================== *)
(** ** What [addTicket] writes last *)
(* ===================================================================== *)

(** [resp.statusCode === 201 ? 'success' : 'fail'] *)
Definition statusOf (resp : ApiResponse) : string :=
  if Nat.eqb (statusCode resp) 201 then "success" else "fail".

(** The event [addTicket] writes in world [w]. *)
Definition ticketPushed (connection_id project_id status integrationId
    linkedUserId : string) (w : World) : events.row :=
  eventOf connection_id project_id status "ticketing.ticket.push" "PUSH"
    "/ticketing/tickets" integrationId linkedUserId w.

(** The webhook [addTicket] dispatches for a record and an event. *)
Definition ticketCreated (t : UnifiedTicketingTicketOutput.t)
    (linkedUser : linked_users.row) (event : events.row) : Hook :=
  {| hookData := TicketData t;
     hookEventType := "ticketing.ticket.created";
     hookProjectId := linked_users.id_project linkedUser;
     hookEventId := events.id_event event |}.

Module Refusal.

(** The collaborators of [Example], with a provider that answers every
    write with status 400 and the same body. *)
Definition collaborators : TicketCollaborators := {|
  CustomFieldMapping := string * string;
  getCustomFieldMappings := fun _ _ _ => ret [];
  desunify := fun _ _ _ _ =>
    ret (JObject [("subject", JString "Bug"); ("priority", JString "high")]);
  getService := fun provider =>
    if String.eqb provider "zendesk" then
      Some (fun _ _ =>
              ret {| responseData :=
                       JObject [("id", JString "rt-1"); ("name", JString "Bug");
                                ("priority", JString "high")];
                     statusCode := 400 |})
    else None;
  unify := fun sources _ _ _ => ret (map (fun _ => Example.pushed) sources);
  processFieldMappings := fun _ _ _ _ => ret tt;
  processRemoteData := fun id _ =>
    setDb (Example.addRemoteData {| remote_data.ressource_owner_id := id;
                                    remote_data.data := "{}" |});
  saveToDb := fun _ _ _ _ => ret [];
  getTicket := @Example.getTicketAsSpecified Example.literals |}.

(** The input [{ name: "Bug", account_id, contact_id }]. *)
Definition about (account_id contact_id : option string)
  : UnifiedTicketingTicketInput.t := {|
  UnifiedTicketingTicketInput.name := Some "Bug";
  UnifiedTicketingTicketInput.status := None;
  UnifiedTicketingTicketInput.priority := None;
  UnifiedTicketingTicketInput.account_id := account_id;
  UnifiedTicketingTicketInput.contact_id := contact_id;
  UnifiedTicketingTicketInput.assigned_to := None;
  UnifiedTicketingTicketInput.attachments := None;
  UnifiedTicketingTicketInput.field_mappings := None |}.

End Refusal.

Module Unkeyed.

(** The unified form of a provider answer that names no id:
    [{ name: "Other" }]. *)
Definition answer : UnifiedTicketingTicketOutput.t := {|
  UnifiedTicketingTicketOutput.id := None;
  UnifiedTicketingTicketOutput.name := Some "Other";
  UnifiedTicketingTicketOutput.status := None;
  UnifiedTicketingTicketOutput.priority := None;
  UnifiedTicketingTicketOutput.source := None;
  UnifiedTicketingTicketOutput.field_mappings := None;
  UnifiedTicketingTicketOutput.remote_id := None;
  UnifiedTicketingTicketOutput.created_at := None;
  UnifiedTicketingTicketOutput.modified_at := None;
  UnifiedTicketingTicketOutput.remote_data := None |}.

End Unkeyed.

Module Tied.

(** Connection [c1] with three teams created at the same instant. *)
Definition world : World := {|
  db := {| teams := [Example.team "a" "First" 10 "c1";
                     Example.team "b" "Second" 10 "c1";
                     Example.team "c" "Third" 10 "c1"];
           accounts := []; contacts := []; users := []; attachments := [];
           tickets := [];
           linkedUsers := linkedUsers Example.records;
           values := []; remoteData := []; eventLog := [] |};
  now := 1000; uuidSource := Example.uuids; uuidCount := 0;
  dispatched := [] |}.

End Tied.

(* ===================================================================== *)
(** ** What an upsert changes *)
(* ===================================================================== *)

(** [after] is [before] with the row of id [id] replaced where it stands,
    or with a row of id [id] added at the end. *)
Definition oneRowChanged {R} (key : R -> string) (id : string)
    (before after : list R) : Prop :=
  (exists front row row' back,
     before = front ++ row :: back /\
     after = front ++ row' :: back /\
     key row = id)
  \/
  (exists row', after = before ++ [row'] /\ key row' = id).

(* ===================================================================== *)
(** ** Facts about the base64 encoding *)
(* ===================================================================== *)

Unset Implicit Arguments.

Module Base64Facts.
Import Base64.

Lemma char_sextet_char (s : sextet) : char_sextet (sextet_char s) = Some s.
Proof.
  destruct s as [[[[[b5 b4] b3] b2] b1] b0].
  destruct b5, b4, b3, b2, b1, b0; reflexivity.
Qed.

Lemma char_sextet_pad : char_sextet pad = None.
Proof. reflexivity. Qed.

Lemma bytes3_sextets3 (a b c : ascii) :
  let '(s1, s2, s3, s4) := sextets3 a b c in bytes3 s1 s2 s3 s4 = (a, b, c).
Proof. destruct a, b, c; reflexivity. Qed.

(** Induction three characters at a time, the way [encode] recurses. *)
Lemma string_ind3 (P : string -> Prop) :
  P EmptyString ->
  (forall a, P (String a EmptyString)) ->
  (forall a b, P (String a (String b EmptyString))) ->
  (forall a b c rest, P rest -> P (String a (String b (String c rest)))) ->
  forall s, P s.
Proof.
  intros H0 H1 H2 H3.
  fix IH 1.
  intros [|a [|b [|c rest]]].
  - exact H0.
  - apply H1.
  - apply H2.
  - apply H3, IH.
Qed.

Lemma decode_encode (s : string) : decode (encode s) = Some s.
Proof.
  induction s as [|a|a b|a b c rest IH] using string_ind3.
  - reflexivity.
  - destruct a as [a0 a1 a2 a3 a4 a5 a6 a7]. cbn [encode sextets3 zero].
    cbn [decode]. rewrite !char_sextet_char, char_sextet_pad.
    reflexivity.
  - destruct a as [a0 a1 a2 a3 a4 a5 a6 a7].
    destruct b as [b0 b1 b2 b3 b4 b5 b6 b7]. cbn [encode sextets3 zero].
    cbn [decode]. rewrite !char_sextet_char, char_sextet_pad.
    reflexivity.
  - destruct a as [a0 a1 a2 a3 a4 a5 a6 a7].
    destruct b as [b0 b1 b2 b3 b4 b5 b6 b7].
    destruct c as [c0 c1 c2 c3 c4 c5 c6 c7]. cbn [encode sextets3].
    cbn [decode]. rewrite !char_sextet_char. cbn [bytes3].
    fold encode. rewrite IH. reflexivity.
Qed.

Lemma encode_inj (s t : string) : encode s = encode t -> s = t.
Proof.
  intros H. apply (f_equal decode) in H.
  rewrite !decode_encode in H. congruence.
Qed.

Lemma encode_examples :
  encode "Man" = "TWFu" /\ encode "Ma" = "TWE=" /\ encode "M" = "TQ==" /\
  encode "t3" = "dDM=" /\ decode "dDM=" = Some "t3".
Proof. repeat split; reflexivity. Qed.

End Base64Facts.

(* ===================================================================== *)
(** ** Running service steps *)
(* ===================================================================== *)

Local Open Scope service_scope.

Lemma bind_run {A B} (m : M A) (k : A -> M B) (w : World) :
  bind m k w =
  match m w with
  | (Ok a, w') => k a w'
  | (Err e, w') => (Err e, w')
  end.
Proof. reflexivity. Qed.

(** Callbacks that only read the database: [Promise.all] over them is a
    traversal of the array against that database. *)
Lemma Promise_all_map_reads {A B} (f : A -> M B)
    (g : A -> Database -> result B) :
  (forall x w, f x w = (g x (db w), w)) ->
  forall xs w,
    Promise_all_map f xs w = (traverse (fun x => g x (db w)) xs, w).
Proof.
  intros Hf xs w. induction xs as [|x rest IH]; [reflexivity|].
  cbn [Promise_all_map traverse]. rewrite bind_run, Hf.
  destruct (g x (db w)) as [y|e]; [|reflexivity].
  cbn [onOk]. rewrite bind_run, IH.
  destruct (traverse _ rest) as [ys|e]; reflexivity.
Qed.

Lemma traverse_Ok {A B} (f : A -> B) (xs : list A) :
  traverse (fun x => Ok (f x)) xs = Ok (map f xs).
Proof.
  induction xs as [|x rest IH]; [reflexivity|].
  cbn [traverse onOk map]. rewrite IH. reflexivity.
Qed.

Lemma remoteDataOf_run `{Runtime} (owner : string) (w : World) :
  remoteDataOf owner w = (snapshot owner (db w), w).
Proof.
  unfold remoteDataOf, snapshot. rewrite bind_run. cbn [getDb].
  rewrite bind_run.
  destruct (findFirst _ (remoteData (db w))) as [resp|]; [|reflexivity].
  cbn [deref derefOr ret]. destruct (JSON_parse _); reflexivity.
Qed.

Lemma checkCursor_run {R} `{Table R} (table : Database -> list R)
    (connection_id : string) (cursor : option string) (w : World) :
  checkCursor table connection_id cursor w =
  (if cursorResolves (table (db w)) connection_id cursor then Ok tt
   else Err (ReferenceError "The provided cursor does not exist!"), w).
Proof.
  unfold checkCursor, cursorResolves.
  destruct cursor as [c|]; [|reflexivity].
  destruct (truthy (Some c)); [|reflexivity].
  rewrite bind_run. cbn [getDb]. unfold findFirst.
  destruct (find _ (table (db w))) as [r|] eqn:Hfind.
  - apply find_some in Hfind. destruct Hfind as [Hin Hr].
    assert (Hex : existsb (fun r => String.eqb (connectionOf r) connection_id
                                    && String.eqb (primaryKey r) c)
                          (table (db w)) = true)
      by (apply existsb_exists; eauto).
    rewrite Hex. reflexivity.
  - destruct (existsb _ (table (db w))) eqn:Hex; [|reflexivity].
    apply existsb_exists in Hex. destruct Hex as [r [Hin Hr]].
    apply (find_none _ _ Hfind) in Hin. congruence.
Qed.

Lemma traverse_map {A B C} (f : B -> result C) (g : A -> B) (xs : list A) :
  traverse f (map g xs) = traverse (fun x => f (g x)) xs.
Proof.
  induction xs as [|x rest IH]; [reflexivity|].
  cbn [map traverse]. rewrite IH. reflexivity.
Qed.

Lemma traverse_ext {A B} (f g : A -> result B) (xs : list A) :
  (forall x, In x xs -> f x = g x) -> traverse f xs = traverse g xs.
Proof.
  induction xs as [|x rest IH]; intros Hfg; [reflexivity|].
  cbn [traverse]. rewrite (Hfg x (or_introl eq_refl)), IH; [reflexivity|].
  intros y Hy. apply Hfg. right. exact Hy.
Qed.

(** Attaching and then dropping what was attached leaves the list that
    was there, if every attachment succeeded. *)
Lemma traverse_dropped {A B C} (s : A -> result C) (h : A -> C -> B)
    (g : A -> B) (xs : list A) :
  onOk (traverse (fun x => onOk (s x) (fun p => Ok (h x p))) xs)
       (fun _ => Ok (map g xs)) =
  traverse (fun x => onOk (s x) (fun _ => Ok (g x))) xs.
Proof.
  induction xs as [|x rest IH]; [reflexivity|].
  cbn [traverse map]. destruct (s x) as [p|e]; [|reflexivity].
  cbn [onOk]. rewrite <- IH.
  destruct (traverse _ rest) as [ys|e]; reflexivity.
Qed.

(** One call of a list method: the page computed from the database and
    one event written, or the error and nothing written. *)
Lemma listMethod_run {R U} `{Table R} `{Runtime}
    (table : Database -> list R) (unified : R -> object -> U)
    (idOf : U -> string) (withRemoteData : U -> json -> U)
    (returnsRes : bool) (type url : string)
    (connection_id project_id integrationId linkedUserId : string)
    (limit : nat) (remote_data : bool) (cursor : option string) (w : World) :
  listMethod table unified idOf withRemoteData returnsRes type url
    connection_id project_id integrationId linkedUserId limit remote_data
    cursor w =
  match pageOf table unified idOf withRemoteData returnsRes connection_id
          limit remote_data cursor (db w) with
  | Ok page =>
      (Ok page,
       afterEvent (pullEvent connection_id project_id type url integrationId
                     linkedUserId w) w)
  | Err e => (Err e, w)
  end.
Proof.
  unfold listMethod, pageOf. rewrite bind_run, checkCursor_run.
  destruct (cursorResolves _ _ _); [|reflexivity].
  rewrite bind_run. cbn [getDb].
  destruct (popNext limit _) as [kept next] eqn:Hpop. cbn [fst snd].
  rewrite bind_run.
  rewrite (Promise_all_map_reads
             (fun r => field_mappings <- fieldMappingsOf (primaryKey r) ;;
                       ret (unified r field_mappings))
             (fun r d => Ok (unified r (fieldMappingsMap (primaryKey r) d))))
    by reflexivity.
  rewrite traverse_Ok, bind_run. unfold recordOf.
  destruct remote_data.
  - rewrite (Promise_all_map_reads
               (fun u => parsed <- remoteDataOf (idOf u) ;;
                         ret (withRemoteData u parsed))
               (fun u d => onOk (snapshot (idOf u) d)
                                (fun parsed => Ok (withRemoteData u parsed)))).
    + rewrite traverse_map. destruct returnsRes.
      * destruct (traverse _ kept) as [res|e]; reflexivity.
      * rewrite <- (traverse_dropped
                     (fun r => snapshot
                        (idOf (unified r (fieldMappingsMap (primaryKey r) (db w))))
                        (db w))
                     (fun r parsed => withRemoteData
                        (unified r (fieldMappingsMap (primaryKey r) (db w)))
                        parsed)).
        destruct (traverse _ kept) as [res|e]; reflexivity.
    + intros u w0. rewrite bind_run, remoteDataOf_run.
      destruct (snapshot _ _); reflexivity.
  - rewrite traverse_Ok. destruct returnsRes; reflexivity.
Qed.

(** The four list methods are instances of [listMethod]. *)
Lemma getTeams_listMethod `{Runtime} :
  TeamService.getTeams =
  listMethod teams TeamService.unified UnifiedTicketingTeamOutput.id
    TeamService.withRemoteData true "ticketing.team.pull" "/ticketing/teams".
Proof. reflexivity. Qed.

Lemma getAccounts_listMethod `{Runtime} :
  AccountService.getAccounts =
  listMethod accounts
    (fun r m => AccountService.unified r (UnifiedTicketingAccountOutput.AsArray m))
    UnifiedTicketingAccountOutput.id AccountService.withRemoteData true
    "ticketing.account.pull" "/ticketing/accounts".
Proof. reflexivity. Qed.

Lemma getContacts_listMethod `{Runtime} :
  ContactService.getContacts =
  listMethod contacts ContactService.unified UnifiedTicketingContactOutput.id
    ContactService.withRemoteData true "ticketing.contact.pull"
    "/ticketing/contacts".
Proof. reflexivity. Qed.

Lemma getAttachments_listMethod `{Runtime} :
  AttachmentService.getAttachments =
  listMethod attachments AttachmentService.unified
    UnifiedTicketingAttachmentOutput.id AttachmentService.withRemoteData false
    "ticketing.attachment.pull" "/ticketing/attachments".
Proof. reflexivity. Qed.

(* ===================================================================== *)
(** ** Rows in creation order, cursors and pages *)
(* ===================================================================== *)

Section Rows.
Context {R : Type} `{Table R}.

Lemma insertByCreatedAt_perm (r : R) (rows : list R) :
  Permutation (insertByCreatedAt r rows) (r :: rows).
Proof.
  induction rows as [|x rest IH]; cbn [insertByCreatedAt]; [reflexivity|].
  destruct (Nat.leb (createdAt r) (createdAt x)); [reflexivity|].
  rewrite IH. apply perm_swap.
Qed.

Lemma orderByCreatedAt_perm (rows : list R) :
  Permutation (orderByCreatedAt rows) rows.
Proof.
  induction rows as [|r rest IH]; cbn [orderByCreatedAt]; [reflexivity|].
  rewrite insertByCreatedAt_perm. apply perm_skip, IH.
Qed.

Lemma rowsOf_In (connection_id : string) (table : list R) (r : R) :
  In r (rowsOf connection_id table) <->
  In r table /\ connectionOf r = connection_id.
Proof.
  unfold rowsOf. split.
  - intros Hin.
    apply (Permutation_in _ (orderByCreatedAt_perm _)) in Hin.
    apply filter_In in Hin. destruct Hin as [Hin Hc].
    apply String.eqb_eq in Hc. auto.
  - intros [Hin Hc].
    apply (Permutation_in _ (Permutation_sym (orderByCreatedAt_perm _))).
    apply filter_In. split; [exact Hin|]. apply String.eqb_eq, Hc.
Qed.

Lemma NoDup_keys_filter (p : R -> bool) (table : list R) :
  NoDup (map primaryKey table) -> NoDup (map primaryKey (filter p table)).
Proof.
  induction table as [|r rest IH]; cbn [map filter]; intros Hnd; [constructor|].
  inversion Hnd as [|k ks Hnotin Hrest]; subst.
  destruct (p r); [|auto].
  cbn [map]. constructor; [|auto].
  intros Hin. apply Hnotin. apply in_map_iff in Hin.
  destruct Hin as [x [Hk Hx]]. apply filter_In in Hx.
  apply in_map_iff. exists x. tauto.
Qed.

Lemma rowsOf_NoDup (connection_id : string) (table : list R) :
  NoDup (map primaryKey table) ->
  NoDup (map primaryKey (rowsOf connection_id table)).
Proof.
  intros Hnd. unfold rowsOf.
  apply (Permutation_NoDup
           (l := map primaryKey
                   (filter (fun r => String.eqb (connectionOf r) connection_id)
                           table))).
  - apply Permutation_map, Permutation_sym, orderByCreatedAt_perm.
  - apply NoDup_keys_filter, Hnd.
Qed.

(** The id of a row that occurs nowhere before it: the rows starting at
    it. *)
Lemma startingAt_at (before : list R) (r : R) (rest : list R) :
  ~ In (primaryKey r) (map primaryKey before) ->
  startingAt (primaryKey r) (before ++ r :: rest) = r :: rest.
Proof.
  induction before as [|x before' IH]; cbn [app startingAt map]; intros Hn.
  - rewrite String.eqb_refl. reflexivity.
  - destruct (String.eqb (primaryKey x) (primaryKey r)) eqn:Heq.
    + apply String.eqb_eq in Heq. exfalso. apply Hn. left. exact Heq.
    + apply IH. intros Hin. apply Hn. right. exact Hin.
Qed.

Lemma startingAt_head (c : string) (rows : list R) :
  In c (map primaryKey rows) ->
  exists r rest, startingAt c rows = r :: rest /\ primaryKey r = c.
Proof.
  induction rows as [|x rows' IH]; cbn [map In startingAt]; [contradiction|].
  intros Hin. destruct (String.eqb (primaryKey x) c) eqn:Heq.
  - apply String.eqb_eq in Heq. eauto.
  - apply String.eqb_neq in Heq. destruct Hin as [Hx|Hin]; [contradiction|].
    apply IH, Hin.
Qed.

Lemma startingAt_incl (c : string) (rows : list R) (r : R) :
  In r (startingAt c rows) -> In r rows.
Proof.
  induction rows as [|x rows' IH]; cbn [startingAt]; [auto|].
  destruct (String.eqb (primaryKey x) c); [auto|].
  intros Hin. right. apply IH, Hin.
Qed.

Lemma insertByCreatedAt_ascending (r : R) (rows : list R) :
  ascending rows -> ascending (insertByCreatedAt r rows).
Proof.
  unfold ascending. induction rows as [|x rest IH]; cbn [insertByCreatedAt];
    intros Hs.
  - repeat constructor.
  - destruct (Nat.leb (createdAt r) (createdAt x)) eqn:Hle.
    + apply Nat.leb_le in Hle.
      constructor; [exact Hs|constructor; exact Hle].
    + apply Nat.leb_gt in Hle. inversion Hs as [|a l Hrest Hhd]; subst.
      constructor; [apply IH, Hrest|].
      destruct rest as [|y rest']; cbn [insertByCreatedAt].
      * constructor. lia.
      * destruct (Nat.leb (createdAt r) (createdAt y)).
        -- constructor. lia.
        -- inversion Hhd; subst. constructor. assumption.
Qed.

Lemma rowsOf_ascending (connection_id : string) (table : list R) :
  ascending (rowsOf connection_id table).
Proof.
  unfold rowsOf.
  induction (filter (fun r => String.eqb (connectionOf r) connection_id) table)
    as [|r rest IH]; cbn [orderByCreatedAt].
  - constructor.
  - apply insertByCreatedAt_ascending, IH.
Qed.

(** In ascending rows, no row was created before the first. *)
Lemma ascending_head (x : R) (rest : list R) :
  ascending (x :: rest) ->
  ascending rest /\ forall r, In r rest -> createdAt x <= createdAt r.
Proof.
  unfold ascending. intros Hs.
  apply Sorted_StronglySorted in Hs;
    [|intros a b c Hab Hbc; exact (Nat.le_trans _ _ _ Hab Hbc)].
  inversion Hs as [|a l Hrest Hall]; subst. split.
  - apply StronglySorted_Sorted, Hrest.
  - intros r Hr. rewrite Forall_forall in Hall. apply Hall, Hr.
Qed.

(** Where no two rows were created at the same instant, the store places
    the cursor at the cursor row: the result starts at that row. *)
Lemma fromCursor_startingAt (c : string) (rows : list R) :
  ascending rows -> untied rows -> fromCursor c rows = startingAt c rows.
Proof.
  unfold fromCursor, untied.
  induction rows as [|x rest IH]; cbn [find startingAt map]; intros Hs Hnd;
    [reflexivity|].
  destruct (ascending_head x rest Hs) as [Hrest Hle].
  inversion Hnd as [|k ks Hnotin Hnd']; subst.
  destruct (String.eqb (primaryKey x) c) eqn:Heq.
  - cbn [filter]. rewrite Nat.leb_refl. f_equal.
    apply forallb_filter_id. apply forallb_forall. intros r Hr.
    apply Nat.leb_le, Hle, Hr.
  - rewrite <- (IH Hrest Hnd').
    destruct (find _ rest) as [cursorRow|] eqn:Hfind; [|reflexivity].
    cbn [filter]. apply find_some in Hfind. destruct Hfind as [Hin _].
    replace (Nat.leb (createdAt cursorRow) (createdAt x)) with false;
      [reflexivity|].
    symmetry. apply Nat.leb_gt.
    assert (Hne : createdAt x <> createdAt cursorRow).
    { intros Heq'. apply Hnotin. rewrite Heq'. apply in_map, Hin. }
    specialize (Hle cursorRow Hin). lia.
Qed.

(** The rows the store returns at a cursor are rows of the table. *)
Lemma fromCursor_incl (c : string) (rows : list R) (r : R) :
  In r (fromCursor c rows) -> In r rows.
Proof.
  unfold fromCursor. destruct (find _ rows); [|contradiction].
  intros Hin. apply filter_In in Hin. apply Hin.
Qed.

(** At the id of the first of the rows, the store returns all the rows. *)
Lemma fromCursor_first (r0 : R) (rest : list R) :
  exists rest', fromCursor (primaryKey r0) (r0 :: rest) = r0 :: rest'.
Proof.
  unfold fromCursor. cbn [find]. rewrite String.eqb_refl. cbn [filter].
  rewrite Nat.leb_refl. eauto.
Qed.

(** What is kept of [limit + 1] fetched rows, and the next cursor. *)
Lemma popNext_firstn (limit : nat) (rows : list R) :
  popNext limit (firstn (limit + 1) rows) =
  if Nat.ltb limit (List.length rows)
  then (firstn limit rows,
        option_map (fun r => Base64.encode (primaryKey r))
                   (nth_error rows limit))
  else (rows, None).
Proof.
  unfold popNext. rewrite length_firstn.
  destruct (Nat.ltb limit (List.length rows)) eqn:Hlt.
  - apply Nat.ltb_lt in Hlt.
    replace (Nat.min (limit + 1) (List.length rows)) with (limit + 1) by lia.
    rewrite Nat.eqb_refl.
    replace (limit + 1) with (S limit) by lia.
    rewrite removelast_firstn by exact Hlt.
    replace (S limit - 1) with limit by lia.
    rewrite nth_error_firstn.
    replace (Nat.ltb limit (S limit)) with true
      by (symmetry; apply Nat.ltb_lt; lia).
    reflexivity.
  - apply Nat.ltb_ge in Hlt.
    replace (Nat.min (limit + 1) (List.length rows)) with (List.length rows)
      by lia.
    replace (Nat.eqb (List.length rows) (limit + 1)) with false
      by (symmetry; apply Nat.eqb_neq; lia).
    rewrite firstn_all2 by lia. reflexivity.
Qed.

End Rows.

Lemma traverse_app {A B} (f : A -> result B) (xs ys : list A) :
  traverse f (xs ++ ys) =
  onOk (traverse f xs)
       (fun a => onOk (traverse f ys) (fun b => Ok (a ++ b))).
Proof.
  induction xs as [|x rest IH]; cbn [app traverse onOk].
  - destruct (traverse f ys); reflexivity.
  - destruct (f x) as [y|e]; [|reflexivity]. cbn [onOk]. rewrite IH.
    destruct (traverse f rest) as [a|e]; [|reflexivity]. cbn [onOk].
    destruct (traverse f ys); reflexivity.
Qed.

(* ===================================================================== *)
(** ** Reading every page *)
(* ===================================================================== *)

Section ReadingAllPages.
Context {R U : Type} `{Table R} `{Runtime}.
Variable table : Database -> list R.
Variable unified : R -> object -> U.
Variable idOf : U -> string.
Variable withRemoteData : U -> json -> U.
Variable returnsRes : bool.
Variables type url : string.
Variables connection_id project_id integrationId linkedUserId : string.
Variable limit : nat.
Variable remote_data : bool.

(** Writing an event leaves the table alone. *)
Hypothesis table_addEvent : forall e d, table (addEvent e d) = table d.

Let call : option string -> M (Page U) :=
  listMethod table unified idOf withRemoteData returnsRes type url
    connection_id project_id integrationId linkedUserId limit remote_data.

(** The databases that differ from [d] by events only. *)
Let sameRecords (d d' : Database) : Prop :=
  table d' = table d /\ values d' = values d /\ remoteData d' = remoteData d.

Lemma pageOf_sameRecords (d d' : Database) (cursor : option string) :
  sameRecords d d' ->
  pageOf table unified idOf withRemoteData returnsRes connection_id limit
    remote_data cursor d' =
  pageOf table unified idOf withRemoteData returnsRes connection_id limit
    remote_data cursor d.
Proof.
  intros [Ht [Hv Hr]]. unfold pageOf. rewrite Ht.
  destruct (cursorResolves _ _ _); [|reflexivity].
  f_equal. apply traverse_ext. intros r _.
  unfold recordOf, fieldMappingsMap, snapshot. rewrite Hv, Hr. reflexivity.
Qed.

Lemma recordOf_sameRecords (d d' : Database) (r : R) :
  sameRecords d d' ->
  recordOf unified idOf withRemoteData returnsRes remote_data d' r =
  recordOf unified idOf withRemoteData returnsRes remote_data d r.
Proof.
  intros [Ht [Hv Hr]].
  unfold recordOf, fieldMappingsMap, snapshot. rewrite Hv, Hr. reflexivity.
Qed.

(** Where the client stands: before the first call, or holding the id of
    the row [rest] starts with, [rest] being what is left of the rows. *)
Inductive standsAt (rows : list R) : option string -> list R -> Prop :=
| atStart : standsAt rows None rows
| atRow (before : list R) (r : R) (rest : list R) :
    rows = before ++ r :: rest ->
    standsAt rows (Some (primaryKey r)) (r :: rest).

Lemma standsAt_fetch (d : Database) (cursor : option string) (left : list R) :
  NoDup (map primaryKey (table d)) ->
  Forall (fun r => primaryKey r <> "") (table d) ->
  untied (rowsOf connection_id (table d)) ->
  standsAt (rowsOf connection_id (table d)) cursor left ->
  cursorResolves (table d) connection_id cursor = true /\
  findMany (limit + 1) (cursorArg cursor) connection_id (table d) =
  firstn (limit + 1) left.
Proof.
  intros Hnd Hne Huntied Hat. destruct Hat as [|before r rest Hrows].
  - split; reflexivity.
  - assert (Hin : In r (rowsOf connection_id (table d)))
      by (rewrite Hrows; apply in_or_app; right; left; reflexivity).
    apply rowsOf_In in Hin. destruct Hin as [Hin Hconn].
    assert (Hkey : String.eqb (primaryKey r) "" = false).
    { apply String.eqb_neq. rewrite Forall_forall in Hne. auto. }
    unfold cursorResolves, cursorArg, truthy. rewrite Hkey. cbn [negb].
    split.
    + apply existsb_exists. exists r. split; [exact Hin|].
      rewrite Hconn, !String.eqb_refl. reflexivity.
    + unfold findMany.
      rewrite fromCursor_startingAt by (apply rowsOf_ascending || exact Huntied).
      rewrite Hrows. rewrite startingAt_at; [reflexivity|].
      pose proof (rowsOf_NoDup connection_id (table d) Hnd) as Hnd'.
      rewrite Hrows, map_app in Hnd'. cbn [map] in Hnd'.
      apply NoDup_remove_2 in Hnd'. intros Hb. apply Hnd'.
      apply in_or_app. left. exact Hb.
Qed.

(** From where the client stands, enough calls collect what is left. *)
Lemma readAll_rest (d : Database) :
  NoDup (map primaryKey (table d)) ->
  Forall (fun r => primaryKey r <> "") (table d) ->
  untied (rowsOf connection_id (table d)) ->
  1 <= limit ->
  forall fuel cursor left records w,
    sameRecords d (db w) ->
    standsAt (rowsOf connection_id (table d)) cursor left ->
    traverse (recordOf unified idOf withRemoteData returnsRes remote_data d)
             left = Ok records ->
    List.length left < fuel ->
    exists w',
      readAll call Base64.decode fuel cursor w = Some (Ok records, w') /\
      sameRecords d (db w').
Proof.
  intros Hnd Hne Huntied Hlimit.
  induction fuel as [|fuel IH]; intros cursor left records w Hsame Hat Hrec Hlen;
    [lia|].
  cbn [readAll]. unfold call at 1. rewrite listMethod_run.
  rewrite (pageOf_sameRecords d (db w) cursor Hsame). unfold pageOf.
  destruct (standsAt_fetch d cursor left Hnd Hne Huntied Hat)
    as [Hres Hfetch].
  rewrite Hres, Hfetch, popNext_firstn.
  assert (Hsame' : forall e, sameRecords d (db (afterEvent e w))).
  { intros e. destruct Hsame as [Ht [Hv Hr]].
    unfold afterEvent, withDb. cbn [db].
    repeat split; [rewrite table_addEvent; exact Ht|exact Hv|exact Hr]. }
  destruct (Nat.ltb limit (List.length left)) eqn:Hlt; cbn [fst snd].
  - apply Nat.ltb_lt in Hlt.
    rewrite <- (firstn_skipn limit left), traverse_app in Hrec.
    destruct (traverse _ (firstn limit left)) as [page|e] eqn:Hpage;
      [|discriminate].
    cbn [onOk] in Hrec.
    destruct (traverse _ (skipn limit left)) as [others|e] eqn:Hothers;
      [|discriminate].
    cbn [onOk] in Hrec. injection Hrec as Hrecords.
    cbn [onOk next_cursor data].
    destruct (nth_error left limit) as [r|] eqn:Hnth;
      [|apply nth_error_None in Hnth; lia].
    cbn [option_map]. rewrite Base64Facts.decode_encode.
    destruct (skipn limit left) as [|r' rest] eqn:Hskip.
    { apply (f_equal (@List.length R)) in Hskip.
      rewrite length_skipn in Hskip. cbn in Hskip. lia. }
    assert (Hr : r' = r).
    { rewrite <- (firstn_skipn limit left), nth_error_app2 in Hnth
        by (rewrite length_firstn; lia).
      rewrite length_firstn, Hskip in Hnth.
      replace (limit - Nat.min limit (List.length left)) with 0 in Hnth by lia.
      cbn in Hnth. congruence. }
    subst r'.
    assert (Hat' : standsAt (rowsOf connection_id (table d))
                            (Some (primaryKey r)) (r :: rest)).
    { destruct Hat as [|before r0 rest0 Hrows].
      - apply (atRow _ (firstn limit (rowsOf connection_id (table d)))).
        rewrite <- Hskip. symmetry. apply firstn_skipn.
      - apply (atRow _ (before ++ firstn limit (r0 :: rest0))).
        rewrite <- app_assoc, <- Hskip, firstn_skipn. exact Hrows. }
    destruct (IH (Some (primaryKey r)) (r :: rest) others
                 (afterEvent (pullEvent connection_id project_id type url
                                integrationId linkedUserId w) w)
                 (Hsame' _) Hat' Hothers) as [w' [Hrun Hsame'']].
    { apply (f_equal (@List.length R)) in Hskip.
      rewrite length_skipn in Hskip. rewrite <- Hskip. lia. }
    fold call. rewrite Hrun. exists w'. subst records. auto.
  - rewrite Hrec. cbn [onOk next_cursor data]. eexists. split; [reflexivity|].
    apply Hsame'.
Qed.

(** Reading every page, decoding each cursor on the way back, returns the
    records of the connection in creation order, each once. *)
Lemma readAll_complete (w : World) (records : list U) (fuel : nat) :
  NoDup (map primaryKey (table (db w))) ->
  Forall (fun r => primaryKey r <> "") (table (db w)) ->
  untied (rowsOf connection_id (table (db w))) ->
  1 <= limit ->
  traverse (recordOf unified idOf withRemoteData returnsRes remote_data (db w))
           (rowsOf connection_id (table (db w))) = Ok records ->
  List.length (rowsOf connection_id (table (db w))) < fuel ->
  exists w', readAll call Base64.decode fuel None w = Some (Ok records, w').
Proof.
  intros Hnd Hne Huntied Hlimit Hrec Hfuel.
  destruct (readAll_rest (db w) Hnd Hne Huntied Hlimit fuel None
              (rowsOf connection_id (table (db w))) records w)
    as [w' [Hrun _]]; try assumption.
  - repeat split.
  - constructor.
  - exists w'. exact Hrun.
Qed.

End ReadingAllPages.

(* ===================================================================== *)
(** ** The page of one call *)
(* ===================================================================== *)

Section Pages.
Context {R U : Type} `{Table R} `{Runtime}.

Lemma findMany_fetchedRows (table : list R) (connection_id : string)
    (limit : nat) (cursor : option string) :
  findMany (limit + 1) (cursorArg cursor) connection_id table =
  fetchedRows table connection_id limit cursor.
Proof.
  unfold findMany, fetchedRows, cursorArg, truthy.
  destruct cursor as [c|]; [|reflexivity].
  destruct (String.eqb c ""); reflexivity.
Qed.

Lemma prevCursor_echo (cursor : option string) :
  prevCursor cursor =
  match cursor with
  | Some c => if String.eqb c "" then None else Some (Base64.encode c)
  | None => None
  end.
Proof.
  unfold prevCursor, truthy. destruct cursor as [c|]; [|reflexivity].
  destruct (String.eqb c ""); reflexivity.
Qed.

Lemma popNext_exact (limit : nat) (rows : list R) :
  List.length rows = limit + 1 ->
  exists kept last,
    rows = kept ++ [last] /\
    popNext limit rows = (kept, Some (Base64.encode (primaryKey last))).
Proof.
  intros Hlen. unfold popNext. rewrite Hlen, Nat.eqb_refl.
  destruct (exists_last (l := rows)) as [kept [last Hrows]].
  { intros ->. cbn in Hlen. lia. }
  exists kept, last. split; [exact Hrows|]. subst rows.
  rewrite removelast_last. rewrite length_app in Hlen. cbn in Hlen.
  rewrite nth_error_app2 by lia.
  replace (limit + 1 - 1 - List.length kept) with 0 by lia. reflexivity.
Qed.

Lemma popNext_other (limit : nat) (rows : list R) :
  List.length rows <> limit + 1 -> popNext limit rows = (rows, None).
Proof.
  intros Hlen. unfold popNext.
  apply Nat.eqb_neq in Hlen. rewrite Hlen. reflexivity.
Qed.

Variable unified : R -> object -> U.
Variable idOf : U -> string.
Variable withRemoteData : U -> json -> U.
Hypothesis idOf_unified : forall r m, idOf (unified r m) = primaryKey r.
Hypothesis idOf_withRemoteData :
  forall u parsed, idOf (withRemoteData u parsed) = idOf u.

Lemma recordOf_id (returnsRes remote_data : bool) (d : Database) (r : R)
    (u : U) :
  recordOf unified idOf withRemoteData returnsRes remote_data d r = Ok u ->
  idOf u = primaryKey r.
Proof.
  unfold recordOf. destruct remote_data.
  - destruct (snapshot _ d) as [parsed|e]; [|discriminate].
    cbn [onOk]. intros Hu. injection Hu as <-.
    destruct returnsRes; rewrite ?idOf_withRemoteData; apply idOf_unified.
  - intros Hu. injection Hu as <-. apply idOf_unified.
Qed.

Lemma traverse_recordOf_ids (returnsRes remote_data : bool) (d : Database)
    (rows : list R) (records : list U) :
  traverse (recordOf unified idOf withRemoteData returnsRes remote_data d) rows
  = Ok records ->
  map idOf records = map primaryKey rows.
Proof.
  revert records. induction rows as [|r rest IH]; cbn [traverse]; intros records.
  - intros Hr. injection Hr as <-. reflexivity.
  - destruct (recordOf _ _ _ _ _ d r) as [u|e] eqn:Hu; [|discriminate].
    cbn [onOk]. destruct (traverse _ rest) as [us|e]; [|discriminate].
    cbn [onOk]. intros Hr. injection Hr as <-. cbn [map].
    rewrite (recordOf_id _ _ _ _ _ Hu), (IH us eq_refl). reflexivity.
Qed.

(** A page that is returned is the page section 4.3 describes, and the
    call has written exactly one event. *)
Lemma listMethod_page (table : Database -> list R) (returnsRes : bool)
    (type url connection_id project_id integrationId linkedUserId : string)
    (limit : nat) (remote_data : bool) (cursor : option string)
    (w w' : World) (page : Page U) :
  listMethod table unified idOf withRemoteData returnsRes type url
    connection_id project_id integrationId linkedUserId limit remote_data
    cursor w = (Ok page, w') ->
  pageAsSpecified idOf (fetchedRows (table (db w)) connection_id limit cursor)
    limit cursor page
  /\ w' = afterEvent (pullEvent connection_id project_id type url
                        integrationId linkedUserId w) w.
Proof.
  rewrite listMethod_run. unfold pageOf.
  destruct (cursorResolves _ _ _); [|discriminate].
  rewrite findMany_fetchedRows.
  set (fetched := fetchedRows (table (db w)) connection_id limit cursor).
  destruct (traverse _ (fst (popNext limit fetched))) as [records|e] eqn:Hrec;
    [|discriminate].
  cbn [onOk]. intros Hrun. injection Hrun as <- <-. split; [|reflexivity].
  apply traverse_recordOf_ids in Hrec.
  unfold pageAsSpecified. cbn [data next_cursor prev_cursor].
  split; [|split].
  - intros Hlen. destruct (popNext_exact limit fetched Hlen)
      as [kept [last [Hrows Hpop]]].
    exists kept, last. rewrite Hpop in *. cbn [fst snd] in *. auto.
  - intros Hlen. rewrite (popNext_other limit fetched Hlen) in *.
    split; [exact Hrec|reflexivity].
  - apply prevCursor_echo.
Qed.

End Pages.

(* ===================================================================== *)
(** ** Claims about the list methods *)
(* ===================================================================== *)

Lemma distinct_NoDup (keys : list string) :
  distinct keys = true -> NoDup keys.
Proof.
  induction keys as [|k rest IH]; cbn [distinct]; intros Hd; [constructor|].
  apply andb_true_iff in Hd. destruct Hd as [Hk Hrest].
  constructor; [|auto].
  intros Hin. apply negb_true_iff in Hk.
  assert (Hex : existsb (String.eqb k) rest = true).
  { apply existsb_exists. exists k. split; [exact Hin|apply String.eqb_refl]. }
  congruence.
Qed.

Lemma wellKeyed_keys {R} `{Table R} (table : list R) :
  wellKeyed table = true ->
  NoDup (map primaryKey table) /\
  Forall (fun r => primaryKey r <> "") table.
Proof.
  unfold wellKeyed. intros Hw. apply andb_true_iff in Hw.
  destruct Hw as [Hd Hf]. split; [apply distinct_NoDup, Hd|].
  apply Forall_forall. intros r Hr.
  rewrite forallb_forall in Hf. specialize (Hf r Hr).
  apply negb_true_iff, String.eqb_neq in Hf. exact Hf.
Qed.

Lemma traverse_succeeds {A B} (f : A -> result B) (xs : list A) :
  (forall x, In x xs -> exists b, f x = Ok b) ->
  exists bs, traverse f xs = Ok bs.
Proof.
  induction xs as [|x rest IH]; cbn [traverse]; intros Hall; [eauto|].
  destruct (Hall x (or_introl eq_refl)) as [b Hb]. rewrite Hb. cbn [onOk].
  destruct IH as [bs Hbs]; [intros y Hy; apply Hall; right; exact Hy|].
  rewrite Hbs. cbn [onOk]. eauto.
Qed.

Lemma firstn_incl {A} (n : nat) (l : list A) (x : A) :
  In x (firstn n l) -> In x l.
Proof.
  intros Hin. rewrite <- (firstn_skipn n l). apply in_or_app. left. exact Hin.
Qed.

Lemma fetchedRows_incl {R} `{Table R} (table : list R)
    (connection_id : string) (limit : nat) (cursor : option string) (r : R) :
  In r (fetchedRows table connection_id limit cursor) ->
  In r table /\ connectionOf r = connection_id.
Proof.
  unfold fetchedRows. intros Hin. apply firstn_incl in Hin.
  apply rowsOf_In.
  destruct cursor as [c|]; [|exact Hin].
  destruct (String.eqb c ""); [exact Hin|].
  apply (fromCursor_incl c), Hin.
Qed.

Lemma removelast_incl {A} (l : list A) (x : A) :
  In x (removelast l) -> In x l.
Proof.
  induction l as [|y rest IH]; cbn [removelast]; [auto|].
  destruct rest as [|z rest']; [contradiction|].
  intros [->|Hin]; [left; reflexivity|right; apply IH, Hin].
Qed.

Lemma popNext_incl {R} `{Table R} (limit : nat) (rows : list R) (r : R) :
  In r (fst (popNext limit rows)) -> In r rows.
Proof.
  unfold popNext. destruct (Nat.eqb _ _); cbn [fst]; [|auto].
  apply removelast_incl.
Qed.


Lemma checkCursor_invalid {R} `{Table R} (table : Database -> list R)
    (connection_id c : string) (w : World) :
  c <> "" ->
  (forall r, In r (table (db w)) -> connectionOf r = connection_id ->
             primaryKey r <> c) ->
  checkCursor table connection_id (Some c) w =
  (Err (ReferenceError "The provided cursor does not exist!"), w).
Proof.
  intros Hc Hnone. rewrite checkCursor_run. unfold cursorResolves, truthy.
  apply String.eqb_neq in Hc. rewrite Hc. cbn [negb].
  destruct (existsb _ (table (db w))) eqn:Hex; [|reflexivity].
  apply existsb_exists in Hex. destruct Hex as [r [Hin Hr]].
  apply andb_true_iff in Hr. destruct Hr as [Hconn Hkey].
  apply String.eqb_eq in Hconn, Hkey.
  exfalso. exact (Hnone r Hin Hconn Hkey).
Qed.

(** A cursor that is the id of no row of the connection: the call throws
    before it fetches, and writes nothing. *)
Lemma listMethod_invalid_cursor {R U} `{Table R} `{Runtime}
    (table : Database -> list R) (unified : R -> object -> U)
    (idOf : U -> string) (withRemoteData : U -> json -> U)
    (returnsRes : bool)
    (type url connection_id project_id integrationId linkedUserId : string)
    (limit : nat) (remote_data : bool) (c : string) (w : World) :
  c <> "" ->
  (forall r, In r (table (db w)) -> connectionOf r = connection_id ->
             primaryKey r <> c) ->
  listMethod table unified idOf withRemoteData returnsRes type url
    connection_id project_id integrationId linkedUserId limit remote_data
    (Some c) w =
  (Err (ReferenceError "The provided cursor does not exist!"), w).
Proof.
  intros Hc Hnone. rewrite listMethod_run. unfold pageOf, cursorResolves, truthy.
  apply String.eqb_neq in Hc. rewrite Hc. cbn [negb].
  destruct (existsb _ (table (db w))) eqn:Hex; [|reflexivity].
  apply existsb_exists in Hex. destruct Hex as [r [Hin Hr]].
  apply andb_true_iff in Hr. destruct Hr as [Hconn Hkey].
  apply String.eqb_eq in Hconn, Hkey.
  exfalso. exact (Hnone r Hin Hconn Hkey).
Qed.









(** C8. A list call of [getTeams] or [getAccounts] with a cursor that is
    the id of no record of the connection throws "The provided cursor does
    not exist!" before it fetches any row: the throw is that of the cursor
    check, the first statement of the method; nothing is returned and the
    world is as it was, so no event is written.  A cursor is supplied when
    the argument is a non-empty string: the methods test [if (cursor)]. *)
Theorem C8_invalid_cursor `{Runtime} (w : World)
    (connection_id project_id integrationId linkedUserId : string)
    (limit : nat) (remote_data : bool) (c : string) :
  c <> "" ->
  (forall r, In r (teams (db w)) ->
             tcg_teams.id_connection r = connection_id ->
             tcg_teams.id_tcg_team r <> c) ->
  (forall r, In r (accounts (db w)) ->
             tcg_accounts.id_connection r = connection_id ->
             tcg_accounts.id_tcg_account r <> c) ->
  (TeamService.getTeams connection_id project_id integrationId linkedUserId
     limit remote_data (Some c) w =
   (Err (ReferenceError "The provided cursor does not exist!"), w)
   /\
   checkCursor teams connection_id (Some c) w =
   (Err (ReferenceError "The provided cursor does not exist!"), w))
  /\
  (AccountService.getAccounts connection_id project_id integrationId
     linkedUserId limit remote_data (Some c) w =
   (Err (ReferenceError "The provided cursor does not exist!"), w)
   /\
   checkCursor accounts connection_id (Some c) w =
   (Err (ReferenceError "The provided cursor does not exist!"), w)).
Proof.
  intros Hc Hteams Haccounts. split; split.
  - rewrite getTeams_listMethod. apply listMethod_invalid_cursor; assumption.
  - apply checkCursor_invalid; assumption.
  - rewrite getAccounts_listMethod. apply listMethod_invalid_cursor; assumption.
  - apply checkCursor_invalid; assumption.
Qed.

(** The id of a team of another connection is no cursor for [c1]. *)
Lemma C8_invalid_cursor_witness :
  (@TeamService.getTeams Example.literals "c1" "p1" "zendesk" "lu1" 2 true
     (Some "t9") Example.world =
   (Err (ReferenceError "The provided cursor does not exist!"), Example.world)
   /\
   checkCursor teams "c1" (Some "t9") Example.world =
   (Err (ReferenceError "The provided cursor does not exist!"), Example.world))
  /\
  (@AccountService.getAccounts Example.literals "c1" "p1" "zendesk" "lu1" 2
     true (Some "t9") Example.world =
   (Err (ReferenceError "The provided cursor does not exist!"), Example.world)
   /\
   checkCursor accounts "c1" (Some "t9") Example.world =
   (Err (ReferenceError "The provided cursor does not exist!"), Example.world)).
Proof.
  apply (@C8_invalid_cursor Example.literals Example.world "c1" "p1" "zendesk"
           "lu1" 2 true "t9").
  - discriminate.
  - intros r Hin Hconn. cbn in Hin.
    repeat (destruct Hin as [<-|Hin]; [cbn in *; congruence|]).
    destruct Hin.
  - intros r Hin Hconn. cbn in Hin.
    repeat (destruct Hin as [<-|Hin]; [cbn in *; congruence|]).
    destruct Hin.
Defined.

Lemma traverse_Forall {A B} (P : B -> Prop) (f : A -> result B)
    (xs : list A) (ys : list B) :
  (forall x y, f x = Ok y -> P y) ->
  traverse f xs = Ok ys -> Forall P ys.
Proof.
  intros Hf. revert ys. induction xs as [|x rest IH]; cbn [traverse]; intros ys.
  - intros Hys. injection Hys as <-. constructor.
  - destruct (f x) as [y|e] eqn:Hy; [|discriminate]. cbn [onOk].
    destruct (traverse f rest) as [ys'|e]; [|discriminate]. cbn [onOk].
    intros Hys. injection Hys as <-. constructor; eauto.
Qed.

(** When the snapshots are attached and dropped, a page that comes back
    is the page that comes back without asking for them. *)
Lemma traverse_recordOf_dropped {R U} `{Table R} `{Runtime}
    (unified : R -> object -> U) (idOf : U -> string)
    (withRemoteData : U -> json -> U) (remote_data : bool) (d : Database)
    (rows : list R) (records : list U) :
  traverse (recordOf unified idOf withRemoteData false remote_data d) rows
  = Ok records ->
  traverse (recordOf unified idOf withRemoteData false false d) rows
  = Ok records.
Proof.
  revert records. induction rows as [|r rest IH]; cbn [traverse]; intros records;
    [auto|].
  unfold recordOf at 1 3. destruct remote_data; [|auto].
  destruct (snapshot _ d) as [parsed|e]; [|discriminate]. cbn [onOk].
  destruct (traverse _ rest) as [us|e]; [|discriminate].
  rewrite (IH us eq_refl). auto.
Qed.

(** C10. Whatever [remote_data] is, a page returned by [getAttachments]
    is the page returned when [remote_data] is false, and none of its
    records carries a [remote_data] field. *)
Theorem C10_getAttachments_drops_remote_data `{Runtime} (w w' : World)
    (connection_id project_id integrationId linkedUserId : string)
    (limit : nat) (remote_data : bool) (cursor : option string)
    (page : Page UnifiedTicketingAttachmentOutput.t) :
  AttachmentService.getAttachments connection_id project_id integrationId
    linkedUserId limit remote_data cursor w = (Ok page, w') ->
  AttachmentService.getAttachments connection_id project_id integrationId
    linkedUserId limit false cursor w = (Ok page, w')
  /\ Forall (fun a => UnifiedTicketingAttachmentOutput.remote_data a = None)
            (data page).
Proof.
  rewrite getAttachments_listMethod, !listMethod_run. unfold pageOf.
  destruct (cursorResolves _ _ _); [|discriminate].
  destruct (traverse _ _) as [records|e] eqn:Hrec; [|discriminate].
  cbn [onOk]. intros Hrun. injection Hrun as <- <-.
  rewrite (traverse_recordOf_dropped _ _ _ _ _ _ _ Hrec). cbn [onOk].
  split; [reflexivity|]. cbn [data].
  apply traverse_recordOf_dropped in Hrec.
  revert Hrec. apply traverse_Forall.
  intros r a Ha. unfold recordOf in Ha. injection Ha as <-. reflexivity.
Qed.

(** Attachment [f1] has a snapshot; the page with [remote_data] set is
    the page without. *)
Lemma C10_getAttachments_drops_remote_data_witness :
  exists page w',
    @AttachmentService.getAttachments Example.literals "c1" "p1" "zendesk"
      "lu1" 1 true None Example.world = (Ok page, w') /\
    @AttachmentService.getAttachments Example.literals "c1" "p1" "zendesk"
      "lu1" 1 false None Example.world = (Ok page, w') /\
    Forall (fun a => UnifiedTicketingAttachmentOutput.remote_data a = None)
           (data page).
Proof.
  eexists. eexists.
  split; [vm_compute; reflexivity|].
  eapply (@C10_getAttachments_drops_remote_data Example.literals _ _
            "c1" "p1" "zendesk" "lu1" 1 true None).
  vm_compute. reflexivity.
Defined.

(** The snapshots are fetched all the same: with both attachments of
    [c1] on the page and [remote_data] set the call fails on [f2], which
    has no snapshot; without [remote_data] it returns the two. *)
Lemma getAttachments_fetches_snapshots :
  @AttachmentService.getAttachments Example.literals "c1" "p1" "zendesk" "lu1"
    2 true None Example.world =
  (Err (TypeError "Cannot read properties of null (reading 'data')"),
   Example.world)
  /\
  exists page w',
    @AttachmentService.getAttachments Example.literals "c1" "p1" "zendesk"
      "lu1" 2 false None Example.world = (Ok page, w') /\
    map UnifiedTicketingAttachmentOutput.id (data page) = ["f1"; "f2"].
Proof.
  split; [vm_compute; reflexivity|].
  eexists. eexists. split; [vm_compute; reflexivity|reflexivity].
Qed.

(** C1, amended. A client that reads [getTeams] or [getAttachments] page
    after page with a limit of at least one, handing back the id that each
    [next_cursor] encodes (its base64 decoding), until [next_cursor] is
    null, collects the records of the connection in creation order, each
    exactly once.  The ids of the table are non-empty and distinct; no two
    records of the connection were created at the same instant ([untied]):
    the store places a cursor by [created_at], and among records of one
    instant it would not place it at the cursor record; when snapshots are
    asked for, every record has one ([teamRecords] and [attachmentRecords]
    are [Ok]). *)
Theorem C1_reading_all_pages `{Runtime} (w : World)
    (connection_id project_id integrationId linkedUserId : string)
    (limit : nat) (remote_data : bool) (fuel : nat) :
  1 <= limit ->
  (forall records,
     wellKeyed (teams (db w)) = true ->
     untied (rowsOf connection_id (teams (db w))) ->
     teamRecords connection_id remote_data (db w) = Ok records ->
     List.length (rowsOf connection_id (teams (db w))) < fuel ->
     (exists w',
        readAll (TeamService.getTeams connection_id project_id integrationId
                   linkedUserId limit remote_data)
                Base64.decode fuel None w = Some (Ok records, w'))
     /\ map UnifiedTicketingTeamOutput.id records =
        map tcg_teams.id_tcg_team (rowsOf connection_id (teams (db w)))
     /\ NoDup (map UnifiedTicketingTeamOutput.id records))
  /\
  (forall records,
     wellKeyed (attachments (db w)) = true ->
     untied (rowsOf connection_id (attachments (db w))) ->
     attachmentRecords connection_id remote_data (db w) = Ok records ->
     List.length (rowsOf connection_id (attachments (db w))) < fuel ->
     (exists w',
        readAll (AttachmentService.getAttachments connection_id project_id
                   integrationId linkedUserId limit remote_data)
                Base64.decode fuel None w = Some (Ok records, w'))
     /\ map UnifiedTicketingAttachmentOutput.id records =
        map tcg_attachments.id_tcg_attachment
            (rowsOf connection_id (attachments (db w)))
     /\ NoDup (map UnifiedTicketingAttachmentOutput.id records)).
Proof.
  intros Hlimit. split; intros records Hkeys Huntied Hrec Hfuel;
    destruct (wellKeyed_keys _ Hkeys) as [Hnd Hne].
  - assert (Hids : map UnifiedTicketingTeamOutput.id records =
                   map tcg_teams.id_tcg_team
                       (rowsOf connection_id (teams (db w)))).
    { exact (traverse_recordOf_ids TeamService.unified
               UnifiedTicketingTeamOutput.id TeamService.withRemoteData
               (fun _ _ => eq_refl) (fun _ _ => eq_refl)
               true remote_data (db w) _ records Hrec). }
    split; [|split; [exact Hids|]].
    + rewrite getTeams_listMethod.
      apply readAll_complete; try assumption. reflexivity.
    + rewrite Hids. apply (rowsOf_NoDup connection_id (teams (db w)) Hnd).
  - assert (Hids : map UnifiedTicketingAttachmentOutput.id records =
                   map tcg_attachments.id_tcg_attachment
                       (rowsOf connection_id (attachments (db w)))).
    { exact (traverse_recordOf_ids AttachmentService.unified
               UnifiedTicketingAttachmentOutput.id
               AttachmentService.withRemoteData
               (fun _ _ => eq_refl) (fun _ _ => eq_refl)
               false remote_data (db w) _ records Hrec). }
    split; [|split; [exact Hids|]].
    + rewrite getAttachments_listMethod.
      apply readAll_complete; try assumption. reflexivity.
    + rewrite Hids.
      apply (rowsOf_NoDup connection_id (attachments (db w)) Hnd).
Qed.

(** The three teams of [c1], two per page; the two attachments, one per
    page. *)
Lemma C1_reading_all_pages_witness :
  (exists records,
     map UnifiedTicketingTeamOutput.id records = ["t1"; "t2"; "t3"] /\
     exists w',
       readAll (@TeamService.getTeams Example.literals "c1" "p1" "zendesk"
                  "lu1" 2 false)
               Base64.decode 4 None Example.world = Some (Ok records, w'))
  /\
  (exists records,
     map UnifiedTicketingAttachmentOutput.id records = ["f1"; "f2"] /\
     exists w',
       readAll (@AttachmentService.getAttachments Example.literals "c1" "p1"
                  "zendesk" "lu1" 1 false)
               Base64.decode 4 None Example.world = Some (Ok records, w')).
Proof.
  split.
  - eexists. split; [|
      eapply (proj1 (@C1_reading_all_pages Example.literals Example.world
                       "c1" "p1" "zendesk" "lu1" 2 false 4
                       ltac:(lia)));
      [reflexivity
      |repeat constructor; cbn; intuition discriminate
      |vm_compute; reflexivity|vm_compute; lia] ].
    reflexivity.
  - eexists. split; [|
      eapply (proj2 (@C1_reading_all_pages Example.literals Example.world
                       "c1" "p1" "zendesk" "lu1" 1 false 4
                       ltac:(lia)));
      [reflexivity
      |repeat constructor; cbn; intuition discriminate
      |vm_compute; reflexivity|vm_compute; lia] ].
    reflexivity.
Defined.

(** C1 as stated fails: handing [next_cursor] back as it is.  With the
    three teams of [c1] and [limit = 2] the first page ends with
    [next_cursor = "dDM="], the base64 text of [t3]; no team has the id
    ["dDM="], so the second call throws, however many calls are allowed. *)
Lemma C1_literal_cursor_counterexample :
  (forall fuel records w',
     readAll (@TeamService.getTeams Example.literals "c1" "p1" "zendesk"
                "lu1" 2 false)
             Some fuel None Example.world <> Some (Ok records, w'))
  /\
  (exists w',
     readAll (@TeamService.getTeams Example.literals "c1" "p1" "zendesk"
                "lu1" 2 false)
             Some 2 None Example.world =
     Some (Err (ReferenceError "The provided cursor does not exist!"), w')).
Proof.
  assert (Hcalls :
            exists page w1,
              @TeamService.getTeams Example.literals "c1" "p1" "zendesk" "lu1"
                2 false None Example.world = (Ok page, w1) /\
              next_cursor page = Some "dDM=" /\
              @TeamService.getTeams Example.literals "c1" "p1" "zendesk" "lu1"
                2 false (Some "dDM=") w1 =
              (Err (ReferenceError "The provided cursor does not exist!"), w1)).
  { eexists. eexists. split; [vm_compute; reflexivity|].
    split; [reflexivity|vm_compute; reflexivity]. }
  destruct Hcalls as [page [w1 [Hfirst [Hnext Hsecond]]]].
  split.
  - intros [|[|fuel]] records w'; cbn [readAll]; [discriminate| |].
    + rewrite Hfirst, Hnext. discriminate.
    + rewrite Hfirst, Hnext, Hsecond. discriminate.
  - exists w1. cbn [readAll]. rewrite Hfirst, Hnext, Hsecond. reflexivity.
Qed.

(* ===================================================================== *)
(** ** Claims about the single-record reads *)
(* ===================================================================== *)

Lemma find_present {A} (p : A -> bool) (l : list A) :
  (exists x, In x l /\ p x = true) ->
  exists y, find p l = Some y /\ p y = true.
Proof.
  intros [x [Hin Hp]]. destruct (find p l) as [y|] eqn:Hfind.
  - exists y. split; [reflexivity|]. apply (find_some _ _ Hfind).
  - rewrite (find_none _ _ Hfind x Hin) in Hp. discriminate.
Qed.

Lemma find_absent {A} (p : A -> bool) (l : list A) :
  (forall x, In x l -> p x = false) -> find p l = None.
Proof.
  intros Hnone. destruct (find p l) as [y|] eqn:Hfind; [|reflexivity].
  apply find_some in Hfind. destruct Hfind as [Hin Hp].
  rewrite (Hnone y Hin) in Hp. discriminate.
Qed.

Lemma snapshot_missing `{Runtime} (owner : string) (d : Database) :
  (forall s, In s (remoteData d) -> remote_data.ressource_owner_id s <> owner) ->
  snapshot owner d =
  Err (TypeError "Cannot read properties of null (reading 'data')").
Proof.
  intros Hnone. unfold snapshot, findFirst. rewrite find_absent; [reflexivity|].
  intros s Hs. apply String.eqb_neq, Hnone, Hs.
Qed.

(** The reads that report an absent row. *)
Lemma getTeam_missing `{Runtime} (id linkedUserId integrationId connection_id
    project_id : string) (remote_data : bool) (w : World) :
  (forall r, In r (teams (db w)) -> tcg_teams.id_tcg_team r <> id) ->
  TeamService.getTeam id linkedUserId integrationId connection_id project_id
    remote_data w =
  (Err (JsError ("Team with id " ++ id ++ " not found")), w).
Proof.
  intros Hnone. unfold TeamService.getTeam. rewrite bind_run. cbn [getDb].
  unfold findUnique. rewrite find_absent; [reflexivity|].
  intros r Hr. apply String.eqb_neq, Hnone, Hr.
Qed.

Lemma getAttachment_missing `{Runtime} (id : string)
    (linkedUserId integrationId : option string)
    (connection_id project_id : string) (remote_data : bool) (w : World) :
  (forall r, In r (attachments (db w)) ->
             tcg_attachments.id_tcg_attachment r <> id) ->
  AttachmentService.getAttachment id linkedUserId integrationId connection_id
    project_id remote_data w =
  (Err (ReferenceError "Attachment not found"), w).
Proof.
  intros Hnone. unfold AttachmentService.getAttachment.
  rewrite bind_run. cbn [getDb].
  unfold findUnique. rewrite find_absent; [reflexivity|].
  intros r Hr. apply String.eqb_neq, Hnone, Hr.
Qed.

(** The reads that only log it, and fail on the next statement. *)
Lemma getAccount_missing `{Runtime} (id integrationId linkedUserId
    connection_id project_id : string) (remote_data : bool) (w : World) :
  (forall r, In r (accounts (db w)) -> tcg_accounts.id_tcg_account r <> id) ->
  AccountService.getAccount id integrationId linkedUserId connection_id
    project_id remote_data w =
  (Err (TypeError
          "Cannot read properties of null (reading 'id_tcg_account')"), w).
Proof.
  intros Hnone. unfold AccountService.getAccount. rewrite bind_run. cbn [getDb].
  unfold findUnique. rewrite find_absent; [reflexivity|].
  intros r Hr. apply String.eqb_neq, Hnone, Hr.
Qed.

Lemma getContact_missing `{Runtime} (id linkedUserId integrationId
    connection_id project_id : string) (remote_data : bool) (w : World) :
  (forall r, In r (contacts (db w)) -> tcg_contacts.id_tcg_contact r <> id) ->
  ContactService.getContact id linkedUserId integrationId connection_id
    project_id remote_data w =
  (Err (TypeError
          "Cannot read properties of null (reading 'id_tcg_contact')"), w).
Proof.
  intros Hnone. unfold ContactService.getContact. rewrite bind_run. cbn [getDb].
  unfold findUnique. rewrite find_absent; [reflexivity|].
  intros r Hr. apply String.eqb_neq, Hnone, Hr.
Qed.

(** C4. Reading an account or a contact under an id that no row has does
    not report the absence: the error is the runtime's [TypeError] on the
    missing row, where [getAttachment] and [getTeam], on the same input,
    throw their not-found errors. *)
Theorem C4_getAccount_missing_row :
  (exists e,
     @AccountService.getAccount Example.literals "none" "zendesk" "lu1" "c1"
       "p1" false Example.world = (Err e, Example.world)
     /\ e = TypeError
              "Cannot read properties of null (reading 'id_tcg_account')"
     /\ ~ reportsNotFound e)
  /\
  (exists e,
     @ContactService.getContact Example.literals "none" "lu1" "zendesk" "c1"
       "p1" false Example.world = (Err e, Example.world)
     /\ e = TypeError
              "Cannot read properties of null (reading 'id_tcg_contact')"
     /\ ~ reportsNotFound e)
  /\
  (exists e,
     @AttachmentService.getAttachment Example.literals "none" (Some "lu1")
       (Some "zendesk") "c1" "p1" false Example.world = (Err e, Example.world)
     /\ e = ReferenceError "Attachment not found" /\ reportsNotFound e)
  /\
  (exists e,
     @TeamService.getTeam Example.literals "none" "lu1" "zendesk" "c1" "p1"
       false Example.world = (Err e, Example.world)
     /\ e = JsError "Team with id none not found" /\ reportsNotFound e).
Proof.
  repeat split; eexists; (split; [vm_compute; reflexivity|]);
    (split; [reflexivity|]); cbn; tauto.
Qed.

Lemma traverse_has_error {A B} (f : A -> result B) (xs : list A) (x : A) :
  In x xs -> (exists e, f x = Err e) -> exists e, traverse f xs = Err e.
Proof.
  induction xs as [|y rest IH]; cbn [In traverse]; intros Hin Hx;
    [contradiction|].
  destruct (f y) as [b|e] eqn:Hy; [|exists e; reflexivity].
  cbn [onOk]. destruct Hin as [->|Hin].
  - destruct Hx as [e He]. congruence.
  - destruct (IH Hin Hx) as [e He]. rewrite He. exists e. reflexivity.
Qed.

(** A list call that asks for snapshots fails when a row of its page has
    none, and writes nothing. *)
Lemma listMethod_missing_snapshot {R U} `{Table R} `{Runtime}
    (table : Database -> list R) (unified : R -> object -> U)
    (idOf : U -> string) (withRemoteData : U -> json -> U)
    (returnsRes : bool)
    (type url connection_id project_id integrationId linkedUserId : string)
    (limit : nat) (cursor : option string) (id : string) (w : World) :
  (forall r m, idOf (unified r m) = primaryKey r) ->
  (forall s, In s (remoteData (db w)) ->
             remote_data.ressource_owner_id s <> id) ->
  In id (map primaryKey (keptRows (table (db w)) connection_id limit cursor)) ->
  exists e,
    listMethod table unified idOf withRemoteData returnsRes type url
      connection_id project_id integrationId linkedUserId limit true cursor w
    = (Err e, w).
Proof.
  intros Hid Hnone Hkept. rewrite listMethod_run. unfold pageOf.
  destruct (cursorResolves _ _ _); [|eexists; reflexivity].
  rewrite findMany_fetchedRows. fold (keptRows (table (db w)) connection_id
                                        limit cursor).
  apply in_map_iff in Hkept. destruct Hkept as [r [Hr Hin]].
  destruct (traverse_has_error
              (recordOf unified idOf withRemoteData returnsRes true (db w))
              (keptRows (table (db w)) connection_id limit cursor) r Hin)
    as [e He].
  - unfold recordOf. rewrite Hid, Hr, snapshot_missing by exact Hnone.
    cbn [onOk]. eexists. reflexivity.
  - rewrite He. cbn [onOk]. eexists. reflexivity.
Qed.

(** C6, amended. A read that asks for the snapshot of a record that has
    none fails: the missing snapshot row is read without a test, which
    throws.  A single-record read ([getTeam], [getAccount], [getContact],
    [getAttachment]) throws the [TypeError] of that read; a list read
    ([getTeams], [getAccounts], [getContacts], [getAttachments]) whose page
    holds the record throws as well.  No record is returned and nothing is
    written, so no event either.  All the reads agree on this. *)
Theorem C6_missing_snapshot_fails `{Runtime} (w : World)
    (id linkedUserId integrationId connection_id project_id : string)
    (limit : nat) (cursor : option string) :
  (forall s, In s (remoteData (db w)) ->
             remote_data.ressource_owner_id s <> id) ->
  (((exists r, In r (teams (db w)) /\ tcg_teams.id_tcg_team r = id) ->
    TeamService.getTeam id linkedUserId integrationId connection_id project_id
      true w =
    (Err (TypeError "Cannot read properties of null (reading 'data')"), w))
   /\
   ((exists r, In r (accounts (db w)) /\ tcg_accounts.id_tcg_account r = id) ->
    AccountService.getAccount id integrationId linkedUserId connection_id
      project_id true w =
    (Err (TypeError "Cannot read properties of null (reading 'data')"), w))
   /\
   ((exists r, In r (contacts (db w)) /\ tcg_contacts.id_tcg_contact r = id) ->
    ContactService.getContact id linkedUserId integrationId connection_id
      project_id true w =
    (Err (TypeError "Cannot read properties of null (reading 'data')"), w))
   /\
   ((exists r, In r (attachments (db w)) /\
               tcg_attachments.id_tcg_attachment r = id) ->
    AttachmentService.getAttachment id (Some linkedUserId)
      (Some integrationId) connection_id project_id true w =
    (Err (TypeError "Cannot read properties of null (reading 'data')"), w)))
  /\
  ((In id (map tcg_teams.id_tcg_team
              (keptRows (teams (db w)) connection_id limit cursor)) ->
    exists e,
      TeamService.getTeams connection_id project_id integrationId linkedUserId
        limit true cursor w = (Err e, w))
   /\
   (In id (map tcg_accounts.id_tcg_account
              (keptRows (accounts (db w)) connection_id limit cursor)) ->
    exists e,
      AccountService.getAccounts connection_id project_id integrationId
        linkedUserId limit true cursor w = (Err e, w))
   /\
   (In id (map tcg_contacts.id_tcg_contact
              (keptRows (contacts (db w)) connection_id limit cursor)) ->
    exists e,
      ContactService.getContacts connection_id project_id integrationId
        linkedUserId limit true cursor w = (Err e, w))
   /\
   (In id (map tcg_attachments.id_tcg_attachment
              (keptRows (attachments (db w)) connection_id limit cursor)) ->
    exists e,
      AttachmentService.getAttachments connection_id project_id integrationId
        linkedUserId limit true cursor w = (Err e, w))).
Proof.
  intros Hnone. split.
  - repeat split; intros [r [Hin Hid]].
    + unfold TeamService.getTeam. rewrite bind_run. cbn [getDb].
      unfold findUnique.
      destruct (find_present
                  (fun r => String.eqb (tcg_teams.id_tcg_team r) id)
                  (teams (db w))) as [row [Hfind Hrow]].
      { exists r. split; [exact Hin|]. apply String.eqb_eq, Hid. }
      rewrite Hfind. apply String.eqb_eq in Hrow.
      rewrite !bind_run. cbn [fieldMappingsOf bind getDb ret].
      rewrite !bind_run, remoteDataOf_run, Hrow, snapshot_missing
        by exact Hnone.
      reflexivity.
    + unfold AccountService.getAccount. rewrite bind_run. cbn [getDb].
      unfold findUnique.
      destruct (find_present
                  (fun r => String.eqb (tcg_accounts.id_tcg_account r) id)
                  (accounts (db w))) as [row [Hfind Hrow]].
      { exists r. split; [exact Hin|]. apply String.eqb_eq, Hid. }
      rewrite Hfind. apply String.eqb_eq in Hrow.
      rewrite !bind_run. cbn [deref derefOr fieldMappingsOf bind getDb ret].
      rewrite !bind_run, remoteDataOf_run, Hrow, snapshot_missing
        by exact Hnone.
      reflexivity.
    + unfold ContactService.getContact. rewrite bind_run. cbn [getDb].
      unfold findUnique.
      destruct (find_present
                  (fun r => String.eqb (tcg_contacts.id_tcg_contact r) id)
                  (contacts (db w))) as [row [Hfind Hrow]].
      { exists r. split; [exact Hin|]. apply String.eqb_eq, Hid. }
      rewrite Hfind. apply String.eqb_eq in Hrow.
      rewrite !bind_run. cbn [deref derefOr fieldMappingsOf bind getDb ret].
      rewrite !bind_run, remoteDataOf_run, Hrow, snapshot_missing
        by exact Hnone.
      reflexivity.
    + unfold AttachmentService.getAttachment. rewrite bind_run. cbn [getDb].
      unfold findUnique.
      destruct (find_present
                  (fun r => String.eqb (tcg_attachments.id_tcg_attachment r) id)
                  (attachments (db w))) as [row [Hfind Hrow]].
      { exists r. split; [exact Hin|]. apply String.eqb_eq, Hid. }
      rewrite Hfind. apply String.eqb_eq in Hrow.
      rewrite !bind_run. cbn [fieldMappingsOf bind getDb ret].
      rewrite !bind_run, remoteDataOf_run, Hrow, snapshot_missing
        by exact Hnone.
      reflexivity.
  - repeat split; intros Hkept.
    + rewrite getTeams_listMethod.
      apply (listMethod_missing_snapshot teams) with (id := id);
        [reflexivity|exact Hnone|exact Hkept].
    + rewrite getAccounts_listMethod.
      apply (listMethod_missing_snapshot accounts) with (id := id);
        [reflexivity|exact Hnone|exact Hkept].
    + rewrite getContacts_listMethod.
      apply (listMethod_missing_snapshot contacts) with (id := id);
        [reflexivity|exact Hnone|exact Hkept].
    + rewrite getAttachments_listMethod.
      apply (listMethod_missing_snapshot attachments) with (id := id);
        [reflexivity|exact Hnone|exact Hkept].
Qed.

(** Team [t2] and account [a1] have no snapshot; [t2] is on the first page
    of two teams. *)
Lemma C6_missing_snapshot_fails_witness :
  @TeamService.getTeam Example.literals "t2" "lu1" "zendesk" "c1" "p1" true
    Example.world =
  (Err (TypeError "Cannot read properties of null (reading 'data')"),
   Example.world)
  /\
  @AccountService.getAccount Example.literals "a1" "zendesk" "lu1" "c1" "p1"
    true Example.world =
  (Err (TypeError "Cannot read properties of null (reading 'data')"),
   Example.world)
  /\
  (exists e,
     @TeamService.getTeams Example.literals "c1" "p1" "zendesk" "lu1" 2 true
       None Example.world = (Err e, Example.world)).
Proof.
  split; [|split].
  - apply (proj1 (proj1
             (@C6_missing_snapshot_fails Example.literals Example.world
                "t2" "lu1" "zendesk" "c1" "p1" 2 None
                ltac:(intros s Hin; cbn in Hin;
                      repeat (destruct Hin as [<-|Hin]; [discriminate|]);
                      destruct Hin)))).
    exists (Example.team "t2" "Sales" 20 "c1"). cbn. auto.
  - apply (proj1 (proj2 (proj1
             (@C6_missing_snapshot_fails Example.literals Example.world
                "a1" "lu1" "zendesk" "c1" "p1" 2 None
                ltac:(intros s Hin; cbn in Hin;
                      repeat (destruct Hin as [<-|Hin]; [discriminate|]);
                      destruct Hin))))).
    exists (Example.account "a1" "Acme" 11 "c1"). cbn. auto.
  - apply (proj1 (proj2
             (@C6_missing_snapshot_fails Example.literals Example.world
                "t2" "lu1" "zendesk" "c1" "p1" 2 None
                ltac:(intros s Hin; cbn in Hin;
                      repeat (destruct Hin as [<-|Hin]; [discriminate|]);
                      destruct Hin)))).
    cbn. auto.
Defined.

(** C6 as stated fails: team [t2] exists and has no snapshot; reading it
    with [remote_data] set returns no record. *)
Lemma C6_missing_snapshot_counterexample :
  existsb (fun r => String.eqb (tcg_teams.id_tcg_team r) "t2")
          (teams (db Example.world)) = true
  /\ existsb (fun s => String.eqb (remote_data.ressource_owner_id s) "t2")
             (remoteData (db Example.world)) = false
  /\ (forall team w',
        @TeamService.getTeam Example.literals "t2" "lu1" "zendesk" "c1" "p1"
          true Example.world <> (Ok team, w'))
  /\ @TeamService.getTeam Example.literals "t2" "lu1" "zendesk" "c1" "p1"
       true Example.world =
     (Err (TypeError "Cannot read properties of null (reading 'data')"),
      Example.world).
Proof.
  assert (Hrun :
            @TeamService.getTeam Example.literals "t2" "lu1" "zendesk" "c1"
              "p1" true Example.world =
            (Err (TypeError "Cannot read properties of null (reading 'data')"),
             Example.world)) by (vm_compute; reflexivity).
  repeat split; try reflexivity; try exact Hrun.
  intros team w'. rewrite Hrun. discriminate.
Qed.

(* ===================================================================== *)
(** ** Claims about the upserts *)
(* ===================================================================== *)

Lemma find_by_key {A} (key : A -> string) (l : list A) (x : A) :
  NoDup (map key l) -> In x l ->
  find (fun r => String.eqb (key r) (key x)) l = Some x.
Proof.
  induction l as [|y rest IH]; cbn [map find In]; intros Hnd Hin; [contradiction|].
  inversion Hnd as [|k ks Hnotin Hrest]; subst.
  destruct Hin as [->|Hin]; [rewrite String.eqb_refl; reflexivity|].
  destruct (String.eqb (key y) (key x)) eqn:Heq; [|auto].
  apply String.eqb_eq in Heq. exfalso. apply Hnotin. rewrite Heq.
  apply in_map, Hin.
Qed.

Lemma existsb_fresh {A} (key : A -> string) (l : list A) (id : string) :
  (forall r, In r l -> key r <> id) ->
  existsb (fun r => String.eqb (key r) id) l = false.
Proof.
  intros Hfresh. destruct (existsb _ l) eqn:Hex; [|reflexivity].
  apply existsb_exists in Hex. destruct Hex as [r [Hin Hr]].
  apply String.eqb_eq in Hr. exfalso. exact (Hfresh r Hin Hr).
Qed.

Lemma writeTable_run {R} (table : Database -> list R)
    (store : list R -> Database -> Database)
    (write : list R -> result (R * list R)) (w : World) :
  writeTable table store write w =
  match write (table (db w)) with
  | Ok (r, rows) => (Ok r, withDb (store rows (db w)) w)
  | Err e => (Err e, w)
  end.
Proof.
  unfold writeTable. rewrite bind_run. cbn [getDb].
  destruct (write (table (db w))) as [[r rows]|e]; reflexivity.
Qed.

(** One step of a service method: run the first statement when it is one
    of the steps that cannot fail. *)
Ltac step := rewrite bind_run; cbn [getDb newDate uuidv4 ret].

(** The ticket upsert, step by step. *)
Lemma saveOrUpdateTicket_run (ticket : UnifiedTicketingTicketOutput.t)
    (connection_id : string) (w : World) :
  TicketService.saveOrUpdateTicket ticket connection_id w =
  let id := uuidSource w (uuidCount w) in
  match TicketService.existingTicket
          (UnifiedTicketingTicketOutput.remote_id ticket) connection_id (db w)
  with
  | Some existing =>
      match prismaUpdate tcg_tickets.id_tcg_ticket
              (tcg_tickets.id_tcg_ticket existing)
              (TicketService.updated id (now w) ticket connection_id)
              (tickets (db w)) with
      | Ok (_, rows) =>
          (Ok (tcg_tickets.id_tcg_ticket existing),
           withDb (setTickets rows (db w)) (afterUuid w))
      | Err e => (Err e, afterUuid w)
      end
  | None =>
      match prismaCreate tcg_tickets.id_tcg_ticket
              (TicketService.created id (now w) ticket connection_id)
              (tickets (db w)) with
      | Ok (r, rows) =>
          (Ok (tcg_tickets.id_tcg_ticket r),
           withDb (setTickets rows (db w)) (afterUuid w))
      | Err e => (Err e, afterUuid w)
      end
  end.
Proof.
  unfold TicketService.saveOrUpdateTicket. do 3 step. cbn [afterUuid now].
  destruct (TicketService.existingTicket _ connection_id (db w)) as [existing|].
  - do 2 step. rewrite writeTable_run. cbn [afterUuid db now].
    destruct (prismaUpdate _ _ _ _) as [[r rows]|e]; reflexivity.
  - step. rewrite writeTable_run. cbn [afterUuid db now].
    destruct (prismaCreate _ _ _) as [[r rows]|e]; reflexivity.
Qed.

(** The attachment upsert of [addAttachment], step by step. *)
Lemma saveOrUpdateAttachment_run
    (input : UnifiedTicketingAttachmentInput.t)
    (connection_id linkedUserId : string) (w : World) :
  AttachmentService.saveOrUpdateAttachment input connection_id linkedUserId w =
  let file_name := UnifiedTicketingAttachmentInput.file_name input in
  match AttachmentService.existingAttachment file_name connection_id (db w)
  with
  | Some existing =>
      match prismaUpdate tcg_attachments.id_tcg_attachment
              (tcg_attachments.id_tcg_attachment existing)
              (AttachmentService.updated file_name linkedUserId (now w))
              (attachments (db w)) with
      | Ok (r, rows) =>
          (Ok (tcg_attachments.id_tcg_attachment r),
           withDb (setAttachments rows (db w)) w)
      | Err e => (Err e, w)
      end
  | None =>
      match prismaCreate tcg_attachments.id_tcg_attachment
              (AttachmentService.created (uuidSource w (uuidCount w)) file_name
                 linkedUserId (now w) (now w) connection_id)
              (attachments (db w)) with
      | Ok (r, rows) =>
          (Ok (tcg_attachments.id_tcg_attachment r),
           withDb (setAttachments rows (db w)) (afterUuid w))
      | Err e => (Err e, afterUuid w)
      end
  end.
Proof.
  unfold AttachmentService.saveOrUpdateAttachment. step.
  destruct (AttachmentService.existingAttachment _ connection_id (db w))
    as [existing|].
  - do 2 step. rewrite writeTable_run.
    destruct (prismaUpdate _ _ _ _) as [[r rows]|e]; reflexivity.
  - do 4 step. rewrite writeTable_run. cbn [afterUuid db now].
    destruct (prismaCreate _ _ _) as [[r rows]|e]; reflexivity.
Qed.

Lemma prismaUpdate_located {R} (key : R -> string) (table : list R) (ex : R)
    (change : R -> R) :
  NoDup (map key table) -> In ex table ->
  key (change ex) = key ex \/
  existsb (fun r => String.eqb (key r) (key (change ex))) table = false ->
  prismaUpdate key (key ex) change table =
  Ok (change ex,
      replaceFirst (fun r => String.eqb (key r) (key ex)) (change ex) table).
Proof.
  intros Hnd Hin Hkey. unfold prismaUpdate.
  rewrite (find_by_key key table ex Hnd Hin).
  destruct Hkey as [Hsame|Hfresh].
  - rewrite Hsame, String.eqb_refl. reflexivity.
  - rewrite Hfresh, andb_false_r. reflexivity.
Qed.

(** C3, amended. An upsert finds the record to update by a key of what is
    pushed within the connection, never by the internal id: the ticket
    upsert by [(remote_id, id_connection)], the attachment upsert of
    [addAttachment] by [(file_name, id_connection)].  When a record is
    found, that record (addressed by its id) takes the pushed fields and
    [modified_at] becomes the current time, [created_at] being kept; when
    none is found, a record is added whose id is the uuid just drawn. *)
Theorem C3_upsert_by_key (w : World)
    (ticket : UnifiedTicketingTicketOutput.t)
    (input : UnifiedTicketingAttachmentInput.t)
    (connection_id linkedUserId rid : string) :
  let uuid := uuidSource w (uuidCount w) in
  UnifiedTicketingTicketOutput.remote_id ticket = Some rid ->
  distinct (map tcg_tickets.id_tcg_ticket (tickets (db w))) = true ->
  distinct (map tcg_attachments.id_tcg_attachment (attachments (db w)))
  = true ->
  existsb (fun r => String.eqb (tcg_tickets.id_tcg_ticket r) uuid)
          (tickets (db w)) = false ->
  existsb (fun r => String.eqb (tcg_attachments.id_tcg_attachment r) uuid)
          (attachments (db w)) = false ->
  match find (fun r => match tcg_tickets.remote_id r with
                       | Some remote => String.eqb remote rid
                       | None => false
                       end
                       && String.eqb (tcg_tickets.id_connection r)
                                     connection_id)
             (tickets (db w)) with
  | Some found =>
      exists w' row,
        TicketService.saveOrUpdateTicket ticket connection_id w =
        (Ok (tcg_tickets.id_tcg_ticket found), w') /\
        tickets (db w') =
        replaceFirst (fun r => String.eqb (tcg_tickets.id_tcg_ticket r)
                                          (tcg_tickets.id_tcg_ticket found))
                     row (tickets (db w)) /\
        tcg_tickets.name row =
        TicketService.orKeep (UnifiedTicketingTicketOutput.name ticket)
                             (tcg_tickets.name found) /\
        tcg_tickets.status row =
        TicketService.orKeep (UnifiedTicketingTicketOutput.status ticket)
                             (tcg_tickets.status found) /\
        tcg_tickets.priority row =
        TicketService.orKeep (UnifiedTicketingTicketOutput.priority ticket)
                             (tcg_tickets.priority found) /\
        tcg_tickets.source row =
        TicketService.orKeep (UnifiedTicketingTicketOutput.source ticket)
                             (tcg_tickets.source found) /\
        tcg_tickets.remote_id row = Some rid /\
        tcg_tickets.id_connection row = connection_id /\
        tcg_tickets.created_at row = tcg_tickets.created_at found /\
        tcg_tickets.modified_at row = now w
  | None =>
      exists w' row,
        TicketService.saveOrUpdateTicket ticket connection_id w =
        (Ok uuid, w') /\
        tickets (db w') = tickets (db w) ++ [row] /\
        tcg_tickets.id_tcg_ticket row = uuid /\
        tcg_tickets.name row = UnifiedTicketingTicketOutput.name ticket /\
        tcg_tickets.status row = UnifiedTicketingTicketOutput.status ticket /\
        tcg_tickets.priority row =
        UnifiedTicketingTicketOutput.priority ticket /\
        tcg_tickets.source row = UnifiedTicketingTicketOutput.source ticket /\
        tcg_tickets.remote_id row = Some rid /\
        tcg_tickets.id_connection row = connection_id /\
        tcg_tickets.modified_at row = now w
  end
  /\
  match find (fun r => String.eqb (tcg_attachments.file_name r)
                         (UnifiedTicketingAttachmentInput.file_name input)
                       && String.eqb (tcg_attachments.id_connection r)
                                     connection_id)
             (attachments (db w)) with
  | Some found =>
      exists w' row,
        AttachmentService.saveOrUpdateAttachment input connection_id
          linkedUserId w =
        (Ok (tcg_attachments.id_tcg_attachment found), w') /\
        attachments (db w') =
        replaceFirst (fun r => String.eqb (tcg_attachments.id_tcg_attachment r)
                                 (tcg_attachments.id_tcg_attachment found))
                     row (attachments (db w)) /\
        tcg_attachments.id_tcg_attachment row =
        tcg_attachments.id_tcg_attachment found /\
        tcg_attachments.file_name row =
        UnifiedTicketingAttachmentInput.file_name input /\
        tcg_attachments.uploader row = linkedUserId /\
        tcg_attachments.remote_id row = tcg_attachments.remote_id found /\
        tcg_attachments.id_connection row = connection_id /\
        tcg_attachments.created_at row = tcg_attachments.created_at found /\
        tcg_attachments.modified_at row = now w
  | None =>
      exists w' row,
        AttachmentService.saveOrUpdateAttachment input connection_id
          linkedUserId w = (Ok uuid, w') /\
        attachments (db w') = attachments (db w) ++ [row] /\
        tcg_attachments.id_tcg_attachment row = uuid /\
        tcg_attachments.file_name row =
        UnifiedTicketingAttachmentInput.file_name input /\
        tcg_attachments.uploader row = linkedUserId /\
        tcg_attachments.id_connection row = connection_id /\
        tcg_attachments.created_at row = now w /\
        tcg_attachments.modified_at row = now w
  end.
Proof.
  intros uuid Hrid Htickets Hattachments Hfresh Hfresh'. split.
  - rewrite saveOrUpdateTicket_run. cbv zeta.
    unfold TicketService.existingTicket, findFirst. rewrite Hrid.
    cbn [whereEq]. fold uuid.
    destruct (find _ (tickets (db w))) as [found|] eqn:Hfind.
    + apply find_some in Hfind. destruct Hfind as [Hin Hkey].
      apply andb_true_iff in Hkey. destruct Hkey as [_ Hconn].
      apply String.eqb_eq in Hconn.
      rewrite (prismaUpdate_located tcg_tickets.id_tcg_ticket (tickets (db w))
                 found
                 (TicketService.updated uuid (now w) ticket connection_id)
                 (distinct_NoDup _ Htickets) Hin)
        by (right; exact Hfresh).
      eexists. eexists. split; [reflexivity|]. split; [reflexivity|].
      cbn [withDb db setTickets tickets TicketService.updated
           tcg_tickets.name tcg_tickets.status tcg_tickets.priority
           tcg_tickets.source tcg_tickets.remote_id tcg_tickets.id_connection
           tcg_tickets.created_at tcg_tickets.modified_at].
      rewrite Hrid. cbn [TicketService.orKeep]. repeat split.
    + unfold prismaCreate. cbn [TicketService.created tcg_tickets.id_tcg_ticket].
      rewrite Hfresh. eexists. eexists. split; [reflexivity|].
      split; [reflexivity|].
      cbn [withDb db setTickets tickets TicketService.created
           tcg_tickets.id_tcg_ticket
           tcg_tickets.name tcg_tickets.status tcg_tickets.priority
           tcg_tickets.source tcg_tickets.remote_id tcg_tickets.id_connection
           tcg_tickets.created_at tcg_tickets.modified_at].
      rewrite Hrid. repeat split.
  - rewrite saveOrUpdateAttachment_run. cbv zeta.
    unfold AttachmentService.existingAttachment, findFirst. fold uuid.
    destruct (find _ (attachments (db w))) as [found|] eqn:Hfind.
    + apply find_some in Hfind. destruct Hfind as [Hin Hkey].
      apply andb_true_iff in Hkey. destruct Hkey as [_ Hconn].
      apply String.eqb_eq in Hconn.
      rewrite (prismaUpdate_located tcg_attachments.id_tcg_attachment
                 (attachments (db w)) found
                 (AttachmentService.updated
                    (UnifiedTicketingAttachmentInput.file_name input)
                    linkedUserId (now w))
                 (distinct_NoDup _ Hattachments) Hin)
        by (left; reflexivity).
      eexists. eexists. split; [reflexivity|]. split; [reflexivity|].
      cbn [withDb db setAttachments attachments AttachmentService.updated
           tcg_attachments.id_tcg_attachment tcg_attachments.file_name
           tcg_attachments.uploader tcg_attachments.remote_id
           tcg_attachments.id_connection tcg_attachments.created_at
           tcg_attachments.modified_at].
      repeat split. exact Hconn.
    + unfold prismaCreate.
      cbn [AttachmentService.created tcg_attachments.id_tcg_attachment].
      rewrite Hfresh'. eexists. eexists. split; [reflexivity|].
      split; [reflexivity|].
      cbn [withDb db setAttachments attachments AttachmentService.created
           tcg_attachments.id_tcg_attachment tcg_attachments.file_name
           tcg_attachments.uploader tcg_attachments.remote_id
           tcg_attachments.id_connection tcg_attachments.created_at
           tcg_attachments.modified_at].
      repeat split.
Qed.

(** Pushing ticket [rt-1] and attachment [b.png] on connection [c1], where
    both are stored already: the stored records are updated. *)
Lemma C3_upsert_by_key_witness :
  (exists w',
     TicketService.saveOrUpdateTicket Example.pushed "c1" Example.world =
     (Ok "k-1", w') /\
     map tcg_tickets.remote_id (tickets (db w')) = [Some "rt-1"] /\
     map tcg_tickets.modified_at (tickets (db w')) = [1000])
  /\
  (exists w',
     AttachmentService.saveOrUpdateAttachment
       {| UnifiedTicketingAttachmentInput.file_name := "b.png" |} "c1" "lu1"
       Example.world = (Ok "f2", w') /\
     map tcg_attachments.id_tcg_attachment (attachments (db w')) =
     ["f1"; "f2"] /\
     map tcg_attachments.modified_at (attachments (db w')) = [5; 1000]).
Proof.
  pose proof (@C3_upsert_by_key Example.world Example.pushed
                {| UnifiedTicketingAttachmentInput.file_name := "b.png" |}
                "c1" "lu1" "rt-1"
                eq_refl eq_refl eq_refl eq_refl eq_refl) as [Hticket Hattachment].
  split.
  - cbn in Hticket.
    destruct Hticket as [w' [row [Hrun [Hrows [_ [_ [_ [_ [Hrid [_ [_ Hm]]]]]]]]]]].
    exists w'. split; [exact Hrun|]. rewrite Hrows. cbn.
    rewrite Hrid, Hm. split; reflexivity.
  - cbn in Hattachment.
    destruct Hattachment as [w' [row [Hrun [Hrows [Hid [_ [_ [_ [_ [_ Hm]]]]]]]]]].
    exists w'. split; [exact Hrun|]. rewrite Hrows. cbn.
    rewrite Hid, Hm. split; reflexivity.
Defined.

(** C3 as stated fails for attachments.  Attachment [f2] has no
    [remote_id], so no key [(remote_id, id_connection)] finds it, whatever
    the remote id looked for, and also when none is given; the upsert of
    [addAttachment] finds it all the same, by its file name, and updates it
    where the claim has a new record created. *)
Lemma C3_attachment_key_counterexample :
  let f2 := Example.attachment "f2" "b.png" None 6 "c1" in
  AttachmentService.existingAttachment "b.png" "c1" Example.records = Some f2
  /\ (forall remote_id,
        findFirst (fun r => whereEq remote_id (tcg_attachments.remote_id r)
                            && String.eqb (tcg_attachments.id_connection r) "c1")
                  (attachments Example.records) <> Some f2)
  /\ (exists w',
        AttachmentService.saveOrUpdateAttachment
          {| UnifiedTicketingAttachmentInput.file_name := "b.png" |} "c1" "lu1"
          Example.world = (Ok "f2", w') /\
        List.length (attachments (db w')) =
        List.length (attachments (db Example.world))).
Proof.
  cbv zeta. split; [reflexivity|]. split.
  - intros [remote_id|]; unfold findFirst, Example.records, Example.attachment;
      cbn [attachments find whereEq tcg_attachments.remote_id
           tcg_attachments.id_connection].
    + destruct (String.eqb "r1" remote_id); cbn; discriminate.
    + cbn. discriminate.
  - eexists. split; vm_compute; reflexivity.
Qed.

Lemma replaceFirst_length {R} (p : R -> bool) (new : R) (l : list R) :
  List.length (replaceFirst p new l) = List.length l.
Proof.
  induction l as [|y rest IH]; cbn [replaceFirst]; [reflexivity|].
  destruct (p y); cbn [List.length]; [reflexivity|]. rewrite IH. reflexivity.
Qed.

Lemma replaceFirst_key_gone {R} (key : R -> string) (l : list R) (x new : R) :
  NoDup (map key l) -> In x l -> ~ In (key new) (map key l) ->
  ~ In (key x)
       (map key (replaceFirst (fun r => String.eqb (key r) (key x)) new l)).
Proof.
  induction l as [|y rest IH]; cbn [map In replaceFirst]; intros Hnd Hin Hnew;
    [contradiction|].
  inversion Hnd as [|k ks Hnotin Hrest]; subst.
  destruct (String.eqb (key y) (key x)) eqn:Heq.
  - apply String.eqb_eq in Heq. cbn [map In]. intros [Hk|Hk].
    + apply Hnew. left. congruence.
    + apply Hnotin. rewrite Heq. exact Hk.
  - apply String.eqb_neq in Heq. cbn [map In]. intros [Hk|Hk]; [contradiction|].
    destruct Hin as [->|Hin]; [contradiction|].
    apply (IH Hrest Hin); [|exact Hk]. intros Hn. apply Hnew. right. exact Hn.
Qed.

(** Every push that finds its ticket gives the ticket a new id and
    returns the old one: the table keeps its size, the id returned is the
    id of no ticket any more. *)
Lemma second_push_replaces_id (w : World)
    (ticket : UnifiedTicketingTicketOutput.t) (connection_id : string)
    (found : tcg_tickets.row) :
  distinct (map tcg_tickets.id_tcg_ticket (tickets (db w))) = true ->
  existsb (fun r => String.eqb (tcg_tickets.id_tcg_ticket r)
                               (uuidSource w (uuidCount w)))
          (tickets (db w)) = false ->
  TicketService.existingTicket (UnifiedTicketingTicketOutput.remote_id ticket)
    connection_id (db w) = Some found ->
  exists w',
    TicketService.saveOrUpdateTicket ticket connection_id w =
    (Ok (tcg_tickets.id_tcg_ticket found), w') /\
    List.length (tickets (db w')) = List.length (tickets (db w)) /\
    ~ In (tcg_tickets.id_tcg_ticket found)
         (map tcg_tickets.id_tcg_ticket (tickets (db w'))).
Proof.
  intros Hdistinct Hfresh Hfound.
  rewrite saveOrUpdateTicket_run. cbv zeta. rewrite Hfound.
  assert (Hin : In found (tickets (db w))).
  { unfold TicketService.existingTicket, findFirst in Hfound.
    apply find_some in Hfound. apply Hfound. }
  rewrite (prismaUpdate_located tcg_tickets.id_tcg_ticket (tickets (db w))
             found
             (TicketService.updated (uuidSource w (uuidCount w)) (now w) ticket
                connection_id)
             (distinct_NoDup _ Hdistinct) Hin)
    by (right; exact Hfresh).
  eexists. split; [reflexivity|]. cbn [withDb db setTickets tickets].
  split; [apply replaceFirst_length|].
  apply replaceFirst_key_gone;
    [apply distinct_NoDup, Hdistinct|exact Hin|].
  cbn [TicketService.updated tcg_tickets.id_tcg_ticket].
  intros Hn. apply in_map_iff in Hn. destruct Hn as [r [Hid Hr]].
  assert (Hex : existsb (fun r => String.eqb (tcg_tickets.id_tcg_ticket r)
                                             (uuidSource w (uuidCount w)))
                        (tickets (db w)) = true).
  { apply existsb_exists. exists r. split; [exact Hr|].
    apply String.eqb_eq, Hid. }
  congruence.
Qed.

(** C2. Pushing the same provider answer twice on an empty connection,
    the clock moving from 1000 to 2000 in between.  One record is stored
    and its [created_at] does not change, its [modified_at] moves to 2000;
    but its id changes from the first uuid to the second, while the second
    push returns the first uuid, which is the id of no record any more. *)
Theorem C2_second_push_changes_id :
  exists id1 w1 id2 w2,
    TicketService.saveOrUpdateTicket Example.pushed "c1" Example.fresh =
    (Ok id1, w1) /\
    TicketService.saveOrUpdateTicket Example.pushed "c1"
      (Example.atTime 2000 w1) = (Ok id2, w2) /\
    map tcg_tickets.id_tcg_ticket (tickets (db w1)) = [Example.uuids 0] /\
    map tcg_tickets.id_tcg_ticket (tickets (db w2)) = [Example.uuids 1] /\
    id1 = Example.uuids 0 /\
    id2 = Example.uuids 0 /\
    Example.uuids 1 <> Example.uuids 0 /\
    map tcg_tickets.created_at (tickets (db w2)) =
    map tcg_tickets.created_at (tickets (db w1)) /\
    map tcg_tickets.modified_at (tickets (db w1)) = [1000] /\
    map tcg_tickets.modified_at (tickets (db w2)) = [2000].
Proof.
  eexists. eexists. eexists. eexists.
  split; [vm_compute; reflexivity|].
  split; [vm_compute; reflexivity|].
  repeat split; try reflexivity. discriminate.
Qed.

(* ===================================================================== *)
(** ** Claims about [addTicket] *)
(* ===================================================================== *)

Lemma validateLinkedUser_run (linkedUserId : string) (w : World) :
  TicketService.validateLinkedUser linkedUserId w =
  (match findUnique (fun r => String.eqb (linked_users.id_linked_user r)
                                         linkedUserId)
                    (linkedUsers (db w)) with
   | Some linkedUser => Ok linkedUser
   | None => Err (ReferenceError "Linked User Not Found")
   end, w).
Proof.
  unfold TicketService.validateLinkedUser. step.
  destruct (findUnique _ _); reflexivity.
Qed.

(** The validations of an optional reference end with the world as it
    was, and fail with a [ReferenceError] only. *)
Lemma validateAccountId_run (accountId : option string) (w : World) :
  TicketService.validateAccountId accountId w = (Ok tt, w) \/
  TicketService.validateAccountId accountId w =
  (Err (ReferenceError "You inserted an account_id which does not exist"), w).
Proof.
  unfold TicketService.validateAccountId.
  destruct accountId as [id|]; [|left; reflexivity].
  destruct (truthy (Some id)); [|left; reflexivity].
  step. destruct (findUnique _ _); [left|right]; reflexivity.
Qed.

Lemma validateContactId_run (contactId : option string) (w : World) :
  TicketService.validateContactId contactId w = (Ok tt, w) \/
  TicketService.validateContactId contactId w =
  (Err (ReferenceError "You inserted a contact_id which does not exist"), w).
Proof.
  unfold TicketService.validateContactId.
  destruct contactId as [id|]; [|left; reflexivity].
  destruct (truthy (Some id)); [|left; reflexivity].
  step. destruct (findUnique _ _); [left|right]; reflexivity.
Qed.

Lemma validateAssignee_run (assignee : string) (w : World) :
  TicketService.validateAssignee assignee w =
  (if existsb (fun r => String.eqb (tcg_users.id_tcg_user r) assignee)
              (users (db w))
   then Ok tt
   else Err (ReferenceError "You inserted an assignee which does not exist"),
   w).
Proof.
  unfold TicketService.validateAssignee. step. unfold findUnique.
  destruct (find _ (users (db w))) as [u|] eqn:Hfind.
  - apply find_some in Hfind.
    replace (existsb _ (users (db w))) with true; [reflexivity|].
    symmetry. apply existsb_exists. exists u. exact Hfind.
  - replace (existsb _ (users (db w))) with false; [reflexivity|].
    symmetry. apply existsb_fresh. intros r Hr.
    apply String.eqb_neq. exact (find_none _ _ Hfind r Hr).
Qed.

(** A traversal whose steps can only fail with [e] fails with [e] as soon
    as one step does, wherever it is in the list. *)
Lemma traverse_fails {A B} (f : A -> result B) (e : error) (xs : list A)
    (x : A) :
  (forall y, In y xs -> forall e', f y = Err e' -> e' = e) ->
  In x xs -> f x = Err e -> traverse f xs = Err e.
Proof.
  induction xs as [|y rest IH]; cbn [In traverse]; intros Honly Hin Hx;
    [contradiction|].
  destruct (f y) as [b|e'] eqn:Hy.
  - cbn [onOk]. destruct Hin as [->|Hin]; [congruence|].
    rewrite IH; [reflexivity| |exact Hin|exact Hx].
    intros y0 Hy0. apply Honly. right. exact Hy0.
  - rewrite (Honly y (or_introl eq_refl) e' Hy). reflexivity.
Qed.

(** Every assignee is looked up: the validation passes exactly when each
    of them is a user. *)
Lemma validateAssignees_all (assignees : list string) (w : World) :
  TicketService.validateAssignees (Some assignees) w = (Ok tt, w) <->
  (forall a, In a assignees ->
             exists u, In u (users (db w)) /\ tcg_users.id_tcg_user u = a).
Proof.
  unfold TicketService.validateAssignees.
  destruct assignees as [|a0 rest]; [split; [intros _ a []|reflexivity]|].
  rewrite bind_run.
  rewrite (Promise_all_map_reads TicketService.validateAssignee
             (fun a d =>
                if existsb (fun r => String.eqb (tcg_users.id_tcg_user r) a)
                           (users d)
                then Ok tt
                else Err (ReferenceError
                            "You inserted an assignee which does not exist")))
    by (intros; apply validateAssignee_run).
  split.
  - intros Hrun a Ha.
    destruct (existsb (fun r => String.eqb (tcg_users.id_tcg_user r) a)
                      (users (db w))) eqn:Hex.
    + apply existsb_exists in Hex. destruct Hex as [u [Hu Hid]].
      exists u. split; [exact Hu|]. apply String.eqb_eq, Hid.
    + rewrite (traverse_fails _
                 (ReferenceError "You inserted an assignee which does not exist")
                 (a0 :: rest) a) in Hrun; [discriminate| |exact Ha|].
      * intros y _ e'.
        match goal with |- context [if ?b then _ else _] => destruct b end;
          congruence.
      * rewrite Hex. reflexivity.
  - intros Hall.
    destruct (traverse_succeeds
                (fun a =>
                   if existsb (fun r => String.eqb (tcg_users.id_tcg_user r) a)
                              (users (db w))
                   then Ok tt
                   else Err (ReferenceError
                               "You inserted an assignee which does not exist"))
                (a0 :: rest)) as [bs Hbs].
    + intros a Ha. destruct (Hall a Ha) as [u [Hu Hid]].
      replace (existsb _ (users (db w))) with true; [eauto|].
      symmetry. apply existsb_exists. exists u. split; [exact Hu|].
      apply String.eqb_eq, Hid.
    + rewrite Hbs. reflexivity.
Qed.

Lemma validateAssignees_missing (assignees : list string) (missing : string)
    (w : World) :
  In missing assignees ->
  (forall u, In u (users (db w)) -> tcg_users.id_tcg_user u <> missing) ->
  TicketService.validateAssignees (Some assignees) w =
  (Err (ReferenceError "You inserted an assignee which does not exist"), w).
Proof.
  intros Hin Hnone. unfold TicketService.validateAssignees.
  destruct assignees as [|a0 rest]; [contradiction|].
  rewrite bind_run.
  rewrite (Promise_all_map_reads TicketService.validateAssignee
             (fun a d =>
                if existsb (fun r => String.eqb (tcg_users.id_tcg_user r) a)
                           (users d)
                then Ok tt
                else Err (ReferenceError
                            "You inserted an assignee which does not exist")))
    by (intros; apply validateAssignee_run).
  rewrite (traverse_fails _
             (ReferenceError "You inserted an assignee which does not exist")
             (a0 :: rest) missing); [reflexivity| |exact Hin|].
  - intros y _ e'.
    match goal with |- context [if ?b then _ else _] => destruct b end;
      congruence.
  - rewrite existsb_fresh by exact Hnone. reflexivity.
Qed.

(** C9. [addTicket] with an assignee that is no user fails with a
    [ReferenceError] and leaves the world as it was: no record, no event,
    no webhook.  The assignees are all looked up: the validation fails
    wherever in the list the missing one is. *)
Theorem C9_missing_assignee `{WebhookService} `{TicketCollaborators}
    (w : World) (unifiedTicketData : UnifiedTicketingTicketInput.t)
    (connection_id integrationId linkedUserId project_id : string)
    (remote_data : bool) (assignees : list string) (missing : string) :
  UnifiedTicketingTicketInput.assigned_to unifiedTicketData = Some assignees ->
  In missing assignees ->
  (forall u, In u (users (db w)) -> tcg_users.id_tcg_user u <> missing) ->
  (exists message,
     TicketService.addTicket unifiedTicketData connection_id integrationId
       linkedUserId project_id remote_data w =
     (Err (ReferenceError message), w))
  /\
  TicketService.validateAssignees (Some assignees) w =
  (Err (ReferenceError "You inserted an assignee which does not exist"), w).
Proof.
  intros Hassigned Hin Hnone.
  pose proof (validateAssignees_missing assignees missing w Hin Hnone) as Hfail.
  split; [|exact Hfail].
  unfold TicketService.addTicket.
  rewrite bind_run, validateLinkedUser_run.
  destruct (findUnique _ (linkedUsers (db w))) as [linkedUser|]; [|eauto].
  rewrite bind_run.
  destruct (validateAccountId_run
              (UnifiedTicketingTicketInput.account_id unifiedTicketData) w)
    as [-> | ->]; [|eauto].
  rewrite bind_run.
  destruct (validateContactId_run
              (UnifiedTicketingTicketInput.contact_id unifiedTicketData) w)
    as [-> | ->]; [|eauto].
  rewrite bind_run, Hassigned, Hfail. eauto.
Qed.

(** [u1] is a user, [nonexistent-id] is not; it is found missing behind
    [u1]. *)
Lemma C9_missing_assignee_witness :
  (exists message,
     @TicketService.addTicket Example.delivering Example.collaborators
       (Example.bug (Some ["u1"; "nonexistent-id"])) "c1" "zendesk" "lu1" "p1"
       false Example.fresh =
     (Err (ReferenceError message), Example.fresh))
  /\
  TicketService.validateAssignees (Some ["u1"; "nonexistent-id"])
    Example.fresh =
  (Err (ReferenceError "You inserted an assignee which does not exist"),
   Example.fresh).
Proof.
  apply (@C9_missing_assignee Example.delivering Example.collaborators
           Example.fresh (Example.bug (Some ["u1"; "nonexistent-id"]))
           "c1" "zendesk" "lu1" "p1" false ["u1"; "nonexistent-id"]
           "nonexistent-id").
  - reflexivity.
  - cbn. auto.
  - intros u Hu. cbn in Hu.
    repeat (destruct Hu as [<-|Hu]; [discriminate|]). destruct Hu.
Defined.

(** One statement of a method that runs the same in two runs: it throws
    in both, or it returns the same value and world in both. *)
Ltac both_step Hrun :=
  rewrite bind_run in Hrun; rewrite bind_run;
  match type of Hrun with
  | (let (_, _) := ?run in _) = _ =>
      destruct run as [[? | ?] ?]; [|discriminate Hrun]
  end.

(** C5, amended. A push whose webhook dispatch fails fails as a whole:
    [addTicket] throws the error of the dispatch.  What the push wrote
    before stays written: the database is the one the push leaves when the
    webhook is delivered, with the record and the event. *)
Theorem C5_webhook_failure_fails_push `{TicketCollaborators}
    (delivering failing : WebhookService) (w w1 : World)
    (unifiedTicketData : UnifiedTicketingTicketInput.t)
    (connection_id integrationId linkedUserId project_id : string)
    (remote_data : bool) (result_ticket : UnifiedTicketingTicketOutput.t)
    (e : error) :
  (forall h, @dispatchOutcome delivering h = None) ->
  (forall h, hookData h = TicketData result_ticket ->
             @dispatchOutcome failing h = Some e) ->
  @TicketService.addTicket delivering _ unifiedTicketData connection_id
    integrationId linkedUserId project_id remote_data w =
  (Ok result_ticket, w1) ->
  exists w',
    @TicketService.addTicket failing _ unifiedTicketData connection_id
      integrationId linkedUserId project_id remote_data w = (Err e, w')
    /\ db w' = db w1
    /\ exists h, hookData h = TicketData result_ticket /\
                 dispatched w1 = dispatched w' ++ [h].
Proof.
  intros Hdelivers Hfails Hrun.
  unfold TicketService.addTicket in *. cbv zeta in *.
  do 16 both_step Hrun.
  rewrite bind_run in Hrun. rewrite bind_run.
  unfold dispatchWebhook in *. rewrite Hdelivers in Hrun.
  cbn [ret] in Hrun. injection Hrun as Hticket Hworld. subst result_ticket.
  rewrite Hfails by reflexivity.
  eexists. split; [reflexivity|]. subst w1. cbn [db dispatched].
  split; [reflexivity|]. eexists. split; [|reflexivity]. reflexivity.
Qed.

(** Scenario A of the specification, with the webhook service down: the
    push fails, the ticket [rt-1] and the push event are stored. *)
Lemma C5_webhook_failure_fails_push_witness :
  exists w',
    @TicketService.addTicket Example.down Example.collaborators
      (Example.bug None) "c1" "zendesk" "lu1" "p1" false Example.fresh =
    (Err (Rejected "webhook queue unavailable"), w')
    /\ map tcg_tickets.remote_id (tickets (db w')) = [Some "rt-1"]
    /\ map events.type (eventLog (db w')) = ["ticketing.ticket.push"]
    /\ dispatched w' = [].
Proof.
  destruct (@C5_webhook_failure_fails_push Example.collaborators
              Example.delivering Example.down Example.fresh
              (snd (@TicketService.addTicket Example.delivering
                      Example.collaborators (Example.bug None) "c1" "zendesk"
                      "lu1" "p1" false Example.fresh))
              (Example.bug None) "c1" "zendesk" "lu1" "p1" false
              {| UnifiedTicketingTicketOutput.id := Some (Example.uuids 0);
                 UnifiedTicketingTicketOutput.name := Some "Bug";
                 UnifiedTicketingTicketOutput.status := None;
                 UnifiedTicketingTicketOutput.priority := Some "high";
                 UnifiedTicketingTicketOutput.source := None;
                 UnifiedTicketingTicketOutput.field_mappings := Some [];
                 UnifiedTicketingTicketOutput.remote_id := Some "rt-1";
                 UnifiedTicketingTicketOutput.created_at := None;
                 UnifiedTicketingTicketOutput.modified_at := Some 1000;
                 UnifiedTicketingTicketOutput.remote_data := None |}
              (Rejected "webhook queue unavailable")
              (fun _ => eq_refl) (fun _ _ => eq_refl) eq_refl)
    as [w' [Hrun [Hdb [h [Hh Hdispatched]]]]].
  exists w'. split; [exact Hrun|]. rewrite Hdb.
  split; [reflexivity|]. split; [reflexivity|].
  destruct (dispatched w') as [|h' rest]; [reflexivity|].
  apply (f_equal (@List.length Hook)) in Hdispatched.
  cbn in Hdispatched. rewrite length_app in Hdispatched. cbn in Hdispatched.
  lia.
Defined.

(** C5 as stated fails: the push that succeeds when the webhook is
    delivered returns no record when the dispatch fails. *)
Lemma C5_webhook_failure_counterexample :
  (exists ticket w1,
     @TicketService.addTicket Example.delivering Example.collaborators
       (Example.bug None) "c1" "zendesk" "lu1" "p1" false Example.fresh =
     (Ok ticket, w1))
  /\
  (forall ticket w',
     @TicketService.addTicket Example.down Example.collaborators
       (Example.bug None) "c1" "zendesk" "lu1" "p1" false Example.fresh <>
     (Ok ticket, w'))
  /\
  fst (@TicketService.addTicket Example.down Example.collaborators
         (Example.bug None) "c1" "zendesk" "lu1" "p1" false Example.fresh) =
  Err (Rejected "webhook queue unavailable").
Proof.
  split; [eexists; eexists; vm_compute; reflexivity|].
  assert (Hfst :
            fst (@TicketService.addTicket Example.down Example.collaborators
                   (Example.bug None) "c1" "zendesk" "lu1" "p1" false
                   Example.fresh) =
            Err (Rejected "webhook queue unavailable"))
    by (vm_compute; reflexivity).
  split; [|exact Hfst].
  intros ticket w' Hrun. rewrite Hrun in Hfst. discriminate.
Qed.

(** Scenario A of the specification: on an empty connection, pushing
    [{ name: "Bug", priority: "high" }] to a provider that answers 201 with
    [rt-1] stores one ticket with that remote id, writes one event
    [ticketing.ticket.push] with status [success] and dispatches one webhook
    [ticketing.ticket.created]. *)
Lemma scenario_A :
  exists ticket w1,
    @TicketService.addTicket Example.delivering Example.collaborators
      (Example.bug None) "c1" "zendesk" "lu1" "p1" false Example.fresh =
    (Ok ticket, w1)
    /\ UnifiedTicketingTicketOutput.remote_id ticket = Some "rt-1"
    /\ map tcg_tickets.remote_id (tickets (db w1)) = [Some "rt-1"]
    /\ map (fun e => (events.type e, events.status e)) (eventLog (db w1)) =
       [("ticketing.ticket.push", "success")]
    /\ map hookEventType (dispatched w1) = ["ticketing.ticket.created"].
Proof.
  eexists. eexists. split; [vm_compute; reflexivity|].
  repeat split; reflexivity.
Qed.

(* ===================================================================== *)
(** ** More about the list methods *)
(* ===================================================================== *)

(** What holds of every instance of [listMethod] whose records carry the
    id of their row holds of the four list methods. *)
Lemma forEveryListMethod_intro `{Runtime}
    (P : forall (R U : Type) (T : Table R),
           (Database -> list R) -> (U -> string) -> string -> string ->
           ListMethod U -> Prop) :
  (forall (R U : Type) (T : Table R) (table : Database -> list R)
          (unified : R -> object -> U) (idOf : U -> string)
          (withRemoteData : U -> json -> U) (returnsRes : bool)
          (type url : string),
     (forall r m, idOf (unified r m) = primaryKey r) ->
     (forall u parsed, idOf (withRemoteData u parsed) = idOf u) ->
     (forall e d, table (addEvent e d) = table d) ->
     P R U T table idOf type url
       (listMethod table unified idOf withRemoteData returnsRes type url)) ->
  forEveryListMethod P.
Proof.
  intros Hall. unfold forEveryListMethod. repeat split.
  - rewrite getTeams_listMethod. apply Hall; reflexivity.
  - rewrite getAccounts_listMethod. apply Hall; reflexivity.
  - rewrite getContacts_listMethod. apply Hall; reflexivity.
  - rewrite getAttachments_listMethod. apply Hall; reflexivity.
Qed.

Lemma traverse_length {A B} (f : A -> result B) (xs : list A) (ys : list B) :
  traverse f xs = Ok ys -> List.length ys = List.length xs.
Proof.
  revert ys. induction xs as [|x rest IH]; cbn [traverse]; intros ys.
  - intros Hys. injection Hys as <-. reflexivity.
  - destruct (f x) as [y|e]; [|discriminate]. cbn [onOk].
    destruct (traverse f rest) as [ys'|e]; [|discriminate]. cbn [onOk].
    intros Hys. injection Hys as <-. cbn [List.length].
    rewrite (IH ys' eq_refl). reflexivity.
Qed.

Lemma popNext_bound {R} `{Table R} (limit : nat) (rows : list R) :
  List.length rows <= limit + 1 ->
  List.length (fst (popNext limit rows)) <= limit /\
  (snd (popNext limit rows) <> None ->
   List.length (fst (popNext limit rows)) = limit).
Proof.
  intros Hlen. unfold popNext.
  destruct (Nat.eqb (List.length rows) (limit + 1)) eqn:Heq; cbn [fst snd].
  - apply Nat.eqb_eq in Heq.
    destruct (exists_last (l := rows)) as [kept [last ->]].
    { intros ->. cbn in Heq. lia. }
    rewrite removelast_last. rewrite length_app in Heq. cbn in Heq.
    split; intros; lia.
  - apply Nat.eqb_neq in Heq. split; [lia|]. intros Hnext. congruence.
Qed.

(** X1. For a limit of zero or more (limits are natural numbers here; the
    list methods do not validate [limit], and what they do with a negative
    one is not stated): a page that is returned never holds more than
    [limit] records, and holds exactly [limit] when it comes with a
    [next_cursor]. *)
Theorem page_size_bound `{Runtime} :
  forEveryListMethod
    (fun R U T table idOf type url method =>
       forall connection_id project_id integrationId linkedUserId limit
              remote_data cursor w page w',
         method connection_id project_id integrationId linkedUserId limit
           remote_data cursor w = (Ok page, w') ->
         List.length (data page) <= limit /\
         (next_cursor page <> None -> List.length (data page) = limit)).
Proof.
  apply forEveryListMethod_intro.
  intros R U T table unified idOf withRemoteData returnsRes type url _ _ _
         connection_id project_id integrationId linkedUserId limit remote_data
         cursor w page w'.
  rewrite listMethod_run. unfold pageOf.
  destruct (cursorResolves _ _ _); [|discriminate].
  destruct (traverse _ _) as [records|e] eqn:Hrec; [|discriminate].
  cbn [onOk]. intros Hrun. injection Hrun as <- _. cbn [data next_cursor].
  rewrite (traverse_length _ _ _ Hrec). apply popNext_bound.
  unfold findMany. rewrite length_firstn. lia.
Qed.

(** Three teams, two per page. *)
Lemma page_size_bound_witness :
  exists page w',
    @TeamService.getTeams Example.literals "c1" "p1" "zendesk" "lu1" 2
      false None Example.world = (Ok page, w') /\
    next_cursor page = Some "dDM=" /\
    List.length (data page) <= 2 /\
    (next_cursor page <> None -> List.length (data page) = 2).
Proof.
  eexists. eexists. split; [vm_compute; reflexivity|].
  split; [reflexivity|].
  eapply (proj1 (@page_size_bound Example.literals)
            "c1" "p1" "zendesk" "lu1" 2 false None Example.world).
  vm_compute. reflexivity.
Defined.

(** X2. A list call that returns a page has written one event, the pull
    event of the call, and nothing else; a list call that throws has
    written nothing. *)
Theorem one_event_per_list_call `{Runtime} :
  forEveryListMethod
    (fun R U T table idOf type url method =>
       forall connection_id project_id integrationId linkedUserId limit
              remote_data cursor w,
         let (outcome, w') :=
           method connection_id project_id integrationId linkedUserId limit
             remote_data cursor w in
         match outcome with
         | Ok _ =>
             w' = afterEvent (pullEvent connection_id project_id type url
                                integrationId linkedUserId w) w
         | Err _ => w' = w
         end).
Proof.
  apply forEveryListMethod_intro.
  intros R U T table unified idOf withRemoteData returnsRes type url _ _ _
         connection_id project_id integrationId linkedUserId limit remote_data
         cursor w.
  rewrite listMethod_run. destruct (pageOf _ _ _ _ _ _ _ _ _ _); reflexivity.
Qed.

(** X6. Reads repeat: the same call made again returns what it returned,
    the events written in between changing nothing. *)
Theorem list_call_repeats `{Runtime} :
  forEveryListMethod
    (fun R U T table idOf type url method =>
       forall connection_id project_id integrationId linkedUserId limit
              remote_data cursor w,
         fst (method connection_id project_id integrationId linkedUserId limit
                remote_data cursor
                (snd (method connection_id project_id integrationId
                        linkedUserId limit remote_data cursor w))) =
         fst (method connection_id project_id integrationId linkedUserId limit
                remote_data cursor w)).
Proof.
  apply forEveryListMethod_intro.
  intros R U T table unified idOf withRemoteData returnsRes type url _ _ Htable
         connection_id project_id integrationId linkedUserId limit remote_data
         cursor w.
  rewrite !listMethod_run.
  destruct (pageOf table unified idOf withRemoteData returnsRes connection_id
              limit remote_data cursor (db w)) as [page|e] eqn:Hpage;
    cbn [snd fst].
  - rewrite (pageOf_sameRecords table unified idOf withRemoteData returnsRes
               connection_id limit remote_data (db w)).
    + rewrite Hpage. reflexivity.
    + unfold afterEvent, withDb. cbn [db]. rewrite Htable. repeat split.
  - rewrite Hpage. reflexivity.
Qed.

(** X3. Where no two rows of the connection were created at the same
    instant, a call without [remote_data], with a limit of at least one and
    the id of a row of the connection as cursor, returns a page, and the
    page starts with the record of that row: the cursor row is on the page,
    not before it. *)
Theorem cursor_row_opens_the_page `{Runtime} :
  forEveryListMethod
    (fun R U T table idOf type url method =>
       forall connection_id project_id integrationId linkedUserId limit r w,
         In r (table (db w)) ->
         connectionOf r = connection_id ->
         primaryKey r <> "" ->
         1 <= limit ->
         untied (rowsOf connection_id (table (db w))) ->
         exists page first rest,
           method connection_id project_id integrationId linkedUserId limit
             false (Some (primaryKey r)) w =
           (Ok page, afterEvent (pullEvent connection_id project_id type url
                                   integrationId linkedUserId w) w)
           /\ data page = first :: rest
           /\ idOf first = primaryKey r).
Proof.
  apply forEveryListMethod_intro.
  intros R U T table unified idOf withRemoteData returnsRes type url
         Hunified HwithRemoteData _
         connection_id project_id integrationId linkedUserId limit
         r w Hin Hconn Hkey Hlimit Huntied.
  rewrite listMethod_run. unfold pageOf.
  assert (Hres : cursorResolves (table (db w)) connection_id
                   (Some (primaryKey r)) = true).
  { unfold cursorResolves. destruct (truthy (Some (primaryKey r)));
      [|reflexivity].
    apply existsb_exists. exists r. split; [exact Hin|].
    rewrite Hconn, !String.eqb_refl. reflexivity. }
  rewrite Hres. unfold findMany, cursorArg, truthy.
  apply String.eqb_neq in Hkey. rewrite Hkey. cbn [negb].
  rewrite fromCursor_startingAt by (apply rowsOf_ascending || exact Huntied).
  destruct (startingAt_head (primaryKey r)
              (rowsOf connection_id (table (db w))))
    as [r0 [rest [Hfrom Hr0]]].
  { apply in_map, rowsOf_In. auto. }
  rewrite Hfrom, popNext_firstn.
  assert (Hkept : exists rest',
             fst (if Nat.ltb limit (List.length (r0 :: rest))
                  then (firstn limit (r0 :: rest),
                        option_map (fun r => Base64.encode (primaryKey r))
                                   (nth_error (r0 :: rest) limit))
                  else (r0 :: rest, None)) = r0 :: rest').
  { destruct (Nat.ltb limit (List.length (r0 :: rest))); cbn [fst].
    - destruct limit as [|limit']; [lia|]. cbn [firstn]. eauto.
    - eauto. }
  destruct Hkept as [rest' Hkept]. rewrite Hkept.
  unfold recordOf. rewrite traverse_Ok. cbn [onOk map].
  eexists. eexists. eexists. split; [reflexivity|].
  cbn [data]. split; [reflexivity|].
  rewrite Hunified. exact Hr0.
Qed.

(** The page that starts at team [t2]. *)
Lemma cursor_row_opens_the_page_witness :
  exists page w' first rest,
    @TeamService.getTeams Example.literals "c1" "p1" "zendesk" "lu1" 1 false
      (Some "t2") Example.world = (Ok page, w') /\
    data page = first :: rest /\
    UnifiedTicketingTeamOutput.id first = "t2".
Proof.
  destruct (proj1 (@cursor_row_opens_the_page Example.literals)
              "c1" "p1" "zendesk" "lu1" 1
              (Example.team "t2" "Sales" 20 "c1") Example.world
              ltac:(cbn; auto) eq_refl ltac:(discriminate) ltac:(lia)
              ltac:(repeat constructor; cbn; intuition discriminate))
    as [page [first [rest [Hrun [Hdata Hid]]]]].
  exists page. eexists. exists first, rest.
  split; [exact Hrun|]. split; assumption.
Defined.

(** X4. A [next_cursor] is the base64 text of the id of a row of the
    connection: decoded, it passes the cursor check of the next call. *)
Theorem next_cursor_resolves `{Runtime} :
  forEveryListMethod
    (fun R U T table idOf type url method =>
       forall connection_id project_id integrationId linkedUserId limit
              remote_data cursor w page w' token,
         method connection_id project_id integrationId linkedUserId limit
           remote_data cursor w = (Ok page, w') ->
         next_cursor page = Some token ->
         exists r,
           In r (table (db w)) /\ connectionOf r = connection_id /\
           Base64.decode token = Some (primaryKey r) /\
           checkCursor table connection_id (Some (primaryKey r)) w' =
           (Ok tt, w')).
Proof.
  apply forEveryListMethod_intro.
  intros R U T table unified idOf withRemoteData returnsRes type url
         Hunified HwithRemoteData Htable
         connection_id project_id integrationId linkedUserId limit remote_data
         cursor w page w' token Hrun Hnext.
  destruct (listMethod_page unified idOf withRemoteData Hunified
              HwithRemoteData table returnsRes type url connection_id
              project_id integrationId linkedUserId limit remote_data cursor
              w w' page Hrun) as [[Hfull [Hpart _]] Hw'].
  set (fetched := fetchedRows (table (db w)) connection_id limit cursor) in *.
  destruct (Nat.eq_dec (List.length fetched) (limit + 1)) as [Hlen|Hlen].
  - destruct (Hfull Hlen) as [kept [last [Hfetched [_ Hlast]]]].
    rewrite Hnext in Hlast. injection Hlast as ->.
    assert (Hin : In last fetched)
      by (rewrite Hfetched; apply in_or_app; right; left; reflexivity).
    apply fetchedRows_incl in Hin. destruct Hin as [Hin Hconn].
    exists last. split; [exact Hin|]. split; [exact Hconn|].
    split; [apply Base64Facts.decode_encode|].
    rewrite checkCursor_run. subst w'. unfold afterEvent, withDb. cbn [db].
    rewrite Htable. unfold cursorResolves.
    destruct (truthy (Some (primaryKey last))); [|reflexivity].
    replace (existsb _ (table (db w))) with true; [reflexivity|].
    symmetry. apply existsb_exists. exists last. split; [exact Hin|].
    rewrite Hconn, !String.eqb_refl. reflexivity.
  - destruct (Hpart Hlen) as [_ Hnone]. congruence.
Qed.

Lemma next_cursor_resolves_witness :
  exists page w' r,
    @TeamService.getTeams Example.literals "c1" "p1" "zendesk" "lu1" 2 false
      None Example.world = (Ok page, w') /\
    next_cursor page = Some "dDM=" /\
    Base64.decode "dDM=" = Some (tcg_teams.id_tcg_team r) /\
    checkCursor teams "c1" (Some (tcg_teams.id_tcg_team r)) w' = (Ok tt, w').
Proof.
  eexists. eexists.
  assert (Hrun :
            @TeamService.getTeams Example.literals "c1" "p1" "zendesk" "lu1" 2
              false None Example.world = (Ok _, _))
    by (vm_compute; reflexivity).
  destruct (proj1 (@next_cursor_resolves Example.literals)
              "c1" "p1" "zendesk" "lu1" 2 false None Example.world _ _ "dDM="
              Hrun eq_refl)
    as [r [_ [_ [Hdecode Hcheck]]]].
  exists r. split; [exact Hrun|]. split; [reflexivity|].
  split; [exact Hdecode|exact Hcheck].
Defined.

(** With a limit of zero the one row fetched is the row the call starts
    at: the page is empty and [next_cursor] names that row again. *)
Lemma pageOf_limit_zero {R U} `{Table R} `{Runtime}
    (table : Database -> list R) (unified : R -> object -> U)
    (idOf : U -> string) (withRemoteData : U -> json -> U)
    (returnsRes : bool) (connection_id : string) (remote_data : bool)
    (cursor : option string) (d : Database) (r0 : R) (rest : list R) :
  rowsOf connection_id (table d) = r0 :: rest ->
  cursor = None \/ cursor = Some (primaryKey r0) ->
  pageOf table unified idOf withRemoteData returnsRes connection_id 0
    remote_data cursor d =
  Ok {| data := []; prev_cursor := prevCursor cursor;
        next_cursor := Some (Base64.encode (primaryKey r0)) |}.
Proof.
  intros Hrows Hcursor. unfold pageOf.
  assert (Hin : In r0 (table d) /\ connectionOf r0 = connection_id)
    by (apply rowsOf_In; rewrite Hrows; left; reflexivity).
  destruct Hin as [Hin Hconn].
  assert (Hres : cursorResolves (table d) connection_id cursor = true).
  { destruct Hcursor as [-> | ->]; [reflexivity|]. unfold cursorResolves.
    destruct (truthy (Some (primaryKey r0))); [|reflexivity].
    apply existsb_exists. exists r0. split; [exact Hin|].
    rewrite Hconn, !String.eqb_refl. reflexivity. }
  rewrite Hres.
  assert (Hfetch : findMany (0 + 1) (cursorArg cursor) connection_id (table d)
                   = [r0]).
  { unfold findMany, cursorArg. rewrite Hrows.
    destruct Hcursor as [-> | ->]; [reflexivity|].
    destruct (truthy (Some (primaryKey r0))); [|reflexivity].
    destruct (fromCursor_first r0 rest) as [rest' ->]. reflexivity. }
  rewrite Hfetch. reflexivity.
Qed.

(** X5. With [limit = 0] on a connection that has rows, every page is
    empty and its [next_cursor] names the first row again: a client that
    follows the cursors never comes to an end, whatever number of calls
    it is allowed. *)
Theorem limit_zero_never_ends `{Runtime} :
  forEveryListMethod
    (fun R U T table idOf type url method =>
       forall connection_id project_id integrationId linkedUserId remote_data
              w r0 rest,
         rowsOf connection_id (table (db w)) = r0 :: rest ->
         (exists page w',
            method connection_id project_id integrationId linkedUserId 0
              remote_data None w = (Ok page, w') /\
            data page = [] /\
            next_cursor page = Some (Base64.encode (primaryKey r0)))
         /\
         forall fuel,
           readAll (method connection_id project_id integrationId linkedUserId
                      0 remote_data)
                   Base64.decode fuel None w = None).
Proof.
  apply forEveryListMethod_intro.
  intros R U T table unified idOf withRemoteData returnsRes type url _ _ Htable
         connection_id project_id integrationId linkedUserId remote_data
         w r0 rest Hrows.
  split.
  - rewrite listMethod_run.
    rewrite (pageOf_limit_zero table unified idOf withRemoteData returnsRes
               connection_id remote_data None (db w) r0 rest Hrows)
      by (left; reflexivity).
    eexists. eexists. split; [reflexivity|]. split; reflexivity.
  - intros fuel.
    enough (Hall : forall cursor w0,
               table (db w0) = table (db w) ->
               cursor = None \/ cursor = Some (primaryKey r0) ->
               readAll (listMethod table unified idOf withRemoteData returnsRes
                          type url connection_id project_id integrationId
                          linkedUserId 0 remote_data)
                       Base64.decode fuel cursor w0 = None)
      by (apply Hall; [reflexivity|left; reflexivity]).
    induction fuel as [|fuel IH]; intros cursor w0 Hsame Hcursor;
      [reflexivity|].
    cbn [readAll]. rewrite listMethod_run.
    rewrite (pageOf_limit_zero table unified idOf withRemoteData returnsRes
               connection_id remote_data cursor (db w0) r0 rest)
      by (rewrite ?Hsame; assumption).
    cbn [next_cursor]. rewrite Base64Facts.decode_encode.
    rewrite IH; [reflexivity| |right; reflexivity].
    unfold afterEvent, withDb. cbn [db]. rewrite Htable. exact Hsame.
Qed.

Lemma limit_zero_never_ends_witness :
  (exists page w',
     @TeamService.getTeams Example.literals "c1" "p1" "zendesk" "lu1" 0 false
       None Example.world = (Ok page, w') /\
     data page = [] /\ next_cursor page = Some (Base64.encode "t1"))
  /\
  forall fuel,
    readAll (@TeamService.getTeams Example.literals "c1" "p1" "zendesk" "lu1"
               0 false)
            Base64.decode fuel None Example.world = None.
Proof.
  apply (proj1 (@limit_zero_never_ends Example.literals)
           "c1" "p1" "zendesk" "lu1" false Example.world
           (Example.team "t1" "Support" 10 "c1")
           [Example.team "t2" "Sales" 20 "c1";
            Example.team "t3" "Field" 30 "c1"]).
  reflexivity.
Defined.

(* ===================================================================== *)
(** ** More about the single-record reads *)
(* ===================================================================== *)

Lemma events_create_run (connection_id project_id status type method url
    provider linkedUserId : string) (w : World) :
  events_create connection_id project_id status type method url provider
    linkedUserId w =
  (Ok (eventOf connection_id project_id status type method url provider
         linkedUserId w),
   afterEvent (eventOf connection_id project_id status type method url
                 provider linkedUserId w) w).
Proof. reflexivity. Qed.

Lemma getTeam_run `{Runtime} (id linkedUserId integrationId connection_id
    project_id : string) (remote_data : bool) (w : World) :
  TeamService.getTeam id linkedUserId integrationId connection_id project_id
    remote_data w =
  match find (fun r => String.eqb (tcg_teams.id_tcg_team r) id)
             (teams (db w)) with
  | None => (Err (JsError ("Team with id " ++ id ++ " not found")), w)
  | Some team =>
      match recordOf TeamService.unified UnifiedTicketingTeamOutput.id
              TeamService.withRemoteData true remote_data (db w) team with
      | Ok u =>
          (Ok u, afterEvent (pullEvent connection_id project_id
                               "ticketing.team.pull" "/ticketing/team"
                               integrationId linkedUserId w) w)
      | Err e => (Err e, w)
      end
  end.
Proof.
  unfold TeamService.getTeam, findUnique. step.
  destruct (find _ (teams (db w))) as [team|]; [|reflexivity].
  unfold recordOf. step. cbn [fieldMappingsOf bind getDb ret].
  destruct remote_data.
  - rewrite !bind_run, remoteDataOf_run.
    destruct (snapshot _ (db w)); reflexivity.
  - reflexivity.
Qed.

Lemma getContact_run `{Runtime} (id linkedUserId integrationId connection_id
    project_id : string) (remote_data : bool) (w : World) :
  ContactService.getContact id linkedUserId integrationId connection_id
    project_id remote_data w =
  match find (fun r => String.eqb (tcg_contacts.id_tcg_contact r) id)
             (contacts (db w)) with
  | None =>
      (Err (TypeError
              "Cannot read properties of null (reading 'id_tcg_contact')"), w)
  | Some contact =>
      match recordOf ContactService.unified UnifiedTicketingContactOutput.id
              ContactService.withRemoteData true remote_data (db w) contact
      with
      | Ok u =>
          (Ok u, afterEvent (pullEvent connection_id project_id
                               "ticketing.contact.pull" "/ticketing/contact"
                               integrationId linkedUserId w) w)
      | Err e => (Err e, w)
      end
  end.
Proof.
  unfold ContactService.getContact, findUnique. step.
  destruct (find _ (contacts (db w))) as [contact|]; [|reflexivity].
  unfold recordOf. step. cbn [deref derefOr ret]. step.
  cbn [fieldMappingsOf bind getDb ret].
  destruct remote_data.
  - rewrite !bind_run, remoteDataOf_run.
    destruct (snapshot _ (db w)); reflexivity.
  - reflexivity.
Qed.

Lemma getAccount_run `{Runtime} (id integrationId linkedUserId connection_id
    project_id : string) (remote_data : bool) (w : World) :
  AccountService.getAccount id integrationId linkedUserId connection_id
    project_id remote_data w =
  match find (fun r => String.eqb (tcg_accounts.id_tcg_account r) id)
             (accounts (db w)) with
  | None =>
      (Err (TypeError
              "Cannot read properties of null (reading 'id_tcg_account')"), w)
  | Some account =>
      match recordOf
              (fun r m => AccountService.unified r
                            (UnifiedTicketingAccountOutput.AsObject m))
              UnifiedTicketingAccountOutput.id AccountService.withRemoteData
              true remote_data (db w) account
      with
      | Ok u =>
          (Ok u, afterEvent (pullEvent connection_id project_id
                               "ticketing.account.pull" "/ticketing/account"
                               integrationId linkedUserId w) w)
      | Err e => (Err e, w)
      end
  end.
Proof.
  unfold AccountService.getAccount, findUnique. step.
  destruct (find _ (accounts (db w))) as [account|]; [|reflexivity].
  unfold recordOf. step. cbn [deref derefOr ret]. step.
  cbn [fieldMappingsOf bind getDb ret].
  destruct remote_data.
  - rewrite !bind_run, remoteDataOf_run.
    destruct (snapshot _ (db w)); reflexivity.
  - reflexivity.
Qed.

Lemma getAttachment_run `{Runtime} (id : string)
    (linkedUserId integrationId : option string)
    (connection_id project_id : string) (remote_data : bool) (w : World) :
  AttachmentService.getAttachment id linkedUserId integrationId connection_id
    project_id remote_data w =
  match find (fun r => String.eqb (tcg_attachments.id_tcg_attachment r) id)
             (attachments (db w)) with
  | None => (Err (ReferenceError "Attachment not found"), w)
  | Some attachment =>
      match recordOf AttachmentService.unified
              UnifiedTicketingAttachmentOutput.id
              AttachmentService.withRemoteData true remote_data (db w)
              attachment
      with
      | Ok u =>
          (Ok u,
           if truthy linkedUserId && truthy integrationId
           then afterEvent (pullEvent connection_id project_id
                              "ticketing.attachment.pull"
                              "/ticketing/attachment"
                              (orEmpty integrationId) (orEmpty linkedUserId) w)
                           w
           else w)
      | Err e => (Err e, w)
      end
  end.
Proof.
  unfold AttachmentService.getAttachment, findUnique. step.
  destruct (find _ (attachments (db w))) as [attachment|]; [|reflexivity].
  unfold recordOf. step. cbn [fieldMappingsOf bind getDb ret].
  assert (Hevent : forall u : UnifiedTicketingAttachmentOutput.t,
    (match linkedUserId, integrationId with
     | Some user, Some provider =>
         if truthy linkedUserId && truthy integrationId then
           events_create connection_id project_id "success"
             "ticketing.attachment.pull" "GET" "/ticketing/attachment"
             provider user ;;
           ret tt
         else ret tt
     | _, _ => ret tt
     end ;; ret u) w =
    (Ok u,
     if truthy linkedUserId && truthy integrationId
     then afterEvent (pullEvent connection_id project_id
                        "ticketing.attachment.pull" "/ticketing/attachment"
                        (orEmpty integrationId) (orEmpty linkedUserId) w) w
     else w)).
  { intros u. destruct linkedUserId as [user|]; [|reflexivity].
    destruct integrationId as [provider|];
      [|rewrite andb_false_r; reflexivity].
    destruct (truthy (Some user) && truthy (Some provider)); reflexivity. }
  destruct remote_data.
  - rewrite !bind_run, remoteDataOf_run.
    destruct (snapshot _ (db w)); [|reflexivity]. cbn [onOk ret].
    apply Hevent.
  - rewrite bind_run. cbn [ret]. apply Hevent.
Qed.

(** X9. [getAttachment] writes its pull event only when it is given both a
    linked user and an integration; called without them, as [addAttachment]
    calls it, it writes nothing.  It writes nothing when it throws. *)
Theorem getAttachment_event `{Runtime} (id : string)
    (linkedUserId integrationId : option string)
    (connection_id project_id : string) (remote_data : bool) (w : World) :
  let (outcome, w') :=
    AttachmentService.getAttachment id linkedUserId integrationId
      connection_id project_id remote_data w in
  match outcome with
  | Ok _ =>
      w' = if truthy linkedUserId && truthy integrationId
           then afterEvent (pullEvent connection_id project_id
                              "ticketing.attachment.pull"
                              "/ticketing/attachment"
                              (orEmpty integrationId) (orEmpty linkedUserId) w)
                           w
           else w
  | Err _ => w' = w
  end.
Proof.
  rewrite getAttachment_run.
  destruct (find _ (attachments (db w))) as [attachment|]; [|reflexivity].
  destruct (recordOf _ _ _ _ _ (db w) attachment); reflexivity.
Qed.

Lemma traverse_In {A B} (f : A -> result B) (xs : list A) (ys : list B)
    (y : B) :
  traverse f xs = Ok ys -> In y ys -> exists x, In x xs /\ f x = Ok y.
Proof.
  revert ys. induction xs as [|x rest IH]; cbn [traverse]; intros ys.
  - intros Hys. injection Hys as <-. contradiction.
  - destruct (f x) as [b|e] eqn:Hx; [|discriminate]. cbn [onOk].
    destruct (traverse f rest) as [bs|e]; [|discriminate]. cbn [onOk].
    intros Hys. injection Hys as <-. intros [->|Hin].
    + exists x. split; [left; reflexivity|exact Hx].
    + destruct (IH bs eq_refl Hin) as [x' [Hx' Hf]].
      exists x'. split; [right; exact Hx'|exact Hf].
Qed.

(** A record of a page is the record of a row of the table, in the
    connection. *)
Lemma page_record_row {R U} `{Table R} `{Runtime}
    (table : Database -> list R) (unified : R -> object -> U)
    (idOf : U -> string) (withRemoteData : U -> json -> U)
    (returnsRes : bool)
    (type url connection_id project_id integrationId linkedUserId : string)
    (limit : nat) (remote_data : bool) (cursor : option string)
    (w w' : World) (page : Page U) (u : U) :
  listMethod table unified idOf withRemoteData returnsRes type url
    connection_id project_id integrationId linkedUserId limit remote_data
    cursor w = (Ok page, w') ->
  In u (data page) ->
  exists r,
    In r (table (db w)) /\ connectionOf r = connection_id /\
    recordOf unified idOf withRemoteData returnsRes remote_data (db w) r
    = Ok u.
Proof.
  rewrite listMethod_run. unfold pageOf.
  destruct (cursorResolves _ _ _); [|discriminate].
  destruct (traverse _ _) as [records|e] eqn:Hrec; [|discriminate].
  cbn [onOk]. intros Hrun. injection Hrun as <- _. cbn [data]. intros Hin.
  destruct (traverse_In _ _ _ _ Hrec Hin) as [r [Hr Hu]].
  exists r. apply popNext_incl in Hr. rewrite findMany_fetchedRows in Hr.
  apply fetchedRows_incl in Hr. tauto.
Qed.

(** X8. A team or a contact comes out of the list as it comes out of the
    single read: every record of a page of [getTeams] (of [getContacts])
    is what [getTeam] ([getContact]) returns for its id, with the same
    [remote_data] flag. *)
Theorem list_and_single_read_agree `{Runtime} (w : World)
    (connection_id project_id integrationId linkedUserId : string)
    (limit : nat) (remote_data : bool) (cursor : option string) :
  (forall page w' team,
     distinct (map tcg_teams.id_tcg_team (teams (db w))) = true ->
     TeamService.getTeams connection_id project_id integrationId linkedUserId
       limit remote_data cursor w = (Ok page, w') ->
     In team (data page) ->
     fst (TeamService.getTeam (UnifiedTicketingTeamOutput.id team)
            linkedUserId integrationId connection_id project_id remote_data w)
     = Ok team)
  /\
  (forall page w' contact,
     distinct (map tcg_contacts.id_tcg_contact (contacts (db w))) = true ->
     ContactService.getContacts connection_id project_id integrationId
       linkedUserId limit remote_data cursor w = (Ok page, w') ->
     In contact (data page) ->
     fst (ContactService.getContact (UnifiedTicketingContactOutput.id contact)
            linkedUserId integrationId connection_id project_id remote_data w)
     = Ok contact).
Proof.
  split.
  - intros page w' team Hdistinct Hrun Hin.
    rewrite getTeams_listMethod in Hrun.
    destruct (page_record_row _ _ _ _ _ _ _ _ _ _ _ _ _ _ _ _ _ _ Hrun Hin)
      as [r [Hr [_ Hrec]]].
    pose proof (recordOf_id TeamService.unified UnifiedTicketingTeamOutput.id
                  TeamService.withRemoteData (fun _ _ => eq_refl)
                  (fun _ _ => eq_refl) _ _ _ _ _ Hrec) as Hid.
    rewrite getTeam_run, Hid.
    change (@primaryKey tcg_teams.row Table_teams r)
      with (tcg_teams.id_tcg_team r).
    rewrite (find_by_key tcg_teams.id_tcg_team (teams (db w)) r
               (distinct_NoDup _ Hdistinct) Hr).
    rewrite Hrec. reflexivity.
  - intros page w' contact Hdistinct Hrun Hin.
    rewrite getContacts_listMethod in Hrun.
    destruct (page_record_row _ _ _ _ _ _ _ _ _ _ _ _ _ _ _ _ _ _ Hrun Hin)
      as [r [Hr [_ Hrec]]].
    pose proof (recordOf_id ContactService.unified
                  UnifiedTicketingContactOutput.id
                  ContactService.withRemoteData (fun _ _ => eq_refl)
                  (fun _ _ => eq_refl) _ _ _ _ _ Hrec) as Hid.
    rewrite getContact_run, Hid.
    change (@primaryKey tcg_contacts.row Table_contacts r)
      with (tcg_contacts.id_tcg_contact r).
    rewrite (find_by_key tcg_contacts.id_tcg_contact (contacts (db w)) r
               (distinct_NoDup _ Hdistinct) Hr).
    rewrite Hrec. reflexivity.
Qed.

(** Team [t1], with its field mapping and its snapshot, listed and read. *)
Lemma list_and_single_read_agree_witness :
  exists page w' team,
    @TeamService.getTeams Example.literals "c1" "p1" "zendesk" "lu1" 1 true
      None Example.world = (Ok page, w') /\
    data page = [team] /\
    UnifiedTicketingTeamOutput.field_mappings team = [("tier", "gold")] /\
    fst (@TeamService.getTeam Example.literals "t1" "lu1" "zendesk" "c1" "p1"
           true Example.world) = Ok team.
Proof.
  eexists. eexists. eexists.
  assert (Hrun :
            @TeamService.getTeams Example.literals "c1" "p1" "zendesk" "lu1" 1
              true None Example.world = (Ok _, _))
    by (vm_compute; reflexivity).
  split; [exact Hrun|]. split; [reflexivity|]. split; [reflexivity|].
  exact (proj1 (@list_and_single_read_agree Example.literals Example.world
                  "c1" "p1" "zendesk" "lu1" 1 true None)
           _ _ _ eq_refl Hrun (or_introl eq_refl)).
Defined.

(** X7. An account comes out of [getAccounts] and of [getAccount] with the
    same fields, but not the same [field_mappings]: the single read gives
    the object of the mappings, the list gives them as an array of
    one-entry objects. *)
Theorem account_field_mappings_shapes `{Runtime} (w w' : World)
    (connection_id project_id integrationId linkedUserId : string)
    (limit : nat) (remote_data : bool) (cursor : option string)
    (page : Page UnifiedTicketingAccountOutput.t)
    (listed : UnifiedTicketingAccountOutput.t) :
  distinct (map tcg_accounts.id_tcg_account (accounts (db w))) = true ->
  AccountService.getAccounts connection_id project_id integrationId
    linkedUserId limit remote_data cursor w = (Ok page, w') ->
  In listed (data page) ->
  exists read entries,
    fst (AccountService.getAccount (UnifiedTicketingAccountOutput.id listed)
           integrationId linkedUserId connection_id project_id remote_data w)
    = Ok read /\
    UnifiedTicketingAccountOutput.field_mappings listed =
    UnifiedTicketingAccountOutput.AsArray entries /\
    UnifiedTicketingAccountOutput.field_mappings read =
    UnifiedTicketingAccountOutput.AsObject entries /\
    UnifiedTicketingAccountOutput.name read =
    UnifiedTicketingAccountOutput.name listed /\
    UnifiedTicketingAccountOutput.domains read =
    UnifiedTicketingAccountOutput.domains listed /\
    UnifiedTicketingAccountOutput.remote_id read =
    UnifiedTicketingAccountOutput.remote_id listed /\
    UnifiedTicketingAccountOutput.created_at read =
    UnifiedTicketingAccountOutput.created_at listed /\
    UnifiedTicketingAccountOutput.modified_at read =
    UnifiedTicketingAccountOutput.modified_at listed /\
    UnifiedTicketingAccountOutput.remote_data read =
    UnifiedTicketingAccountOutput.remote_data listed.
Proof.
  intros Hdistinct Hrun Hin. rewrite getAccounts_listMethod in Hrun.
  destruct (page_record_row _ _ _ _ _ _ _ _ _ _ _ _ _ _ _ _ _ _ Hrun Hin)
    as [r [Hr [_ Hrec]]].
  pose proof (recordOf_id
                (fun r m => AccountService.unified r
                              (UnifiedTicketingAccountOutput.AsArray m))
                UnifiedTicketingAccountOutput.id AccountService.withRemoteData
                (fun _ _ => eq_refl) (fun _ _ => eq_refl) _ _ _ _ _ Hrec)
    as Hid.
  rewrite getAccount_run, Hid.
  change (@primaryKey tcg_accounts.row Table_accounts r)
    with (tcg_accounts.id_tcg_account r).
  rewrite (find_by_key tcg_accounts.id_tcg_account (accounts (db w)) r
             (distinct_NoDup _ Hdistinct) Hr).
  unfold recordOf in *. cbn [primaryKey Table_accounts] in *.
  destruct remote_data.
  - cbn [UnifiedTicketingAccountOutput.id AccountService.unified] in *.
    destruct (snapshot (tcg_accounts.id_tcg_account r) (db w)) as [parsed|e];
      [|discriminate].
    cbn [onOk] in *. injection Hrec as <-.
    eexists. eexists. split; [reflexivity|]. repeat split.
  - injection Hrec as <-.
    eexists. eexists. split; [reflexivity|]. repeat split.
Qed.

Lemma account_field_mappings_shapes_witness :
  exists page w' listed read,
    @AccountService.getAccounts Example.literals "c1" "p1" "zendesk" "lu1" 5
      false None Example.world = (Ok page, w') /\
    data page = [listed] /\
    fst (@AccountService.getAccount Example.literals "a1" "zendesk" "lu1" "c1"
           "p1" false Example.world) = Ok read /\
    UnifiedTicketingAccountOutput.field_mappings listed =
    UnifiedTicketingAccountOutput.AsArray [] /\
    UnifiedTicketingAccountOutput.field_mappings read =
    UnifiedTicketingAccountOutput.AsObject [].
Proof.
  eexists. eexists. eexists.
  assert (Hrun :
            @AccountService.getAccounts Example.literals "c1" "p1" "zendesk"
              "lu1" 5 false None Example.world = (Ok _, _))
    by (vm_compute; reflexivity).
  destruct (@account_field_mappings_shapes Example.literals Example.world _
              "c1" "p1" "zendesk" "lu1" 5 false None _ _ eq_refl Hrun
              (or_introl eq_refl))
    as [read [entries [Hread [Hlisted [Hshape _]]]]].
  exists read. split; [exact Hrun|]. split; [reflexivity|].
  split; [exact Hread|]. cbn in Hlisted. injection Hlisted as <-.
  split; [reflexivity|exact Hshape].
Defined.

(* ===================================================================== *)
(** ** Field mappings *)
(* ===================================================================== *)

Lemma Object_get_Map_set_same (k v : string) (m : object) :
  Object_get k (Map_set k v m) = Some v.
Proof.
  unfold Object_get. induction m as [|[k' v'] rest IH]; cbn [Map_set find fst].
  - rewrite String.eqb_refl. reflexivity.
  - destruct (String.eqb k k') eqn:Heq; cbn [find fst snd].
    + rewrite String.eqb_refl. reflexivity.
    + rewrite String.eqb_sym, Heq. exact IH.
Qed.

Lemma Object_get_Map_set_other (k k' v : string) (m : object) :
  k' <> k -> Object_get k' (Map_set k v m) = Object_get k' m.
Proof.
  intros Hne. unfold Object_get.
  induction m as [|[k0 v0] rest IH]; cbn [Map_set find fst].
  - replace (String.eqb k k') with false; [reflexivity|].
    symmetry. apply String.eqb_neq. congruence.
  - destruct (String.eqb k k0) eqn:Heq; cbn [find fst snd].
    + apply String.eqb_eq in Heq. subst k0.
      replace (String.eqb k k') with false; [reflexivity|].
      symmetry. apply String.eqb_neq. congruence.
    + destruct (String.eqb k0 k'); [reflexivity|exact IH].
Qed.

Lemma Map_set_keys (k v k' : string) (m : object) :
  In k' (map fst (Map_set k v m)) <-> k' = k \/ In k' (map fst m).
Proof.
  induction m as [|[k0 v0] rest IH]; cbn [Map_set map fst In].
  - intuition.
  - destruct (String.eqb k k0) eqn:Heq; cbn [map fst In].
    + apply String.eqb_eq in Heq. subst k0. intuition.
    + rewrite IH. intuition.
Qed.

Lemma Map_set_NoDup (k v : string) (m : object) :
  NoDup (map fst m) -> NoDup (map fst (Map_set k v m)).
Proof.
  induction m as [|[k0 v0] rest IH]; cbn [Map_set map fst]; intros Hnd.
  - repeat constructor. intros [].
  - inversion Hnd as [|x xs Hnotin Hrest]; subst.
    destruct (String.eqb k k0) eqn:Heq; cbn [map fst].
    + apply String.eqb_eq in Heq. subst k0. constructor; assumption.
    + apply String.eqb_neq in Heq. constructor; [|auto].
      rewrite Map_set_keys. intros [Hk|Hk]; [congruence|contradiction].
Qed.

Lemma find_last {A} (p : A -> bool) (l : list A) (x : A) :
  find p (l ++ [x]) =
  match find p l with
  | Some y => Some y
  | None => if p x then Some x else None
  end.
Proof.
  induction l as [|y rest IH]; cbn [app find]; [reflexivity|].
  destruct (p y); [reflexivity|exact IH].
Qed.

(** The map built from value rows: no slug twice, and under each slug the
    data of the last row that has it. *)
Lemma fold_Map_set (rows : list value.row) (acc : object) :
  NoDup (map fst acc) ->
  NoDup (map fst (fold_left (fun m v => Map_set (value.slug v) (value.data v) m)
                            rows acc))
  /\
  forall slug,
    Object_get slug
      (fold_left (fun m v => Map_set (value.slug v) (value.data v) m) rows acc)
    = match find (fun v => String.eqb (value.slug v) slug) (rev rows) with
      | Some v => Some (value.data v)
      | None => Object_get slug acc
      end.
Proof.
  revert acc. induction rows as [|v rest IH]; cbn [fold_left rev]; intros acc Hnd.
  - split; [exact Hnd|reflexivity].
  - destruct (IH (Map_set (value.slug v) (value.data v) acc)
                 (Map_set_NoDup _ _ _ Hnd)) as [Hnd' Hget].
    split; [exact Hnd'|]. intros slug. rewrite Hget, find_last.
    destruct (find _ (rev rest)); [reflexivity|].
    destruct (String.eqb (value.slug v) slug) eqn:Heq.
    + apply String.eqb_eq in Heq. subst slug.
      apply Object_get_Map_set_same.
    + apply String.eqb_neq in Heq.
      apply Object_get_Map_set_other. congruence.
Qed.

(** X10. The [field_mappings] of a team read by [getTeam] hold each slug
    once, and under a slug the data of the last value stored for the team
    with that slug: a later value replaces an earlier one. *)
Theorem field_mappings_last_value_wins `{Runtime}
    (id linkedUserId integrationId connection_id project_id : string)
    (remote_data : bool) (w : World) (team : UnifiedTicketingTeamOutput.t) :
  fst (TeamService.getTeam id linkedUserId integrationId connection_id
         project_id remote_data w) = Ok team ->
  NoDup (map fst (UnifiedTicketingTeamOutput.field_mappings team))
  /\
  forall slug,
    Object_get slug (UnifiedTicketingTeamOutput.field_mappings team) =
    option_map value.data
      (find (fun v => String.eqb (value.slug v) slug)
            (rev (filter (fun v => String.eqb (value.ressource_owner_id v) id)
                         (values (db w))))).
Proof.
  rewrite getTeam_run.
  destruct (find _ (teams (db w))) as [row|] eqn:Hfind; [|discriminate].
  apply find_some in Hfind. destruct Hfind as [_ Hid].
  apply String.eqb_eq in Hid.
  destruct (recordOf _ _ _ _ _ (db w) row) as [u|e] eqn:Hu; [|discriminate].
  cbn [fst]. intros Hteam. injection Hteam as ->.
  assert (Hfm : UnifiedTicketingTeamOutput.field_mappings team =
                fieldMappingsMap id (db w)).
  { unfold recordOf in Hu. cbn [primaryKey Table_teams] in Hu.
    rewrite Hid in Hu. destruct remote_data.
    - destruct (snapshot _ (db w)); [|discriminate]. cbn [onOk] in Hu.
      injection Hu as <-. reflexivity.
    - injection Hu as <-. reflexivity. }
  rewrite Hfm. unfold fieldMappingsMap.
  destruct (fold_Map_set
              (filter (fun v => String.eqb (value.ressource_owner_id v) id)
                      (values (db w))) [] (NoDup_nil _)) as [Hnd Hget].
  split; [exact Hnd|]. intros slug. rewrite Hget.
  destruct (find _ (rev _)); reflexivity.
Qed.

Lemma field_mappings_last_value_wins_witness :
  exists team,
    fst (@TeamService.getTeam Example.literals "t1" "lu1" "zendesk" "c1" "p1"
           false Cases.remapped) = Ok team /\
    UnifiedTicketingTeamOutput.field_mappings team =
    [("tier", "silver"); ("region", "emea")] /\
    NoDup (map fst (UnifiedTicketingTeamOutput.field_mappings team)) /\
    Object_get "tier" (UnifiedTicketingTeamOutput.field_mappings team) =
    Some "silver".
Proof.
  eexists.
  assert (Hrun :
            fst (@TeamService.getTeam Example.literals "t1" "lu1" "zendesk"
                   "c1" "p1" false Cases.remapped) = Ok _)
    by (vm_compute; reflexivity).
  destruct (@field_mappings_last_value_wins Example.literals "t1" "lu1"
              "zendesk" "c1" "p1" false Cases.remapped _ Hrun)
    as [Hnd Hget].
  split; [exact Hrun|]. split; [reflexivity|]. split; [exact Hnd|].
  rewrite Hget. reflexivity.
Defined.

(* ===================================================================== *)
(** ** More about [addAttachment] *)
(* ===================================================================== *)

(** [addAttachment], statement by statement. *)
Lemma addAttachment_run `{Runtime} `{WebhookService}
    (input : UnifiedTicketingAttachmentInput.t)
    (connection_id integrationId linkedUserId project_id : string)
    (remote_data : bool) (w : World) :
  AttachmentService.addAttachment input connection_id integrationId
    linkedUserId project_id remote_data w =
  match find (fun r => String.eqb (linked_users.id_linked_user r) linkedUserId)
             (linkedUsers (db w)) with
  | None => (Err (ReferenceError "Linked User Not Found"), w)
  | Some linkedUser =>
      match AttachmentService.saveOrUpdateAttachment input connection_id
              linkedUserId w with
      | (Err e, w1) => (Err e, w1)
      | (Ok id, w1) =>
          match AttachmentService.getAttachment id None None connection_id
                  project_id remote_data w1 with
          | (Err e, w2) => (Err e, w2)
          | (Ok a, w2) =>
              let event := attachmentPushed connection_id project_id
                             integrationId linkedUserId w2 in
              match dispatchOutcome (attachmentCreated a linkedUser event) with
              | Some e => (Err e, afterEvent event w2)
              | None =>
                  (Ok a, afterHook (attachmentCreated a linkedUser event)
                           (afterEvent event w2))
              end
          end
      end
  end.
Proof.
  unfold AttachmentService.addAttachment, findUnique. step.
  destruct (find _ (linkedUsers (db w))) as [linkedUser|]; [|reflexivity].
  rewrite bind_run.
  destruct (AttachmentService.saveOrUpdateAttachment _ _ _ w)
    as [[id|e] w1]; [|reflexivity].
  rewrite bind_run.
  destruct (AttachmentService.getAttachment _ _ _ _ _ _ w1)
    as [[a|e] w2]; [|reflexivity].
  rewrite bind_run, events_create_run, bind_run.
  unfold dispatchWebhook, attachmentCreated, attachmentPushed. cbv zeta.
  cbn [events.id_event eventOf].
  destruct (dispatchOutcome _); reflexivity.
Qed.

(** X15. Both pushes start with the linked user: for a linked user that
    is not stored, [addAttachment] and [addTicket] throw "Linked User Not
    Found" and write nothing. *)
Theorem unknown_linked_user `{Runtime} `{WebhookService}
    `{TicketCollaborators} (w : World)
    (attachment : UnifiedTicketingAttachmentInput.t)
    (ticket : UnifiedTicketingTicketInput.t)
    (connection_id integrationId linkedUserId project_id : string)
    (remote_data : bool) :
  (forall u, In u (linkedUsers (db w)) ->
             linked_users.id_linked_user u <> linkedUserId) ->
  AttachmentService.addAttachment attachment connection_id integrationId
    linkedUserId project_id remote_data w =
  (Err (ReferenceError "Linked User Not Found"), w)
  /\
  TicketService.addTicket ticket connection_id integrationId linkedUserId
    project_id remote_data w =
  (Err (ReferenceError "Linked User Not Found"), w).
Proof.
  intros Hnone.
  assert (Hfind : find (fun r => String.eqb (linked_users.id_linked_user r)
                                            linkedUserId)
                       (linkedUsers (db w)) = None).
  { apply find_absent. intros u Hu. apply String.eqb_neq, Hnone, Hu. }
  split.
  - rewrite addAttachment_run, Hfind. reflexivity.
  - unfold TicketService.addTicket.
    rewrite bind_run, validateLinkedUser_run. unfold findUnique.
    rewrite Hfind. reflexivity.
Qed.

Lemma unknown_linked_user_witness :
  @AttachmentService.addAttachment Example.literals Example.delivering
    (Cases.png "c.png") "c1" "zendesk" "nobody" "p1" false Example.world =
  (Err (ReferenceError "Linked User Not Found"), Example.world)
  /\
  @TicketService.addTicket Example.delivering Example.collaborators
    (Example.bug None) "c1" "zendesk" "nobody" "p1" false Example.world =
  (Err (ReferenceError "Linked User Not Found"), Example.world).
Proof.
  apply (@unknown_linked_user Example.literals Example.delivering
           Example.collaborators Example.world).
  intros u Hu. cbn in Hu.
  repeat (destruct Hu as [<-|Hu]; [discriminate|]). destruct Hu.
Defined.

Lemma find_replaceFirst {R} (p : R -> bool) (new : R) (l : list R) (x : R) :
  find p l = Some x -> p new = true ->
  find p (replaceFirst p new l) = Some new.
Proof.
  intros Hfind Hnew. induction l as [|y rest IH]; [discriminate|].
  cbn [find replaceFirst] in *. destruct (p y) eqn:Hy.
  - cbn [find]. rewrite Hnew. reflexivity.
  - cbn [find]. rewrite Hy. apply IH, Hfind.
Qed.

Lemma find_app_last {R} (p : R -> bool) (l : list R) (new : R) :
  find p l = None -> p new = true -> find p (l ++ [new]) = Some new.
Proof.
  intros Hfind Hnew. induction l as [|y rest IH]; cbn [app find] in *.
  - rewrite Hnew. reflexivity.
  - destruct (p y); [discriminate|]. apply IH, Hfind.
Qed.

Lemma existingAttachment_found (file_name connection_id : string)
    (d : Database) (existing : tcg_attachments.row) :
  AttachmentService.existingAttachment file_name connection_id d
  = Some existing ->
  In existing (attachments d)
  /\ tcg_attachments.file_name existing = file_name
  /\ tcg_attachments.id_connection existing = connection_id.
Proof.
  unfold AttachmentService.existingAttachment, findFirst. intros Hfind.
  apply find_some in Hfind. destruct Hfind as [Hin Hp].
  apply andb_true_iff in Hp. destruct Hp as [Hn Hc].
  apply String.eqb_eq in Hn, Hc. auto.
Qed.

(** With distinct ids and a fresh uuid the upsert succeeds, and the row it
    wrote is the row found under the id it returns. *)
Lemma saveOrUpdateAttachment_stored
    (input : UnifiedTicketingAttachmentInput.t)
    (connection_id linkedUserId : string) (w : World) :
  upsertAccepted input connection_id w = true ->
  let row := upsertedAttachment input connection_id linkedUserId w in
  let w1 := afterUpsert input connection_id linkedUserId w in
  AttachmentService.saveOrUpdateAttachment input connection_id linkedUserId w
  = (Ok (tcg_attachments.id_tcg_attachment row), w1)
  /\
  find (fun r => String.eqb (tcg_attachments.id_tcg_attachment r)
                            (tcg_attachments.id_tcg_attachment row))
       (attachments (db w1)) = Some row.
Proof.
  intros Haccepted. cbv zeta.
  unfold upsertAccepted in Haccepted. apply andb_true_iff in Haccepted.
  destruct Haccepted as [Hdistinct Hfresh].
  rewrite saveOrUpdateAttachment_run. cbv zeta.
  unfold upsertedAttachment, afterUpsert. cbv zeta.
  unfold upsertedAttachment.
  destruct (AttachmentService.existingAttachment _ connection_id (db w))
    as [existing|] eqn:Hex.
  2: apply negb_true_iff in Hfresh.
  - destruct (existingAttachment_found _ _ _ _ Hex) as [Hin _].
    rewrite (prismaUpdate_located tcg_attachments.id_tcg_attachment
               (attachments (db w)) existing
               (AttachmentService.updated
                  (UnifiedTicketingAttachmentInput.file_name input)
                  linkedUserId (now w))
               (distinct_NoDup _ Hdistinct) Hin)
      by (left; reflexivity).
    split; [reflexivity|].
    cbn [withDb db setAttachments attachments AttachmentService.updated
         tcg_attachments.id_tcg_attachment].
    apply (find_replaceFirst _ _ _ existing).
    + apply (find_by_key tcg_attachments.id_tcg_attachment _ existing
               (distinct_NoDup _ Hdistinct) Hin).
    + cbn [tcg_attachments.id_tcg_attachment]. apply String.eqb_refl.
  - unfold prismaCreate.
    cbn [AttachmentService.created tcg_attachments.id_tcg_attachment].
    rewrite Hfresh. split; [reflexivity|].
    cbn [withDb db setAttachments attachments].
    apply find_app_last.
    + destruct (find _ (attachments (db w))) as [r|] eqn:Hfind; [|reflexivity].
      apply find_some in Hfind. destruct Hfind as [Hin Hid].
      assert (Hex' : existsb
                       (fun r => String.eqb
                                   (tcg_attachments.id_tcg_attachment r)
                                   (uuidSource w (uuidCount w)))
                       (attachments (db w)) = true)
        by (apply existsb_exists; exists r; auto).
      congruence.
    + cbn [tcg_attachments.id_tcg_attachment]. apply String.eqb_refl.
Qed.

(** The upsert writes attachments only. *)
Lemma afterUpsert_others (input : UnifiedTicketingAttachmentInput.t)
    (connection_id linkedUserId : string) (w : World) :
  let w1 := afterUpsert input connection_id linkedUserId w in
  values (db w1) = values (db w)
  /\ remoteData (db w1) = remoteData (db w)
  /\ eventLog (db w1) = eventLog (db w)
  /\ dispatched w1 = dispatched w
  /\ linkedUsers (db w1) = linkedUsers (db w)
  /\ now w1 = now w.
Proof.
  cbv zeta. unfold afterUpsert. cbv zeta.
  destruct (AttachmentService.existingAttachment _ connection_id (db w));
    repeat split; reflexivity.
Qed.

(** [addAttachment] on a table with distinct ids, for a stored linked
    user: the upsert, the record read back, the event, the webhook. *)
Lemma addAttachment_upserted `{Runtime} `{WebhookService}
    (input : UnifiedTicketingAttachmentInput.t)
    (connection_id integrationId linkedUserId project_id : string)
    (remote_data : bool) (w : World) (linkedUser : linked_users.row) :
  find (fun r => String.eqb (linked_users.id_linked_user r) linkedUserId)
       (linkedUsers (db w)) = Some linkedUser ->
  upsertAccepted input connection_id w = true ->
  AttachmentService.addAttachment input connection_id integrationId
    linkedUserId project_id remote_data w =
  let row := upsertedAttachment input connection_id linkedUserId w in
  let w1 := afterUpsert input connection_id linkedUserId w in
  match recordOf AttachmentService.unified UnifiedTicketingAttachmentOutput.id
          AttachmentService.withRemoteData true remote_data (db w) row with
  | Err e => (Err e, w1)
  | Ok a =>
      let event := attachmentPushed connection_id project_id integrationId
                     linkedUserId w1 in
      match dispatchOutcome (attachmentCreated a linkedUser event) with
      | Some e => (Err e, afterEvent event w1)
      | None =>
          (Ok a, afterHook (attachmentCreated a linkedUser event)
                   (afterEvent event w1))
      end
  end.
Proof.
  intros Hlu Haccepted. cbv zeta.
  rewrite addAttachment_run, Hlu.
  destruct (saveOrUpdateAttachment_stored input connection_id linkedUserId w
              Haccepted) as [Hrun Hfind].
  cbv zeta in Hrun, Hfind. rewrite Hrun, getAttachment_run, Hfind.
  destruct (afterUpsert_others input connection_id linkedUserId w)
    as [Hv [Hr _]].
  assert (Hrec : forall r,
    recordOf AttachmentService.unified UnifiedTicketingAttachmentOutput.id
      AttachmentService.withRemoteData true remote_data
      (db (afterUpsert input connection_id linkedUserId w)) r =
    recordOf AttachmentService.unified UnifiedTicketingAttachmentOutput.id
      AttachmentService.withRemoteData true remote_data (db w) r).
  { intros r. unfold recordOf, fieldMappingsMap, snapshot.
    rewrite Hv, Hr. reflexivity. }
  rewrite Hrec.
  destruct (recordOf _ _ _ _ _ (db w) _) as [a|e]; reflexivity.
Qed.

(** X11. A push of an attachment that goes through returns the record of
    the row the upsert wrote, and leaves exactly one more event, of type
    [ticketing.attachment.push], and exactly one more webhook, of type
    [ticketing.attachment.created], that carries the returned record, the
    project of the linked user and the id of that event. *)
Theorem addAttachment_record_event_webhook `{Runtime} `{WebhookService}
    (input : UnifiedTicketingAttachmentInput.t)
    (connection_id integrationId linkedUserId project_id : string)
    (remote_data : bool) (w : World) (linkedUser : linked_users.row)
    (a : UnifiedTicketingAttachmentOutput.t) :
  let row := upsertedAttachment input connection_id linkedUserId w in
  let w1 := afterUpsert input connection_id linkedUserId w in
  let event := attachmentPushed connection_id project_id integrationId
                 linkedUserId w1 in
  find (fun r => String.eqb (linked_users.id_linked_user r) linkedUserId)
       (linkedUsers (db w)) = Some linkedUser ->
  upsertAccepted input connection_id w = true ->
  recordOf AttachmentService.unified UnifiedTicketingAttachmentOutput.id
    AttachmentService.withRemoteData true remote_data (db w) row = Ok a ->
  dispatchOutcome (attachmentCreated a linkedUser event) = None ->
  exists w',
    AttachmentService.addAttachment input connection_id integrationId
      linkedUserId project_id remote_data w = (Ok a, w')
    /\ UnifiedTicketingAttachmentOutput.id a
       = tcg_attachments.id_tcg_attachment row
    /\ find (fun r => String.eqb (tcg_attachments.id_tcg_attachment r)
                                 (UnifiedTicketingAttachmentOutput.id a))
            (attachments (db w')) = Some row
    /\ eventLog (db w') = eventLog (db w) ++ [event]
    /\ events.type event = "ticketing.attachment.push"
    /\ dispatched w' =
       dispatched w ++
       [{| hookData := AttachmentData a;
           hookEventType := "ticketing.attachment.created";
           hookProjectId := linked_users.id_project linkedUser;
           hookEventId := events.id_event event |}].
Proof.
  intros row w1 event Hlu Haccepted Hrecord Hdelivered.
  pose proof (addAttachment_upserted input connection_id integrationId
                linkedUserId project_id remote_data w linkedUser Hlu Haccepted)
    as Hrun.
  cbv zeta in Hrun. fold row w1 in Hrun. rewrite Hrecord in Hrun.
  fold event in Hrun. rewrite Hdelivered in Hrun.
  eexists. split; [exact Hrun|].
  destruct (saveOrUpdateAttachment_stored input connection_id linkedUserId w
              Haccepted) as [_ Hfind].
  cbv zeta in Hfind. fold row w1 in Hfind.
  destruct (afterUpsert_others input connection_id linkedUserId w)
    as [_ [_ [Hlog [Hhooks _]]]].
  cbv zeta in Hlog, Hhooks. fold w1 in Hlog, Hhooks.
  assert (Hid : UnifiedTicketingAttachmentOutput.id a
                = tcg_attachments.id_tcg_attachment row).
  { unfold recordOf in Hrecord. destruct remote_data.
    - destruct (snapshot _ (db w)); [|discriminate]. cbn [onOk] in Hrecord.
      injection Hrecord as <-. reflexivity.
    - injection Hrecord as <-. reflexivity. }
  split; [exact Hid|].
  split; [rewrite Hid; exact Hfind|].
  split; [cbn; rewrite Hlog; reflexivity|].
  split; [reflexivity|].
  cbn. rewrite Hhooks. reflexivity.
Qed.

Lemma addAttachment_record_event_webhook_witness :
  exists a w',
    @AttachmentService.addAttachment Example.literals Example.delivering
      (Cases.png "c.png") "c1" "zendesk" "lu1" "p1" false Example.world
    = (Ok a, w')
    /\ UnifiedTicketingAttachmentOutput.id a = Example.uuids 0
    /\ map events.id_event (eventLog (db w')) = [Example.uuids 1]
    /\ map hookEventId (dispatched w') = [Example.uuids 1]
    /\ map hookEventType (dispatched w') = ["ticketing.attachment.created"].
Proof.
  destruct (@addAttachment_record_event_webhook Example.literals
              Example.delivering (Cases.png "c.png") "c1" "zendesk" "lu1"
              "p1" false Example.world
              {| linked_users.id_linked_user := "lu1";
                 linked_users.id_project := "p1" |}
              _ eq_refl eq_refl eq_refl eq_refl)
    as [w' [Hrun [Hid [_ [Hlog [_ Hhooks]]]]]].
  eexists. exists w'. split; [exact Hrun|].
  split; [rewrite Hid; reflexivity|].
  split; [rewrite Hlog; reflexivity|].
  rewrite Hhooks. split; reflexivity.
Defined.

Lemma replaceFirst_keys {R} (key : R -> string) (l : list R) (x new : R) :
  key new = key x ->
  map key (replaceFirst (fun r => String.eqb (key r) (key x)) new l)
  = map key l.
Proof.
  intros Hkey. induction l as [|y rest IH]; cbn [replaceFirst map];
    [reflexivity|].
  destruct (String.eqb (key y) (key x)) eqn:Hy; cbn [map].
  - apply String.eqb_eq in Hy. congruence.
  - rewrite IH. reflexivity.
Qed.

Lemma find_replaceFirst_by_key {R} (key : R -> string) (q : R -> bool)
    (l : list R) (x new : R) :
  NoDup (map key l) -> find q l = Some x -> q new = true ->
  find q (replaceFirst (fun r => String.eqb (key r) (key x)) new l)
  = Some new.
Proof.
  intros Hnd Hfind Hnew. induction l as [|y rest IH]; [discriminate|].
  cbn [map find replaceFirst] in *.
  inversion Hnd as [|k ks Hnotin Hrest]; subst.
  destruct (q y) eqn:Hq.
  - injection Hfind as ->. rewrite String.eqb_refl. cbn [find].
    rewrite Hnew. reflexivity.
  - destruct (String.eqb (key y) (key x)) eqn:Hy.
    + apply String.eqb_eq in Hy. exfalso. apply Hnotin. rewrite Hy.
      apply in_map. apply find_some in Hfind. apply Hfind.
    + cbn [find]. rewrite Hq. apply IH; assumption.
Qed.

Lemma NoDup_distinct (keys : list string) :
  NoDup keys -> distinct keys = true.
Proof.
  induction 1 as [|k rest Hnotin _ IH]; cbn [distinct]; [reflexivity|].
  rewrite IH, andb_true_r. apply negb_true_iff.
  destruct (existsb (String.eqb k) rest) eqn:Hex; [|reflexivity].
  apply existsb_exists in Hex. destruct Hex as [k' [Hin Heq]].
  apply String.eqb_eq in Heq. subst k'. contradiction.
Qed.

(** After the upsert the ids are distinct still, and the row written is the
    row found under the file name. *)
Lemma afterUpsert_found (input : UnifiedTicketingAttachmentInput.t)
    (connection_id linkedUserId : string) (w : World) :
  upsertAccepted input connection_id w = true ->
  let w1 := afterUpsert input connection_id linkedUserId w in
  distinct (map tcg_attachments.id_tcg_attachment (attachments (db w1)))
  = true
  /\ AttachmentService.existingAttachment
       (UnifiedTicketingAttachmentInput.file_name input) connection_id (db w1)
     = Some (upsertedAttachment input connection_id linkedUserId w).
Proof.
  intros Haccepted. cbv zeta.
  unfold upsertAccepted in Haccepted. apply andb_true_iff in Haccepted.
  destruct Haccepted as [Hdistinct Hfresh].
  unfold afterUpsert. cbv zeta. unfold upsertedAttachment.
  destruct (AttachmentService.existingAttachment _ connection_id (db w))
    as [existing|] eqn:Hex.
  - destruct (existingAttachment_found _ _ _ _ Hex) as [Hin [Hname Hconn]].
    cbn [withDb db setAttachments attachments].
    split.
    + rewrite replaceFirst_keys by reflexivity. exact Hdistinct.
    + unfold AttachmentService.existingAttachment, findFirst.
      cbn [setAttachments attachments].
      apply (find_replaceFirst_by_key tcg_attachments.id_tcg_attachment).
      * apply distinct_NoDup, Hdistinct.
      * exact Hex.
      * cbn [AttachmentService.updated tcg_attachments.file_name
             tcg_attachments.id_connection].
        rewrite Hconn, !String.eqb_refl. reflexivity.
  - apply negb_true_iff in Hfresh.
    cbn [withDb db setAttachments attachments afterUuid].
    split.
    + apply NoDup_distinct. rewrite map_app. cbn [map].
      apply NoDup_app_remove_l with (l := []). cbn [app].
      apply Permutation_NoDup
        with (l := tcg_attachments.id_tcg_attachment
                     (AttachmentService.created (uuidSource w (uuidCount w))
                        (UnifiedTicketingAttachmentInput.file_name input)
                        linkedUserId (now w) (now w) connection_id)
                   :: map tcg_attachments.id_tcg_attachment
                        (attachments (db w))).
      * apply Permutation_cons_append.
      * constructor; [|apply distinct_NoDup, Hdistinct].
        cbn [AttachmentService.created tcg_attachments.id_tcg_attachment].
        intros Hn. apply in_map_iff in Hn. destruct Hn as [r [Hid Hr]].
        assert (Hex' : existsb
                         (fun r => String.eqb
                                     (tcg_attachments.id_tcg_attachment r)
                                     (uuidSource w (uuidCount w)))
                         (attachments (db w)) = true)
          by (apply existsb_exists; exists r; split;
              [exact Hr|apply String.eqb_eq, Hid]).
        congruence.
    + unfold AttachmentService.existingAttachment, findFirst.
      cbn [setAttachments attachments].
      apply find_app_last; [exact Hex|].
      cbn [AttachmentService.created tcg_attachments.file_name
           tcg_attachments.id_connection].
      rewrite !String.eqb_refl. reflexivity.
Qed.

(** X12. Pushing the same file name twice on a connection stores one
    attachment: the second push updates the row of the first, returns the
    same id and the same [created_at], sets [modified_at] to the time of the
    second push, and leaves the ids of the table as they were. *)
Theorem addAttachment_same_file_twice `{Runtime} `{WebhookService}
    (input : UnifiedTicketingAttachmentInput.t)
    (connection_id integrationId linkedUserId project_id : string)
    (w : World) (later : time) :
  (exists linkedUser, In linkedUser (linkedUsers (db w)) /\
     linked_users.id_linked_user linkedUser = linkedUserId) ->
  upsertAccepted input connection_id w = true ->
  (forall hook, dispatchOutcome hook = None) ->
  exists a1 w1 a2 w2,
    AttachmentService.addAttachment input connection_id integrationId
      linkedUserId project_id false w = (Ok a1, w1)
    /\ AttachmentService.addAttachment input connection_id integrationId
         linkedUserId project_id false (atTime later w1) = (Ok a2, w2)
    /\ UnifiedTicketingAttachmentOutput.id a2
       = UnifiedTicketingAttachmentOutput.id a1
    /\ UnifiedTicketingAttachmentOutput.created_at a2
       = UnifiedTicketingAttachmentOutput.created_at a1
    /\ UnifiedTicketingAttachmentOutput.modified_at a2 = later
    /\ map tcg_attachments.id_tcg_attachment (attachments (db w2))
       = map tcg_attachments.id_tcg_attachment (attachments (db w1)).
Proof.
  intros [linkedUser0 [Hlu0 Hid0]] Haccepted Hdelivered.
  destruct (find (fun r => String.eqb (linked_users.id_linked_user r)
                                      linkedUserId)
                 (linkedUsers (db w))) as [linkedUser|] eqn:Hlu.
  2: { exfalso.
       apply (find_none _ _ Hlu) in Hlu0. apply String.eqb_neq in Hlu0.
       contradiction. }
  pose proof (addAttachment_upserted input connection_id integrationId
                linkedUserId project_id false w linkedUser Hlu Haccepted)
    as Hrun1.
  cbv zeta in Hrun1. unfold recordOf in Hrun1. rewrite Hdelivered in Hrun1.
  destruct (afterUpsert_found input connection_id linkedUserId w Haccepted)
    as [Hdistinct1 Hexisting1].
  cbv zeta in Hdistinct1, Hexisting1.
  destruct (afterUpsert_others input connection_id linkedUserId w)
    as [_ [_ [_ [_ [Hlus _]]]]].
  cbv zeta in Hlus.
  set (row1 := upsertedAttachment input connection_id linkedUserId w) in *.
  set (wu := afterUpsert input connection_id linkedUserId w) in *.
  match type of Hrun1 with
  | _ = (Ok ?a, ?w') => set (a1 := a) in *; set (w1 := w') in *
  end.
  assert (Hexisting2 :
            AttachmentService.existingAttachment
              (UnifiedTicketingAttachmentInput.file_name input) connection_id
              (db (atTime later w1)) = Some row1) by exact Hexisting1.
  assert (Haccepted2 : upsertAccepted input connection_id (atTime later w1)
                       = true).
  { unfold upsertAccepted. rewrite Hexisting2, andb_true_r.
    exact Hdistinct1. }
  assert (Hlu2 : find (fun r => String.eqb (linked_users.id_linked_user r)
                                           linkedUserId)
                      (linkedUsers (db (atTime later w1))) = Some linkedUser).
  { cbn [atTime db w1 afterHook afterEvent withDb addEvent linkedUsers].
    rewrite Hlus. exact Hlu. }
  pose proof (addAttachment_upserted input connection_id integrationId
                linkedUserId project_id false (atTime later w1) linkedUser
                Hlu2 Haccepted2) as Hrun2.
  cbv zeta in Hrun2. unfold recordOf in Hrun2. rewrite Hdelivered in Hrun2.
  exists a1, w1. eexists. eexists.
  split; [exact Hrun1|]. split; [exact Hrun2|].
  unfold upsertedAttachment, afterUpsert. cbv zeta.
  unfold upsertedAttachment. rewrite Hexisting2.
  split; [reflexivity|]. split; [reflexivity|]. split; [reflexivity|].
  cbn [afterHook afterEvent withDb addEvent db setAttachments attachments
       atTime afterUuid].
  apply replaceFirst_keys. reflexivity.
Qed.

Lemma addAttachment_same_file_twice_witness :
  exists a1 w1 a2 w2,
    @AttachmentService.addAttachment Example.literals Example.delivering
      (Cases.png "c.png") "c1" "zendesk" "lu1" "p1" false Example.world
    = (Ok a1, w1)
    /\ @AttachmentService.addAttachment Example.literals Example.delivering
         (Cases.png "c.png") "c1" "zendesk" "lu1" "p1" false (atTime 2000 w1)
       = (Ok a2, w2)
    /\ UnifiedTicketingAttachmentOutput.id a2
       = UnifiedTicketingAttachmentOutput.id a1
    /\ UnifiedTicketingAttachmentOutput.created_at a2
       = UnifiedTicketingAttachmentOutput.created_at a1
    /\ UnifiedTicketingAttachmentOutput.modified_at a2 = 2000
    /\ map tcg_attachments.id_tcg_attachment (attachments (db w2))
       = map tcg_attachments.id_tcg_attachment (attachments (db w1)).
Proof.
  apply (@addAttachment_same_file_twice Example.literals Example.delivering
           (Cases.png "c.png") "c1" "zendesk" "lu1" "p1" Example.world 2000).
  - eexists. split; [left; reflexivity|reflexivity].
  - reflexivity.
  - reflexivity.
Defined.

(** X13. Nothing in [addAttachment] stores a snapshot.  A push with
    [remote_data] set, of an attachment whose row has no snapshot (as the
    row of a new file has none), throws the [TypeError] of reading [data] of
    [null], after the upsert: the row is stored, no event is written and no
    webhook is dispatched. *)
Theorem addAttachment_remote_data_after_write `{Runtime} `{WebhookService}
    (input : UnifiedTicketingAttachmentInput.t)
    (connection_id integrationId linkedUserId project_id : string)
    (w : World) :
  let row := upsertedAttachment input connection_id linkedUserId w in
  (exists linkedUser, In linkedUser (linkedUsers (db w)) /\
     linked_users.id_linked_user linkedUser = linkedUserId) ->
  upsertAccepted input connection_id w = true ->
  (forall s, In s (remoteData (db w)) ->
     remote_data.ressource_owner_id s
     <> tcg_attachments.id_tcg_attachment row) ->
  exists w',
    AttachmentService.addAttachment input connection_id integrationId
      linkedUserId project_id true w
    = (Err (TypeError "Cannot read properties of null (reading 'data')"), w')
    /\ find (fun r => String.eqb (tcg_attachments.id_tcg_attachment r)
                                 (tcg_attachments.id_tcg_attachment row))
            (attachments (db w')) = Some row
    /\ eventLog (db w') = eventLog (db w)
    /\ dispatched w' = dispatched w.
Proof.
  intros row [linkedUser0 [Hlu0 Hid0]] Haccepted Hnone.
  destruct (find (fun r => String.eqb (linked_users.id_linked_user r)
                                      linkedUserId)
                 (linkedUsers (db w))) as [linkedUser|] eqn:Hlu.
  2: { exfalso.
       apply (find_none _ _ Hlu) in Hlu0. apply String.eqb_neq in Hlu0.
       contradiction. }
  pose proof (addAttachment_upserted input connection_id integrationId
                linkedUserId project_id true w linkedUser Hlu Haccepted)
    as Hrun.
  cbv zeta in Hrun. fold row in Hrun. unfold recordOf in Hrun.
  cbn [AttachmentService.unified UnifiedTicketingAttachmentOutput.id] in Hrun.
  rewrite (snapshot_missing _ _ Hnone) in Hrun. cbn [onOk] in Hrun.
  eexists. split; [exact Hrun|].
  destruct (saveOrUpdateAttachment_stored input connection_id linkedUserId w
              Haccepted) as [_ Hfind].
  destruct (afterUpsert_others input connection_id linkedUserId w)
    as [_ [_ [Hlog [Hhooks _]]]].
  split; [exact Hfind|]. split; [exact Hlog|exact Hhooks].
Qed.

Lemma addAttachment_remote_data_after_write_witness :
  exists w',
    @AttachmentService.addAttachment Example.literals Example.delivering
      (Cases.png "c.png") "c1" "zendesk" "lu1" "p1" true Example.world
    = (Err (TypeError "Cannot read properties of null (reading 'data')"), w')
    /\ map tcg_attachments.file_name (attachments (db w'))
       = ["a.png"; "b.png"; "c.png"]
    /\ eventLog (db w') = []
    /\ dispatched w' = [].
Proof.
  destruct (@addAttachment_remote_data_after_write Example.literals
              Example.delivering (Cases.png "c.png") "c1" "zendesk" "lu1"
              "p1" Example.world)
    as [w' [Hrun [_ [Hlog Hhooks]]]].
  - eexists. split; [left; reflexivity|reflexivity].
  - reflexivity.
  - intros s Hs. cbn in Hs.
    repeat (destruct Hs as [<-|Hs]; [discriminate|]). destruct Hs.
  - exists w'. split; [exact Hrun|].
    split; [|split; [exact Hlog|exact Hhooks]].
    assert (Hw : snd (@AttachmentService.addAttachment Example.literals
                        Example.delivering (Cases.png "c.png") "c1" "zendesk"
                        "lu1" "p1" true Example.world) = w')
      by (rewrite Hrun; reflexivity).
    rewrite <- Hw. reflexivity.
Defined.

(** X14. The webhook is the last step of [addAttachment].  When its
    dispatch fails the push throws that error, and the row and the event of
    the push are stored all the same. *)
Theorem addAttachment_webhook_failure `{Runtime} `{WebhookService}
    (input : UnifiedTicketingAttachmentInput.t)
    (connection_id integrationId linkedUserId project_id : string)
    (w : World) (failure : error) :
  let row := upsertedAttachment input connection_id linkedUserId w in
  let event := attachmentPushed connection_id project_id integrationId
                 linkedUserId
                 (afterUpsert input connection_id linkedUserId w) in
  (exists linkedUser, In linkedUser (linkedUsers (db w)) /\
     linked_users.id_linked_user linkedUser = linkedUserId) ->
  upsertAccepted input connection_id w = true ->
  (forall hook, dispatchOutcome hook = Some failure) ->
  exists w',
    AttachmentService.addAttachment input connection_id integrationId
      linkedUserId project_id false w = (Err failure, w')
    /\ find (fun r => String.eqb (tcg_attachments.id_tcg_attachment r)
                                 (tcg_attachments.id_tcg_attachment row))
            (attachments (db w')) = Some row
    /\ eventLog (db w') = eventLog (db w) ++ [event]
    /\ dispatched w' = dispatched w.
Proof.
  intros row event [linkedUser0 [Hlu0 Hid0]] Haccepted Hfails.
  destruct (find (fun r => String.eqb (linked_users.id_linked_user r)
                                      linkedUserId)
                 (linkedUsers (db w))) as [linkedUser|] eqn:Hlu.
  2: { exfalso.
       apply (find_none _ _ Hlu) in Hlu0. apply String.eqb_neq in Hlu0.
       contradiction. }
  pose proof (addAttachment_upserted input connection_id integrationId
                linkedUserId project_id false w linkedUser Hlu Haccepted)
    as Hrun.
  cbv zeta in Hrun. fold row in Hrun. unfold recordOf in Hrun.
  rewrite Hfails in Hrun.
  eexists. split; [exact Hrun|].
  destruct (saveOrUpdateAttachment_stored input connection_id linkedUserId w
              Haccepted) as [_ Hfind].
  destruct (afterUpsert_others input connection_id linkedUserId w)
    as [_ [_ [Hlog [Hhooks _]]]].
  cbv zeta in Hfind, Hlog, Hhooks.
  split; [exact Hfind|].
  split; [cbn; rewrite Hlog; reflexivity|exact Hhooks].
Qed.

Lemma addAttachment_webhook_failure_witness :
  exists w',
    @AttachmentService.addAttachment Example.literals Example.down
      (Cases.png "c.png") "c1" "zendesk" "lu1" "p1" false Example.world
    = (Err (Rejected "webhook queue unavailable"), w')
    /\ map tcg_attachments.file_name (attachments (db w'))
       = ["a.png"; "b.png"; "c.png"]
    /\ map events.type (eventLog (db w')) = ["ticketing.attachment.push"]
    /\ dispatched w' = [].
Proof.
  destruct (@addAttachment_webhook_failure Example.literals Example.down
              (Cases.png "c.png") "c1" "zendesk" "lu1" "p1" Example.world
              (Rejected "webhook queue unavailable"))
    as [w' [Hrun [_ [Hlog Hhooks]]]].
  - eexists. split; [left; reflexivity|reflexivity].
  - reflexivity.
  - reflexivity.
  - exists w'. split; [exact Hrun|].
    split; [|split; [rewrite Hlog; reflexivity|exact Hhooks]].
    assert (Hw : snd (@AttachmentService.addAttachment Example.literals
                        Example.down (Cases.png "c.png") "c1" "zendesk"
                        "lu1" "p1" false Example.world) = w')
      by (rewrite Hrun; reflexivity).
    rewrite <- Hw. reflexivity.
Defined.

(* ===================================================================== *)
(** ** Single reads and connections *)
(* ===================================================================== *)

(** X16. The single reads look a row up by its id alone.  Whatever the
    connection the caller names, [getTeam], [getAccount], [getContact] and
    [getAttachment] return the record of the row with that id, also when the
    row belongs to another connection. *)
Theorem single_read_ignores_connection `{Runtime} (w : World)
    (connection_id project_id integrationId linkedUserId : string) :
  (forall row,
     distinct (map tcg_teams.id_tcg_team (teams (db w))) = true ->
     In row (teams (db w)) ->
     fst (TeamService.getTeam (tcg_teams.id_tcg_team row) linkedUserId
            integrationId connection_id project_id false w)
     = Ok (TeamService.unified row
             (fieldMappingsMap (tcg_teams.id_tcg_team row) (db w))))
  /\
  (forall row,
     distinct (map tcg_accounts.id_tcg_account (accounts (db w))) = true ->
     In row (accounts (db w)) ->
     fst (AccountService.getAccount (tcg_accounts.id_tcg_account row)
            integrationId linkedUserId connection_id project_id false w)
     = Ok (AccountService.unified row
             (UnifiedTicketingAccountOutput.AsObject
                (fieldMappingsMap (tcg_accounts.id_tcg_account row) (db w)))))
  /\
  (forall row,
     distinct (map tcg_contacts.id_tcg_contact (contacts (db w))) = true ->
     In row (contacts (db w)) ->
     fst (ContactService.getContact (tcg_contacts.id_tcg_contact row)
            linkedUserId integrationId connection_id project_id false w)
     = Ok (ContactService.unified row
             (fieldMappingsMap (tcg_contacts.id_tcg_contact row) (db w))))
  /\
  (forall row,
     distinct (map tcg_attachments.id_tcg_attachment (attachments (db w)))
     = true ->
     In row (attachments (db w)) ->
     fst (AttachmentService.getAttachment
            (tcg_attachments.id_tcg_attachment row) (Some linkedUserId)
            (Some integrationId) connection_id project_id false w)
     = Ok (AttachmentService.unified row
             (fieldMappingsMap (tcg_attachments.id_tcg_attachment row)
                (db w)))).
Proof.
  split; [|split; [|split]]; intros row Hdistinct Hin.
  - rewrite getTeam_run.
    rewrite (find_by_key tcg_teams.id_tcg_team _ row
               (distinct_NoDup _ Hdistinct) Hin).
    reflexivity.
  - rewrite getAccount_run.
    rewrite (find_by_key tcg_accounts.id_tcg_account _ row
               (distinct_NoDup _ Hdistinct) Hin).
    reflexivity.
  - rewrite getContact_run.
    rewrite (find_by_key tcg_contacts.id_tcg_contact _ row
               (distinct_NoDup _ Hdistinct) Hin).
    reflexivity.
  - rewrite getAttachment_run.
    rewrite (find_by_key tcg_attachments.id_tcg_attachment _ row
               (distinct_NoDup _ Hdistinct) Hin).
    reflexivity.
Qed.

Lemma single_read_ignores_connection_witness :
  tcg_teams.id_connection (Example.team "t9" "Elsewhere" 15 "c2") = "c2" /\
  fst (@TeamService.getTeam Example.literals "t9" "lu1" "zendesk" "c1" "p1"
         false Example.world)
  = Ok (TeamService.unified (Example.team "t9" "Elsewhere" 15 "c2") []).
Proof.
  split; [reflexivity|].
  exact (proj1 (@single_read_ignores_connection Example.literals Example.world
                  "c1" "p1" "zendesk" "lu1")
           (Example.team "t9" "Elsewhere" 15 "c2") eq_refl
           (or_intror (or_introl eq_refl))).
Defined.

(* ===================================================================== *)
(** ** More about [addTicket] *)
(* ===================================================================== *)

Lemma validateAccountId_unknown (id : string) (w : World) :
  id <> "" ->
  (forall r, In r (accounts (db w)) -> tcg_accounts.id_tcg_account r <> id) ->
  TicketService.validateAccountId (Some id) w =
  (Err (ReferenceError "You inserted an account_id which does not exist"), w).
Proof.
  intros Hid Hnone. unfold TicketService.validateAccountId, truthy.
  apply String.eqb_neq in Hid. rewrite Hid. cbn [negb]. step.
  unfold findUnique. rewrite find_absent; [reflexivity|].
  intros r Hr. apply String.eqb_neq, Hnone, Hr.
Qed.

Lemma validateContactId_unknown (id : string) (w : World) :
  id <> "" ->
  (forall r, In r (contacts (db w)) -> tcg_contacts.id_tcg_contact r <> id) ->
  TicketService.validateContactId (Some id) w =
  (Err (ReferenceError "You inserted a contact_id which does not exist"), w).
Proof.
  intros Hid Hnone. unfold TicketService.validateContactId, truthy.
  apply String.eqb_neq in Hid. rewrite Hid. cbn [negb]. step.
  unfold findUnique. rewrite find_absent; [reflexivity|].
  intros r Hr. apply String.eqb_neq, Hnone, Hr.
Qed.

(** X17. [addTicket] checks the account before the contact, and both
    before anything is written.  For a stored linked user, an [account_id]
    that is the id of no account fails the push with "You inserted an
    account_id which does not exist"; when the account check passes, a
    [contact_id] that is the id of no contact fails it with "You inserted a
    contact_id which does not exist".  In both cases nothing is written.
    An empty string is not looked up. *)
Theorem addTicket_unknown_account_or_contact `{WebhookService}
    `{TicketCollaborators} (w : World)
    (unifiedTicketData : UnifiedTicketingTicketInput.t)
    (connection_id integrationId linkedUserId project_id : string)
    (remote_data : bool) :
  (exists linkedUser, In linkedUser (linkedUsers (db w)) /\
     linked_users.id_linked_user linkedUser = linkedUserId) ->
  (forall id,
     UnifiedTicketingTicketInput.account_id unifiedTicketData = Some id ->
     id <> "" ->
     (forall r, In r (accounts (db w)) ->
                tcg_accounts.id_tcg_account r <> id) ->
     TicketService.addTicket unifiedTicketData connection_id integrationId
       linkedUserId project_id remote_data w =
     (Err (ReferenceError "You inserted an account_id which does not exist"),
      w))
  /\
  (forall id,
     fst (TicketService.validateAccountId
            (UnifiedTicketingTicketInput.account_id unifiedTicketData) w)
     = Ok tt ->
     UnifiedTicketingTicketInput.contact_id unifiedTicketData = Some id ->
     id <> "" ->
     (forall r, In r (contacts (db w)) ->
                tcg_contacts.id_tcg_contact r <> id) ->
     TicketService.addTicket unifiedTicketData connection_id integrationId
       linkedUserId project_id remote_data w =
     (Err (ReferenceError "You inserted a contact_id which does not exist"),
      w))
  /\
  TicketService.validateAccountId (Some "") w = (Ok tt, w)
  /\
  TicketService.validateContactId (Some "") w = (Ok tt, w).
Proof.
  intros [linkedUser0 [Hlu0 Hid0]].
  assert (Hlu : exists linkedUser,
            findUnique (fun r => String.eqb (linked_users.id_linked_user r)
                                            linkedUserId)
                       (linkedUsers (db w)) = Some linkedUser).
  { unfold findUnique.
    destruct (find _ (linkedUsers (db w))) as [linkedUser|] eqn:Hfind;
      [eauto|].
    exfalso. apply (find_none _ _ Hfind) in Hlu0.
    apply String.eqb_neq in Hlu0. contradiction. }
  destruct Hlu as [linkedUser Hlu].
  split; [|split; [|split; reflexivity]].
  - intros id Haccount Hid Hnone. unfold TicketService.addTicket.
    rewrite bind_run, validateLinkedUser_run, Hlu, bind_run, Haccount.
    rewrite (validateAccountId_unknown id w Hid Hnone). reflexivity.
  - intros id Haccount Hcontact Hid Hnone. unfold TicketService.addTicket.
    rewrite bind_run, validateLinkedUser_run, Hlu, bind_run.
    destruct (validateAccountId_run
                (UnifiedTicketingTicketInput.account_id unifiedTicketData) w)
      as [Hok | Hfail]; [|rewrite Hfail in Haccount; discriminate].
    rewrite Hok, bind_run, Hcontact.
    rewrite (validateContactId_unknown id w Hid Hnone). reflexivity.
Qed.

Lemma addTicket_unknown_account_or_contact_witness :
  @TicketService.addTicket Example.delivering Example.collaborators
    (Refusal.about (Some "a7") (Some "k7")) "c1" "zendesk" "lu1" "p1" false
    Example.world =
  (Err (ReferenceError "You inserted an account_id which does not exist"),
   Example.world)
  /\
  @TicketService.addTicket Example.delivering Example.collaborators
    (Refusal.about (Some "a1") (Some "k7")) "c1" "zendesk" "lu1" "p1" false
    Example.world =
  (Err (ReferenceError "You inserted a contact_id which does not exist"),
   Example.world).
Proof.
  split.
  - apply (proj1 (@addTicket_unknown_account_or_contact Example.delivering
                    Example.collaborators Example.world
                    (Refusal.about (Some "a7") (Some "k7")) "c1" "zendesk"
                    "lu1" "p1" false
                    (ex_intro _ _ (conj (or_introl eq_refl) eq_refl)))
             "a7" eq_refl).
    + discriminate.
    + intros r Hr. cbn in Hr.
      repeat (destruct Hr as [<-|Hr]; [discriminate|]). destruct Hr.
  - apply (proj1 (proj2 (@addTicket_unknown_account_or_contact
                           Example.delivering Example.collaborators
                           Example.world
                           (Refusal.about (Some "a1") (Some "k7")) "c1"
                           "zendesk" "lu1" "p1" false
                           (ex_intro _ _ (conj (or_introl eq_refl) eq_refl))))
             "k7" eq_refl eq_refl).
    + discriminate.
    + intros r Hr. cbn in Hr.
      repeat (destruct Hr as [<-|Hr]; [discriminate|]). destruct Hr.
Defined.

Lemma validateAttachment_run (id : string) (w : World) :
  TicketService.validateAttachment (JString id) w =
  (if existsb (fun r => String.eqb (tcg_attachments.id_tcg_attachment r) id)
              (attachments (db w))
   then Ok tt
   else Err (ReferenceError
               "You inserted an attachment_id which does not exist"),
   w).
Proof.
  unfold TicketService.validateAttachment. step. unfold findUnique.
  destruct (find _ (attachments (db w))) as [u|] eqn:Hfind.
  - apply find_some in Hfind.
    replace (existsb _ (attachments (db w))) with true; [reflexivity|].
    symmetry. apply existsb_exists. exists u. exact Hfind.
  - replace (existsb _ (attachments (db w))) with false; [reflexivity|].
    symmetry. apply existsb_fresh. intros r Hr.
    apply String.eqb_neq. exact (find_none _ _ Hfind r Hr).
Qed.

(** The lookups of [processAttachments] on an array of ids. *)
Lemma processAttachments_ids_run `{TicketCollaborators} (ids : list string)
    (connection_id linkedUserId integrationId : string) (w : World) :
  ids <> [] ->
  TicketService.processAttachments (Some (map JString ids)) connection_id
    linkedUserId integrationId w =
  (onOk (traverse
           (fun id =>
              if existsb
                   (fun r => String.eqb (tcg_attachments.id_tcg_attachment r)
                                        id)
                   (attachments (db w))
              then Ok tt
              else Err (ReferenceError
                          "You inserted an attachment_id which does not exist"))
           ids)
        (fun _ => Ok (map JString ids)), w).
Proof.
  intros Hids. destruct ids as [|id0 rest]; [contradiction|].
  unfold TicketService.processAttachments. cbn [map]. rewrite bind_run.
  change (JString id0 :: map JString rest) with (map JString (id0 :: rest)).
  rewrite (Promise_all_map_reads TicketService.validateAttachment
             (fun j d =>
                match j with
                | JString id =>
                    if existsb
                         (fun r => String.eqb
                                     (tcg_attachments.id_tcg_attachment r) id)
                         (attachments d)
                    then Ok tt
                    else Err (ReferenceError
                         "You inserted an attachment_id which does not exist")
                | _ => fst (TicketService.validateAttachment j
                              {| db := d; now := 0;
                                 uuidSource := fun _ => ""; uuidCount := 0;
                                 dispatched := [] |})
                end)).
  - rewrite traverse_map.
    destruct (traverse _ (id0 :: rest)); reflexivity.
  - intros j w0. destruct j; try reflexivity. apply validateAttachment_run.
Qed.

(** X18. [processAttachments] given an array of ids only looks them up,
    each by its id alone: when every id is the id of a stored attachment it
    returns the array as it is, when one is not it throws "You inserted an
    attachment_id which does not exist", wherever in the array that id is.
    It writes nothing either way.  Without attachments it returns the empty
    array. *)
Theorem processAttachments_of_ids `{TicketCollaborators} (ids : list string)
    (connection_id linkedUserId integrationId : string) (w : World) :
  (ids <> [] ->
   (forall id, In id ids ->
      exists r, In r (attachments (db w)) /\
                tcg_attachments.id_tcg_attachment r = id) ->
   TicketService.processAttachments (Some (map JString ids)) connection_id
     linkedUserId integrationId w = (Ok (map JString ids), w))
  /\
  (forall missing,
     In missing ids ->
     (forall r, In r (attachments (db w)) ->
                tcg_attachments.id_tcg_attachment r <> missing) ->
     TicketService.processAttachments (Some (map JString ids)) connection_id
       linkedUserId integrationId w =
     (Err (ReferenceError
             "You inserted an attachment_id which does not exist"), w))
  /\
  TicketService.processAttachments None connection_id linkedUserId
    integrationId w = (Ok [], w)
  /\
  TicketService.processAttachments (Some []) connection_id linkedUserId
    integrationId w = (Ok [], w).
Proof.
  split; [|split; [|split; reflexivity]].
  - intros Hids Hall. rewrite processAttachments_ids_run by exact Hids.
    destruct (traverse_succeeds
                (fun id =>
                   if existsb
                        (fun r => String.eqb
                                    (tcg_attachments.id_tcg_attachment r) id)
                        (attachments (db w))
                   then Ok tt
                   else Err (ReferenceError
                          "You inserted an attachment_id which does not exist"))
                ids) as [bs Hbs].
    + intros id Hid. destruct (Hall id Hid) as [r [Hr Hkey]].
      replace (existsb _ (attachments (db w))) with true; [eauto|].
      symmetry. apply existsb_exists. exists r. split; [exact Hr|].
      apply String.eqb_eq, Hkey.
    + rewrite Hbs. reflexivity.
  - intros missing Hin Hnone.
    rewrite processAttachments_ids_run
      by (intros ->; contradiction).
    rewrite (traverse_fails _
               (ReferenceError
                  "You inserted an attachment_id which does not exist")
               ids missing); [reflexivity| |exact Hin|].
    + intros y _ e'.
      match goal with |- context [if ?b then _ else _] => destruct b end;
        congruence.
    + rewrite existsb_fresh by exact Hnone. reflexivity.
Qed.

Lemma processAttachments_of_ids_witness :
  @TicketService.processAttachments Example.collaborators
    (Some [JString "f2"; JString "f1"]) "c2" "lu1" "zendesk" Example.world
  = (Ok [JString "f2"; JString "f1"], Example.world)
  /\
  @TicketService.processAttachments Example.collaborators
    (Some [JString "f2"; JString "f7"]) "c1" "lu1" "zendesk" Example.world
  = (Err (ReferenceError
            "You inserted an attachment_id which does not exist"),
     Example.world).
Proof.
  split.
  - apply (proj1 (@processAttachments_of_ids Example.collaborators
                    ["f2"; "f1"] "c2" "lu1" "zendesk" Example.world)).
    + discriminate.
    + intros id [<-|[<-|[]]].
      * exists (Example.attachment "f2" "b.png" None 6 "c1").
        split; [right; left; reflexivity|reflexivity].
      * exists (Example.attachment "f1" "a.png" (Some "r1") 5 "c1").
        split; [left; reflexivity|reflexivity].
  - apply (proj1 (proj2 (@processAttachments_of_ids Example.collaborators
                           ["f2"; "f7"] "c1" "lu1" "zendesk" Example.world))
             "f7").
    + cbn. auto.
    + intros r Hr. cbn in Hr.
      repeat (destruct Hr as [<-|Hr]; [discriminate|]). destruct Hr.
Defined.

(** One statement of a method in a run that returns: the statement
    returned. *)
Ltac ok_step Hrun :=
  rewrite bind_run in Hrun;
  match type of Hrun with
  | (let (_, _) := ?run in _) = _ =>
      destruct run as [[? | ?] ?] eqn:?; [|discriminate Hrun]
  end.

(** X19. A push of a ticket that returns has written its event and
    dispatched its webhook last.  The event has type
    [ticketing.ticket.push] and method [PUSH]; its status is [success] when
    the provider answered with status code 201 and [fail] otherwise: a
    ticket the provider answered otherwise for is stored, returned and
    announced like any other.  The webhook has type
    [ticketing.ticket.created] and carries the returned ticket, the project
    of the linked user and the id of that event. *)
Theorem addTicket_event_status `{WebhookService} `{TicketCollaborators}
    (w w' : World) (unifiedTicketData : UnifiedTicketingTicketInput.t)
    (connection_id integrationId linkedUserId project_id : string)
    (remote_data : bool) (result_ticket : UnifiedTicketingTicketOutput.t) :
  TicketService.addTicket unifiedTicketData connection_id integrationId
    linkedUserId project_id remote_data w = (Ok result_ticket, w') ->
  exists (linkedUser : linked_users.row) (resp : ApiResponse) (w0 : World),
    (In linkedUser (linkedUsers (db w)) /\
     linked_users.id_linked_user linkedUser = linkedUserId)
    /\
    (exists service desunifiedObject before after,
       getService integrationId = Some service /\
       service desunifiedObject linkedUserId before = (Ok resp, after))
    /\
    let event := ticketPushed connection_id project_id (statusOf resp)
                   integrationId linkedUserId w0 in
    w' = afterHook (ticketCreated result_ticket linkedUser event)
           (afterEvent event w0).
Proof.
  intros Hrun. unfold TicketService.addTicket in Hrun. cbv zeta in Hrun.
  rewrite bind_run, validateLinkedUser_run in Hrun.
  destruct (findUnique _ (linkedUsers (db w))) as [linkedUser|] eqn:Hlu;
    [|discriminate Hrun].
  do 6 ok_step Hrun.
  rewrite bind_run in Hrun.
  destruct (getService integrationId) as [service|] eqn:Hservice;
    [|discriminate Hrun].
  cbn [derefOr ret] in Hrun.
  do 2 ok_step Hrun.
  rewrite bind_run in Hrun.
  match type of Hrun with
  | context [hd_error ?l] => destruct l as [|target_ticket rest]
  end; [discriminate Hrun|].
  cbn [hd_error derefOr ret] in Hrun.
  do 4 ok_step Hrun.
  rewrite bind_run, events_create_run, bind_run in Hrun.
  unfold dispatchWebhook in Hrun.
  match type of Hrun with
  | context [dispatchOutcome ?h] => destruct (dispatchOutcome h)
  end; [discriminate Hrun|].
  cbn [ret] in Hrun. injection Hrun as Hticket Hworld.
  subst result_ticket w'.
  unfold findUnique in Hlu. apply find_some in Hlu.
  destruct Hlu as [Hin Hid]. apply String.eqb_eq in Hid.
  match goal with
  | Hs : service ?d _ ?wa = (Ok ?resp, ?wb),
    Hg : getTicket _ _ _ _ _ _ _ = (Ok _, ?wn) |- _ =>
      exists linkedUser, resp, wn;
      split; [split; [exact Hin|exact Hid]|];
      split; [exists service, d, wa, wb; split; [reflexivity|exact Hs]|]
  end.
  reflexivity.
Qed.

Lemma addTicket_event_status_witness :
  exists ticket w',
    @TicketService.addTicket Example.delivering Refusal.collaborators
      (Example.bug None) "c1" "zendesk" "lu1" "p1" false Example.fresh
    = (Ok ticket, w')
    /\ map tcg_tickets.remote_id (tickets (db w')) = [Some "rt-1"]
    /\ map events.status (eventLog (db w')) = ["fail"]
    /\ map hookEventType (dispatched w') = ["ticketing.ticket.created"]
    /\ exists linkedUser resp w0,
         statusCode resp = 400 /\
         w' = afterHook
                (ticketCreated ticket linkedUser
                   (ticketPushed "c1" "p1" (statusOf resp) "zendesk" "lu1"
                      w0))
                (afterEvent
                   (ticketPushed "c1" "p1" (statusOf resp) "zendesk" "lu1"
                      w0) w0).
Proof.
  eexists. eexists.
  assert (Hrun :
            @TicketService.addTicket Example.delivering Refusal.collaborators
              (Example.bug None) "c1" "zendesk" "lu1" "p1" false Example.fresh
            = (Ok _, _)) by (vm_compute; reflexivity).
  split; [exact Hrun|].
  split; [reflexivity|]. split; [reflexivity|]. split; [reflexivity|].
  destruct (@addTicket_event_status Example.delivering Refusal.collaborators
              _ _ _ _ _ _ _ _ _ Hrun)
    as [linkedUser [resp [w0 [_ [[service [d [wa [wb [Hservice Hresp]]]]]
                                   Hworld]]]]].
  exists linkedUser, resp, w0. split; [|exact Hworld].
  cbn in Hservice. injection Hservice as <-. cbn in Hresp.
  injection Hresp as <- _. reflexivity.
Defined.

(* ===================================================================== *)
(** ** More about the upserts *)
(* ===================================================================== *)

Lemma replaceFirst_In {R} (p : R -> bool) (new : R) (l : list R) (x : R) :
  find p l = Some x -> In new (replaceFirst p new l).
Proof.
  induction l as [|y rest IH]; cbn [find replaceFirst]; [discriminate|].
  destruct (p y); intros Hfind; [left; reflexivity|right; auto].
Qed.

(** X20. The ticket upsert looks for the ticket by the remote id of the
    provider's answer, and an answer without a remote id puts no condition
    on it: on a connection that holds a ticket, such an answer creates no
    ticket but overwrites the first ticket of the connection, which keeps
    its remote id and its [created_at]. *)
Theorem ticket_without_remote_id (w : World)
    (ticket : UnifiedTicketingTicketOutput.t) (connection_id : string) :
  UnifiedTicketingTicketOutput.remote_id ticket = None ->
  distinct (map tcg_tickets.id_tcg_ticket (tickets (db w))) = true ->
  existsb (fun r => String.eqb (tcg_tickets.id_tcg_ticket r)
                               (uuidSource w (uuidCount w)))
          (tickets (db w)) = false ->
  (exists r, In r (tickets (db w)) /\
             tcg_tickets.id_connection r = connection_id) ->
  exists found w' stored,
    find (fun r => String.eqb (tcg_tickets.id_connection r) connection_id)
         (tickets (db w)) = Some found
    /\ TicketService.saveOrUpdateTicket ticket connection_id w
       = (Ok (tcg_tickets.id_tcg_ticket found), w')
    /\ List.length (tickets (db w')) = List.length (tickets (db w))
    /\ In stored (tickets (db w'))
    /\ tcg_tickets.name stored
       = TicketService.orKeep (UnifiedTicketingTicketOutput.name ticket)
           (tcg_tickets.name found)
    /\ tcg_tickets.remote_id stored = tcg_tickets.remote_id found
    /\ tcg_tickets.created_at stored = tcg_tickets.created_at found.
Proof.
  intros Hremote Hdistinct Hfresh [r [Hr Hconn]].
  destruct (find (fun r => String.eqb (tcg_tickets.id_connection r)
                                      connection_id)
                 (tickets (db w))) as [found|] eqn:Hfind.
  2: { exfalso. apply (find_none _ _ Hfind) in Hr.
       apply String.eqb_neq in Hr. contradiction. }
  assert (Hfound : TicketService.existingTicket
                     (UnifiedTicketingTicketOutput.remote_id ticket)
                     connection_id (db w) = Some found).
  { unfold TicketService.existingTicket, findFirst. rewrite Hremote.
    exact Hfind. }
  assert (Hin : In found (tickets (db w)))
    by (apply find_some in Hfind; apply Hfind).
  exists found.
  rewrite saveOrUpdateTicket_run. cbv zeta. rewrite Hfound.
  rewrite (prismaUpdate_located tcg_tickets.id_tcg_ticket (tickets (db w))
             found
             (TicketService.updated (uuidSource w (uuidCount w)) (now w) ticket
                connection_id)
             (distinct_NoDup _ Hdistinct) Hin)
    by (right; exact Hfresh).
  eexists.
  exists (TicketService.updated (uuidSource w (uuidCount w)) (now w) ticket
            connection_id found).
  split; [reflexivity|]. split; [reflexivity|].
  cbn [withDb db setTickets tickets].
  split; [apply replaceFirst_length|].
  split.
  - apply (replaceFirst_In _ _ _ found).
    apply (find_by_key tcg_tickets.id_tcg_ticket _ found
             (distinct_NoDup _ Hdistinct) Hin).
  - cbn [TicketService.updated tcg_tickets.name tcg_tickets.remote_id
         tcg_tickets.created_at].
    rewrite Hremote. repeat split; reflexivity.
Qed.

Lemma ticket_without_remote_id_witness :
  exists w' stored,
    TicketService.saveOrUpdateTicket Unkeyed.answer "c1" Example.world
    = (Ok "k-1", w')
    /\ tickets (db w') = [stored]
    /\ tcg_tickets.name stored = Some "Other"
    /\ tcg_tickets.remote_id stored = Some "rt-1".
Proof.
  destruct (ticket_without_remote_id Example.world Unkeyed.answer "c1"
              eq_refl eq_refl eq_refl
              (ex_intro _ (Example.ticket "k-1" "rt-1" "Bug" 40 "c1")
                 (conj (or_introl eq_refl) eq_refl)))
    as [found [w' [stored [Hfind [Hrun [Hlen [Hin [Hname [Hremote _]]]]]]]]].
  cbn in Hfind. injection Hfind as <-.
  exists w', stored. split; [exact Hrun|].
  cbn in Hlen, Hname, Hremote.
  destruct (tickets (db w')) as [|t [|t' rest]]; try discriminate Hlen.
  destruct Hin as [->|[]].
  split; [reflexivity|]. split; [exact Hname|exact Hremote].
Defined.

Lemma replaceFirst_split {R} (p : R -> bool) (new : R) (l : list R) (x : R) :
  find p l = Some x ->
  exists front back,
    l = front ++ x :: back /\ replaceFirst p new l = front ++ new :: back.
Proof.
  induction l as [|y rest IH]; cbn [find replaceFirst]; [discriminate|].
  destruct (p y).
  - intros Hfind. injection Hfind as ->. exists [], rest. split; reflexivity.
  - intros Hfind. destruct (IH Hfind) as [front [back [Hl Hr]]].
    exists (y :: front), back. cbn [app]. rewrite <- Hl, <- Hr.
    split; reflexivity.
Qed.

(** X21. An upsert changes one row.  When the attachment upsert of
    [addAttachment] or the ticket upsert returns an id, the table is the
    table before with the row of that id replaced where it stands, or with
    a row of that id added at the end; every other table is as it was, and
    so are the webhooks dispatched. *)
Theorem upsert_changes_one_row (w w' : World) (connection_id : string)
    (id : string) :
  (forall input linkedUserId,
     AttachmentService.saveOrUpdateAttachment input connection_id
       linkedUserId w = (Ok id, w') ->
     oneRowChanged tcg_attachments.id_tcg_attachment id
       (attachments (db w)) (attachments (db w'))
     /\ db w' = setAttachments (attachments (db w')) (db w)
     /\ dispatched w' = dispatched w)
  /\
  (forall ticket,
     TicketService.saveOrUpdateTicket ticket connection_id w = (Ok id, w') ->
     oneRowChanged tcg_tickets.id_tcg_ticket id
       (tickets (db w)) (tickets (db w'))
     /\ db w' = setTickets (tickets (db w')) (db w)
     /\ dispatched w' = dispatched w).
Proof.
  split.
  - intros input linkedUserId Hrun.
    rewrite saveOrUpdateAttachment_run in Hrun. cbv zeta in Hrun.
    destruct (AttachmentService.existingAttachment _ connection_id (db w))
      as [existing|].
    + unfold prismaUpdate in Hrun.
      destruct (find _ (attachments (db w))) as [old|] eqn:Hold;
        [|discriminate Hrun].
      match type of Hrun with
      | context [if ?b then _ else _] => destruct b
      end; [discriminate Hrun|].
      cbv zeta in Hrun. injection Hrun as Hid Hworld. subst w'.
      cbn [AttachmentService.updated tcg_attachments.id_tcg_attachment]
        in Hid.
      split; [|split; reflexivity].
      cbn [withDb db setAttachments attachments].
      destruct (replaceFirst_split _
                  (AttachmentService.updated
                     (UnifiedTicketingAttachmentInput.file_name input)
                     linkedUserId (now w) old) _ _ Hold)
        as [front [back [Hbefore Hafter]]].
      left. exists front, old. eexists. exists back.
      split; [exact Hbefore|]. split; [exact Hafter|exact Hid].
    + unfold prismaCreate in Hrun.
      destruct (existsb _ (attachments (db w))); [discriminate Hrun|].
      injection Hrun as Hid Hworld. subst w'.
      split; [|split; reflexivity].
      cbn [withDb db setAttachments attachments afterUuid].
      right. eexists. split; [reflexivity|exact Hid].
  - intros ticket Hrun.
    rewrite saveOrUpdateTicket_run in Hrun. cbv zeta in Hrun.
    destruct (TicketService.existingTicket _ connection_id (db w))
      as [existing|].
    + unfold prismaUpdate in Hrun.
      destruct (find _ (tickets (db w))) as [old|] eqn:Hold;
        [|discriminate Hrun].
      match type of Hrun with
      | context [if ?b then _ else _] => destruct b
      end; [discriminate Hrun|].
      cbv zeta in Hrun. injection Hrun as Hid Hworld. subst w'.
      split; [|split; reflexivity].
      cbn [withDb db setTickets tickets afterUuid].
      destruct (replaceFirst_split _
                  (TicketService.updated (uuidSource w (uuidCount w)) (now w)
                     ticket connection_id old) _ _ Hold)
        as [front [back [Hbefore Hafter]]].
      apply find_some in Hold. destruct Hold as [_ Hold].
      apply String.eqb_eq in Hold.
      left. exists front, old. eexists. exists back.
      split; [exact Hbefore|]. split; [exact Hafter|congruence].
    + unfold prismaCreate in Hrun.
      destruct (existsb _ (tickets (db w))); [discriminate Hrun|].
      injection Hrun as Hid Hworld. subst w'.
      split; [|split; reflexivity].
      cbn [withDb db setTickets tickets afterUuid].
      right. eexists. split; [reflexivity|exact Hid].
Qed.

(** The upsert of [a.png] on [c1]: the row [f1] is replaced where it
    stands, before [f2]. *)
Lemma upsert_changes_one_row_witness :
  exists w',
    AttachmentService.saveOrUpdateAttachment (Cases.png "a.png") "c1" "lu2"
      Example.world = (Ok "f1", w')
    /\ oneRowChanged tcg_attachments.id_tcg_attachment "f1"
         (attachments (db Example.world)) (attachments (db w'))
    /\ map tcg_attachments.id_tcg_attachment (attachments (db w'))
       = ["f1"; "f2"]
    /\ map tcg_attachments.uploader (attachments (db w')) = ["lu2"; "lu1"]
    /\ tickets (db w') = tickets (db Example.world)
    /\ eventLog (db w') = eventLog (db Example.world).
Proof.
  eexists.
  assert (Hrun :
            AttachmentService.saveOrUpdateAttachment (Cases.png "a.png") "c1"
              "lu2" Example.world = (Ok "f1", _))
    by (vm_compute; reflexivity).
  split; [exact Hrun|].
  destruct (proj1 (upsert_changes_one_row Example.world _ "c1" "f1")
              (Cases.png "a.png") "lu2" Hrun) as [Hone [Hdb _]].
  split; [exact Hone|]. split; [reflexivity|]. split; [reflexivity|].
  split; rewrite Hdb; reflexivity.
Defined.

(* ===================================================================== *)
(** ** Single reads and events *)
(* ===================================================================== *)

(** X22. A single read of a team, an account or a contact that returns
    has written one event, of type [ticketing.team.pull],
    [ticketing.account.pull] or [ticketing.contact.pull], under the
    connection, project, provider and linked user of the call; a single read
    that throws has written nothing. *)
Theorem one_event_per_single_read `{Runtime}
    (id linkedUserId integrationId connection_id project_id : string)
    (remote_data : bool) (w : World) :
  (let (outcome, w') :=
     TeamService.getTeam id linkedUserId integrationId connection_id
       project_id remote_data w in
   match outcome with
   | Ok _ => w' = afterEvent (pullEvent connection_id project_id
                                "ticketing.team.pull" "/ticketing/team"
                                integrationId linkedUserId w) w
   | Err _ => w' = w
   end)
  /\
  (let (outcome, w') :=
     AccountService.getAccount id integrationId linkedUserId connection_id
       project_id remote_data w in
   match outcome with
   | Ok _ => w' = afterEvent (pullEvent connection_id project_id
                                "ticketing.account.pull" "/ticketing/account"
                                integrationId linkedUserId w) w
   | Err _ => w' = w
   end)
  /\
  (let (outcome, w') :=
     ContactService.getContact id linkedUserId integrationId connection_id
       project_id remote_data w in
   match outcome with
   | Ok _ => w' = afterEvent (pullEvent connection_id project_id
                                "ticketing.contact.pull" "/ticketing/contact"
                                integrationId linkedUserId w) w
   | Err _ => w' = w
   end).
Proof.
  split; [|split].
  - rewrite getTeam_run.
    destruct (find _ (teams (db w))) as [row|]; [|reflexivity].
    destruct (recordOf _ _ _ _ _ (db w) row); reflexivity.
  - rewrite getAccount_run.
    destruct (find _ (accounts (db w))) as [row|]; [|reflexivity].
    destruct (recordOf _ _ _ _ _ (db w) row); reflexivity.
  - rewrite getContact_run.
    destruct (find _ (contacts (db w))) as [row|]; [|reflexivity].
    destruct (recordOf _ _ _ _ _ (db w) row); reflexivity.
Qed.
